(** * Eurovision audio-feature dataset: extraction, flattening and join

    A shallow embedding of [audio_features.py] (the statistical summariser
    and the feature extractor) and of [merge_data.py] (the flattener, the
    artifact resolver and the catalog join), followed by the properties of
    the specification that concern them.

    Python values are modelled by a small universe of JSON-like objects,
    Python dictionaries by association lists that keep insertion order,
    exceptions by an error monad, and 64-bit floats by the IEEE-754
    binary64 instance of the standard library's [SpecFloat]. *)

From Stdlib Require Import List String Ascii ZArith Bool Lia DecimalString.
From Stdlib Require Import DecimalNat Permutation.
From Stdlib Require Import Floats.SpecFloat.
Import ListNotations.

Set Warnings "-register-all".

Open Scope string_scope.

(* ================================================================== *)
(** * Exceptions *)

(** The Python exceptions that the modelled code can raise. *)
Inductive exn : Type :=
  | AttributeError   (* [.get] or [.items] on an object that has none *)
  | ValueError       (* zero-size reduction, [int] of a non-number *)
  | IndexError       (* fancy indexing out of range *)
  | JSONDecodeError. (* [json.load] on a document that does not parse *)

Inductive except (A : Type) : Type :=
  | Ok (a : A)
  | Raise (e : exn).

Arguments Ok {A} a.
Arguments Raise {A} e.

Definition bind {A B : Type} (m : except A) (f : A -> except B) : except B :=
  match m with
  | Ok a => f a
  | Raise e => Raise e
  end.

Notation "x <- m ;; k" := (bind m (fun x => k))
  (at level 61, m at next level, right associativity).

Definition is_ok {A : Type} (m : except A) : bool :=
  match m with Ok _ => true | Raise _ => false end.

(* ================================================================== *)
(** * IEEE-754 binary64 *)

(** A binary64 number. *)
Abbreviation float := spec_float.

Module Float64.

Definition prec : Z := 53.
Definition emax : Z := 1024.

Definition add : float -> float -> float := SFadd prec emax.
Definition sub : float -> float -> float := SFsub prec emax.
Definition mul : float -> float -> float := SFmul prec emax.
Definition div : float -> float -> float := SFdiv prec emax.

Definition leb : float -> float -> bool := SFleb.

Definition nan : float := S754_nan.
Definition zero : float := S754_zero false.

Definition isnan (x : float) : bool :=
  match x with S754_nan => true | _ => false end.

(** [float(n)] for an integer [n]. *)
Definition of_Z (n : Z) : float := binary_normalize prec emax n 0 false.
Definition of_nat (n : nat) : float := of_Z (Z.of_nat n).





End Float64.

(* ================================================================== *)
(** * Python objects and dictionaries *)

(** The objects that [json.load] builds, which are also the objects that
    [json.dump] accepts. *)
Inductive pyobj : Type :=
  | PNone
  | PBool (b : bool)
  | PInt (n : Z)
  | PFloat (x : float)
  | PStr (s : string)
  | PList (l : list pyobj)
  | PDict (d : list (string * pyobj)).

(** A [dict] with string keys: entries in insertion order. *)
Definition dict : Type := list (string * pyobj).

Fixpoint dict_lookup (d : dict) (k : string) : option pyobj :=
  match d with
  | [] => None
  | (k', v) :: rest => if String.eqb k' k then Some v else dict_lookup rest k
  end.

(** [d.get(k, default)] *)
Definition dict_get (d : dict) (k : string) (default : pyobj) : pyobj :=
  match dict_lookup d k with
  | Some v => v
  | None => default
  end.

(** [d[k] = v]: an existing key keeps its position and takes the new
    value, a new key goes to the end. *)
Fixpoint dict_set (d : dict) (k : string) (v : pyobj) : dict :=
  match d with
  | [] => [(k, v)]
  | (k', v') :: rest =>
      if String.eqb k' k then (k', v) :: rest
      else (k', v') :: dict_set rest k v
  end.

Definition keys (d : dict) : list string := map fst d.
Definition values (d : dict) : list pyobj := map snd d.

(** [str(i)] for a non-negative integer, as an f-string renders it. *)
Definition str_of_nat (i : nat) : string :=
  NilEmpty.string_of_uint (Nat.to_uint i).

(** [str(n)] for an integer. *)
Definition str_of_Z (n : Z) : string :=
  NilZero.string_of_int (Z.to_int n).

(* ================================================================== *)
(** * merge_data.py: the flattener *)

(** The seven sub-fields of a statistics dictionary, in the order of the
    literal lists of [flatten_audio_features]. *)
Definition stat_keys : list string :=
  ["mean"; "variance"; "median"; "skewness"; "kurtosis"; "min"; "max"].

Definition single_stats_names : list string :=
  ["chroma_stft_stats"; "spectral_centroid_stats";
   "zero_crossing_rate_stats"; "rms_stats"].

(** [f"{stats_name}_{k}"] *)
Definition single_column (stats_name k : string) : string :=
  stats_name ++ "_" ++ k.

(** [f"mfcc_stats_{i}_{k}"], and the same for the other two arrays. *)
Definition band_column (name : string) (i : nat) (k : string) : string :=
  name ++ "_" ++ str_of_nat i ++ "_" ++ k.

(** [for k, v in obj.items(): flat[column k] = v] *)
Definition set_items (column : string -> string) (items : dict) (flat : dict)
  : dict :=
  fold_left (fun fl kv => dict_set fl (column (fst kv)) (snd kv)) items flat.

(** [for k in [...]: flat[column k] = None] *)
Definition set_nones (column : string -> string) (flat : dict) : dict :=
  fold_left (fun fl k => dict_set fl (column k) PNone) stat_keys flat.

(** One round of the loop over the four single statistics dictionaries
    (lines 29-36). *)
Definition flatten_single (audio_data : dict) (flat : dict)
  (stats_name : string) : dict :=
  match dict_get audio_data stats_name (PDict []) with
  | PDict stats_dict => set_items (single_column stats_name) stats_dict flat
  | _ => set_nones (single_column stats_name) flat
  end.

(** [for i, obj in enumerate(array): for k, v in obj.items(): ...];
    [obj.items()] raises when [obj] is not a dictionary. *)
Fixpoint flatten_bands (name : string) (i : nat) (array : list pyobj)
  (flat : dict) : except dict :=
  match array with
  | [] => Ok flat
  | PDict obj :: rest =>
      flatten_bands name (S i) rest (set_items (band_column name i) obj flat)
  | _ :: _ => Raise AttributeError
  end.

(** [for i in range(n): for k in [...]: flat[...] = None] *)
Definition flatten_bands_none (name : string) (n : nat) (flat : dict) : dict :=
  fold_left (fun fl i => set_nones (band_column name i) fl) (seq 0 n) flat.

(** One of the three blocks for the arrays of statistics (lines 40-49,
    52-60 and 63-71), which differ in the field name and in the range of
    the fallback only. *)
Definition flatten_multi (audio_data : dict) (name : string) (n : nat)
  (flat : dict) : except dict :=
  match dict_get audio_data name (PList []) with
  | PList (obj :: rest) => flatten_bands name 0 (obj :: rest) flat
  | _ => Ok (flatten_bands_none name n flat)
  end.

Definition flatten_dict (audio_data : dict) : except dict :=
  let flat := [] in
  let flat := dict_set flat "tempo" (dict_get audio_data "tempo" PNone) in
  let flat := dict_set flat "danceability"
                (dict_get audio_data "danceability" PNone) in
  let flat := dict_set flat "key" (dict_get audio_data "key" PNone) in
  let flat := dict_set flat "duration"
                (dict_get audio_data "duration" PNone) in
  let flat := fold_left (flatten_single audio_data) single_stats_names flat in
  flat <- flatten_multi audio_data "mfcc_stats" 20 flat ;;
  flat <- flatten_multi audio_data "spectral_contrast_stats" 7 flat ;;
  flat <- flatten_multi audio_data "tonnetz_stats" 6 flat ;;
  Ok flat.

(** [flatten_audio_features]: the argument is whatever [json.load]
    returned; [.get] exists on dictionaries only. *)
Definition flatten_audio_features (audio_data : pyobj) : except dict :=
  match audio_data with
  | PDict d => flatten_dict d
  | _ => Raise AttributeError
  end.


(* ================================================================== *)
(** * The numpy operations of audio_features.py

    One-dimensional float64 arrays are lists of floats.  The operations
    follow numpy's documented behaviour: sums accumulate in float64, a
    reduction with no identity raises on a zero-size array, [minimum] and
    [maximum] propagate NaN, the mean of an empty array is NaN. *)

Module Numpy.

Import Float64.

(** [np.sum]: the elements are added in sequence, from 0.  (This is
    numpy's order for fewer than eight elements; on longer arrays numpy
    adds by blocks, which can change the last bits of the sum.  The
    arrays are taken with dtype float64; on a float32 array numpy adds
    in float32.) *)
Definition sum (a : list float) : float := fold_left add a zero.

(** [np.mean]: the sum divided by the number of elements. *)
Definition mean (a : list float) : float :=
  div (sum a) (of_nat (List.length a)).

(** [np.var]: the mean of the squared deviations from the mean
    (denominator N). *)
Definition var (a : list float) : float :=
  let m := mean a in
  mean (map (fun x => let d := sub x m in mul d d) a).

(** [np.minimum] and [np.maximum] on scalars.  Of two values that
    compare equal (zeros of opposite signs) the first is kept here;
    which of the two numpy keeps depends on the loop that it runs. *)
Definition minimum (x y : float) : float :=
  if leb x y || isnan x then x else y.

Definition maximum (x y : float) : float :=
  if leb y x || isnan x then x else y.

(** [np.min] and [np.max]: reductions without identity. *)
Definition min (a : list float) : except float :=
  match a with
  | [] => Raise ValueError
  | x :: rest => Ok (fold_left minimum rest x)
  end.

Definition max (a : list float) : except float :=
  match a with
  | [] => Raise ValueError
  | x :: rest => Ok (fold_left maximum rest x)
  end.

(** [np.clip(x, lo, hi)] on a scalar. *)
Definition clip (x lo hi : float) : float := minimum (maximum x lo) hi.

(** A sorted copy of an array without NaN. *)
Fixpoint insert (x : float) (s : list float) : list float :=
  match s with
  | [] => [x]
  | y :: rest => if leb x y then x :: s else y :: insert x rest
  end.

Definition sort (a : list float) : list float := fold_right insert [] a.

(** [np.median]: NaN as soon as one element is NaN (or the array is
    empty); otherwise the mean of the middle slice of a sorted copy,
    which has one element when the size is odd and two when it is even
    (numpy takes the mean in both cases). *)
Definition median (a : list float) : float :=
  if existsb isnan a then nan
  else
    let s := sort a in
    let n := List.length a in
    match n with
    | O => nan
    | _ =>
        if Nat.even n
        then mean [nth (n / 2 - 1) s nan; nth (n / 2) s nan]
        else mean [nth (n / 2) s nan]
    end.

(** [a.argmax()]: the first index of the largest element; a NaN counts
    as the largest. *)
Fixpoint argmax_from (mp : float) (ind i : nat) (a : list float) : nat :=
  match a with
  | [] => ind
  | x :: rest =>
      if leb x mp then argmax_from mp ind (S i) rest
      else if isnan x then i
      else argmax_from x i (S i) rest
  end.

Definition argmax (a : list float) : except nat :=
  match a with
  | [] => Raise ValueError
  | x :: rest => Ok (if isnan x then O else argmax_from x 0 1 rest)
  end.

(** [row[indices]]: indexing by an integer array. *)
Fixpoint take (row : list float) (indices : list nat)
  : except (list float) :=
  match indices with
  | [] => Ok []
  | i :: rest =>
      match nth_error row i with
      | Some x => xs <- take row rest ;; Ok (x :: xs)
      | None => Raise IndexError
      end
  end.

End Numpy.

(* ================================================================== *)
(** * audio_features.py *)

(** The seven statistics of [detailed_stats]. *)
Record StatSummary : Type := {
  s_mean : float;
  s_variance : float;
  s_median : float;
  s_skewness : float;
  s_kurtosis : float;
  s_min : float;
  s_max : float
}.

(** The dictionary literal that [detailed_stats] returns. *)
Definition stats_dict (s : StatSummary) : dict :=
  [("mean", PFloat (s_mean s));
   ("variance", PFloat (s_variance s));
   ("median", PFloat (s_median s));
   ("skewness", PFloat (s_skewness s));
   ("kurtosis", PFloat (s_kurtosis s));
   ("min", PFloat (s_min s));
   ("max", PFloat (s_max s))].

(** The result of [extract_audio_features]. *)
Record FeatureBundle : Type := {
  b_tempo : float;
  b_danceability : float;
  b_key : string;
  b_duration : float;
  b_chroma_stft_stats : StatSummary;
  b_spectral_centroid_stats : StatSummary;
  b_zero_crossing_rate_stats : StatSummary;
  b_rms_stats : StatSummary;
  b_mfcc_stats : list StatSummary;
  b_spectral_contrast_stats : list StatSummary;
  b_tonnetz_stats : list StatSummary
}.

Definition stats_list (l : list StatSummary) : pyobj :=
  PList (map (fun s => PDict (stats_dict s)) l).

(** The [features] dictionary literal, which is also the document that
    [json.dump] writes and [json.load] reads back. *)
Definition features_dict (b : FeatureBundle) : dict :=
  [("tempo", PFloat (b_tempo b));
   ("danceability", PFloat (b_danceability b));
   ("key", PStr (b_key b));
   ("duration", PFloat (b_duration b));
   ("chroma_stft_stats", PDict (stats_dict (b_chroma_stft_stats b)));
   ("spectral_centroid_stats",
     PDict (stats_dict (b_spectral_centroid_stats b)));
   ("zero_crossing_rate_stats",
     PDict (stats_dict (b_zero_crossing_rate_stats b)));
   ("rms_stats", PDict (stats_dict (b_rms_stats b)));
   ("mfcc_stats", stats_list (b_mfcc_stats b));
   ("spectral_contrast_stats", stats_list (b_spectral_contrast_stats b));
   ("tonnetz_stats", stats_list (b_tonnetz_stats b))].

(** What librosa computes from the audio file: the inputs of the part of
    [extract_audio_features] that is this repository's own.  A
    two-dimensional array is the list of its rows; all arrays are taken
    with dtype float64. *)
Record Analysis : Type := {
  a_tempo : float;
  a_beat_frames : list nat;
  a_chroma : list (list float);
  a_spectral_centroid : list (list float);
  a_zero_crossing_rate : list (list float);
  a_mfcc : list (list float);
  a_spectral_contrast : list (list float);
  a_tonnetz : list (list float);
  a_rms : list (list float);
  a_chroma_cens : list (list float);
  a_duration : float
}.

Definition key_labels : list string :=
  ["C"; "C#"; "D"; "D#"; "E"; "F"; "F#"; "G"; "G#"; "A"; "A#"; "B"].

Section AudioFeatures.

(** [scipy.stats.skew] and [scipy.stats.kurtosis] on a flat array. *)
Variable scipy_skew : list float -> float.
Variable scipy_kurtosis : list float -> float.

(** [detailed_stats] on an array already flattened. *)
Definition detailed_stats (feature_array : list float)
  : except StatSummary :=
  let mean := Numpy.mean feature_array in
  let variance := Numpy.var feature_array in
  let median := Numpy.median feature_array in
  let skewness := scipy_skew feature_array in
  let kurtosis := scipy_kurtosis feature_array in
  min <- Numpy.min feature_array ;;
  max <- Numpy.max feature_array ;;
  Ok {| s_mean := mean; s_variance := variance; s_median := median;
        s_skewness := skewness; s_kurtosis := kurtosis;
        s_min := min; s_max := max |}.

(** [detailed_stats] on a two-dimensional array: [.flatten()] lays the
    rows end to end. *)
Definition detailed_stats_2d (feature_array : list (list float))
  : except StatSummary :=
  detailed_stats (List.concat feature_array).

(** [[detailed_stats(band) for band in array]] *)
Fixpoint detailed_stats_rows (array : list (list float))
  : except (list StatSummary) :=
  match array with
  | [] => Ok []
  | band :: rest =>
      s <- detailed_stats band ;;
      ss <- detailed_stats_rows rest ;;
      Ok (s :: ss)
  end.

(** Lines 41-43. *)
Definition beat_strength (rms : list (list float)) (beat_frames : list nat)
  : except float :=
  match rms with
  | [] => Raise IndexError
  | row0 :: _ =>
      at_beats <- Numpy.take row0 beat_frames ;;
      Ok (Numpy.mean at_beats)
  end.

Definition danceability_raw (tempo strength : float) : float :=
  Float64.mul
    (Float64.mul (Float64.div tempo (Float64.of_Z 200)) strength)
    (Float64.of_Z 10).

Definition danceability_of (tempo : float) (rms : list (list float))
  (beat_frames : list nat) : except float :=
  strength <- beat_strength rms beat_frames ;;
  Ok (Numpy.clip (danceability_raw tempo strength)
        (Float64.of_Z 0) (Float64.of_Z 1)).

(** Lines 34-38. *)
Definition estimate_key (chroma_cens : list (list float)) : except string :=
  let chroma_mean := map Numpy.mean chroma_cens in
  key_index <- Numpy.argmax chroma_mean ;;
  match nth_error key_labels key_index with
  | Some key => Ok key
  | None => Raise IndexError
  end.

Definition extract_audio_features (a : Analysis) : except FeatureBundle :=
  key <- estimate_key (a_chroma_cens a) ;;
  danceability <- danceability_of (a_tempo a) (a_rms a) (a_beat_frames a) ;;
  chroma <- detailed_stats_2d (a_chroma a) ;;
  centroid <- detailed_stats_2d (a_spectral_centroid a) ;;
  zcr <- detailed_stats_2d (a_zero_crossing_rate a) ;;
  rms <- detailed_stats_2d (a_rms a) ;;
  mfcc <- detailed_stats_rows (a_mfcc a) ;;
  contrast <- detailed_stats_rows (a_spectral_contrast a) ;;
  tonnetz <- detailed_stats_rows (a_tonnetz a) ;;
  Ok {| b_tempo := a_tempo a;
        b_danceability := danceability;
        b_key := key;
        b_duration := a_duration a;
        b_chroma_stft_stats := chroma;
        b_spectral_centroid_stats := centroid;
        b_zero_crossing_rate_stats := zcr;
        b_rms_stats := rms;
        b_mfcc_stats := mfcc;
        b_spectral_contrast_stats := contrast;
        b_tonnetz_stats := tonnetz |}.

End AudioFeatures.

(* ================================================================== *)
(** * merge_data.py: the resolver and the join *)

(** A row of [contestants.csv], every cell read as a string; the columns
    that the resolver does not look at are kept as they are. *)
Record CatalogRow : Type := {
  year : string;
  to_country : string;
  performer : string;
  song : string;
  other_columns : list (string * string)
}.

(** [s.replace(old, new)] for one-character [old] and [new]. *)
Fixpoint replace (old new : ascii) (s : string) : string :=
  match s with
  | EmptyString => EmptyString
  | String c rest =>
      String (if Ascii.eqb c old then new else c) (replace old new rest)
  end.

(** The chain of nine replacements of lines 85-87. *)
Definition sanitize (s : string) : string :=
  let hash := "#"%char in
  let s := replace "?" hash s in
  let s := replace "/" hash s in
  let s := replace "\" hash s in
  let s := replace "<" hash s in
  let s := replace ">" hash s in
  let s := replace "034" hash s in
  let s := replace "|" hash s in
  let s := replace "*" hash s in
  replace ":" hash s.

(** [os.path.join(a, b, c)] where neither [b] nor [c] is absolute. *)
Definition os_path_join (a b c : string) : string :=
  a ++ "/" ++ b ++ "/" ++ c.

(** What the file system holds at a path; for a file, what
    [json.load] makes of its content. *)
Inductive fs_entry : Type :=
  | NoEntry
  | Directory
  | File (document : except pyobj).

Definition path_exists (e : fs_entry) : bool :=
  match e with NoEntry => false | _ => true end.

Definition path_isfile (e : fs_entry) : bool :=
  match e with File _ => true | _ => false end.

(** The file written by [to_csv]: a header of audio columns and, for each
    catalog row, its own cells followed by one cell per audio column, empty
    where the row's dictionary has no such key. *)
Record MergedTable : Type := {
  audio_columns : list string;
  table_rows : list (CatalogRow * list (option pyobj))
}.

(** What a run leaves behind: the table and the lines printed. *)
Record Run : Type := {
  merged_df : MergedTable;
  printed : list string
}.

(** [pd.DataFrame(list_of_dicts)]: the columns are the keys in the order
    of their first appearance. *)
Definition add_columns (columns : list string) (d : dict) : list string :=
  fold_left
    (fun cols k => if existsb (String.eqb k) cols then cols else (cols ++ [k])%list)
    (keys d) columns.

Definition frame_columns (l : list dict) : list string :=
  fold_left add_columns l [].

Definition frame_row (columns : list string) (d : dict)
  : list (option pyobj) :=
  map (dict_lookup d) columns.

Section Join.

(** [int(s)] on a string: the integer, or [ValueError]. *)
Variable py_int : string -> except Z.

(** The state of the disk during the run. *)
Variable fs : string -> fs_entry.

Definition base_audio_folder : string := "audio".

Definition json_path_of (row : CatalogRow) : except string :=
  y <- py_int (year row) ;;
  let year_str := str_of_Z y in
  let country := sanitize (to_country row) in
  let performer := sanitize (performer row) in
  let song := sanitize (song row) in
  let json_filename := country ++ "_" ++ song ++ "_" ++ performer ++ ".json" in
  Ok (os_path_join base_audio_folder year_str json_filename).

Definition find_json_path (row : CatalogRow) : except (option string) :=
  json_path <- json_path_of row ;;
  Ok (if path_exists (fs json_path) then Some json_path else None).

(** The body of the loop of [main] (lines 110-122). *)
Definition flat_data_of (row : CatalogRow) : except dict :=
  json_file_path <- find_json_path row ;;
  match json_file_path with
  | Some p =>
      match fs p with
      | File document =>
          audio_data <- document ;;
          flatten_audio_features audio_data
      | _ => flatten_audio_features (PDict [])
      end
  | None => flatten_audio_features (PDict [])
  end.

Fixpoint iterrows (df : list CatalogRow) (audio_features_list : list dict)
  : except (list dict) :=
  match df with
  | [] => Ok audio_features_list
  | row :: rest =>
      flat_data <- flat_data_of row ;;
      iterrows rest (audio_features_list ++ [flat_data])%list
  end.

Definition success_message : string :=
  "Successfully created contestants_with_audio_features.csv.".

Definition main (df : list CatalogRow) : except Run :=
  audio_features_list <- iterrows df [] ;;
  let columns := frame_columns audio_features_list in
  let audio_features_df := map (frame_row columns) audio_features_list in
  Ok {| merged_df :=
          {| audio_columns := columns;
             table_rows := combine df audio_features_df |};
        printed := [success_message] |}.

(** The lookup of a row ends in one of three ways.  The artifact is
    missing when the path of the row is built (its year is an integer)
    and nothing, or something that is not a file, is found there; it is
    found when a file is there; and when the year is not an integer no
    path is built and the lookup raises: such a row is neither missing
    nor found. *)
Definition artifact_missing (row : CatalogRow) : bool :=
  match json_path_of row with
  | Ok p => negb (path_isfile (fs p))
  | Raise _ => false
  end.



End Join.

(* ================================================================== *)
(** * The fixed schema of the flat row *)

(** A column of the schema: a top-level scalar, a statistic of one of
    the four single summaries, or a statistic of one band of one of the
    three arrays. *)
Inductive column : Type :=
  | Scalar (field : string)
  | Single (field : string) (stat : string)
  | Band (field : string) (index : nat) (stat : string).

(** The name that [flatten_audio_features] gives to a column. *)
Definition column_name (c : column) : string :=
  match c with
  | Scalar field => field
  | Single field stat => single_column field stat
  | Band field index stat => band_column field index stat
  end.

Definition scalar_names : list string :=
  ["tempo"; "danceability"; "key"; "duration"].

Definition single_columns (field : string) : list column :=
  map (Single field) stat_keys.

Definition band_columns (field : string) (n : nat) : list column :=
  flat_map (fun i => map (Band field i) stat_keys) (seq 0 n).

Definition schema : list column :=
  (map Scalar scalar_names
   ++ flat_map single_columns single_stats_names
   ++ band_columns "mfcc_stats" 20
   ++ band_columns "spectral_contrast_stats" 7
   ++ band_columns "tonnetz_stats" 6)%list.

Definition schema_names : list string := map column_name schema.

(** The shape of a bundle: 20, 7 and 6 bands. *)
Definition well_formed (b : FeatureBundle) : Prop :=
  List.length (b_mfcc_stats b) = 20
  /\ List.length (b_spectral_contrast_stats b) = 7
  /\ List.length (b_tonnetz_stats b) = 6.

(** The flat row of a bundle read back from its document. *)
Definition flatten_bundle (b : FeatureBundle) : except dict :=
  flatten_audio_features (PDict (features_dict b)).

(** The flat row of an absent bundle: [flatten_audio_features({})]. *)
Definition flatten_absent : except dict :=
  flatten_audio_features (PDict []).

Definition fmap {A B : Type} (f : A -> B) (m : except A) : except B :=
  match m with
  | Ok a => Ok (f a)
  | Raise e => Raise e
  end.

Definition is_none (v : pyobj) : bool :=
  match v with PNone => true | _ => false end.

Definition is_dict (v : pyobj) : bool :=
  match v with PDict _ => true | _ => false end.

Fixpoint nodupb (l : list string) : bool :=
  match l with
  | [] => true
  | x :: rest => negb (existsb (String.eqb x) rest) && nodupb rest
  end.

(** A bundle to evaluate the flattener on: every statistic is 0.5. *)
Definition half : float := S754_finite false 4503599627370496 (-53).

Definition sample_stats : StatSummary :=
  {| s_mean := half; s_variance := half; s_median := half;
     s_skewness := half; s_kurtosis := half; s_min := half; s_max := half |}.

Definition sample_bundle : FeatureBundle :=
  {| b_tempo := Float64.of_Z 120;
     b_danceability := half;
     b_key := "C";
     b_duration := Float64.of_Z 180;
     b_chroma_stft_stats := sample_stats;
     b_spectral_centroid_stats := sample_stats;
     b_zero_crossing_rate_stats := sample_stats;
     b_rms_stats := sample_stats;
     b_mfcc_stats := repeat sample_stats 20;
     b_spectral_contrast_stats := repeat sample_stats 7;
     b_tonnetz_stats := repeat sample_stats 6 |}.


(* ================================================================== *)
(** * Families of columns and shapes of documents *)

Fixpoint starts_with (p s : string) : bool :=
  match p with
  | EmptyString => true
  | String a p' =>
      match s with
      | EmptyString => false
      | String b s' => Ascii.eqb a b && starts_with p' s'
      end
  end.

Definition band_names : list string :=
  ["mfcc_stats"; "spectral_contrast_stats"; "tonnetz_stats"].

(** The field of the document whose loop writes a key, if any. *)
Definition owner (key : string) : option string :=
  find (fun field => starts_with (field ++ "_") key)
    (single_stats_names ++ band_names)%list.

(** Every element of the array found under [name] is a dictionary (the
    fallback of an absent, empty or non-list value has no element). *)
Definition bands_ok (d : dict) (name : string) : bool :=
  match dict_get d name (PList []) with
  | PList array => forallb is_dict array
  | _ => true
  end.

Definition arrays_ok (d : dict) : bool :=
  bands_ok d "mfcc_stats"
  && bands_ok d "spectral_contrast_stats"
  && bands_ok d "tonnetz_stats".

(* ================================================================== *)
(** * Concrete runs *)

(** [int(s)] on strings of ASCII decimal digits, which is all that the
    concrete catalogs below hold in their [year] column. *)
Definition int_of_decimal (s : string) : except Z :=
  match s with
  | EmptyString => Raise ValueError
  | _ =>
      match NilEmpty.uint_of_string s with
      | Some u => Ok (Z.of_uint u)
      | None => Raise ValueError
      end
  end.

Definition sample_row : CatalogRow :=
  {| year := "1956"; to_country := "Switzerland"; performer := "Lys Assia";
     song := "Refrain"; other_columns := [("place_contest", "1")] |}.


Definition other_row : CatalogRow :=
  {| year := "1956"; to_country := "Netherlands";
     performer := "Jetty Paerl"; song := "De vogels van Holland";
     other_columns := [("place_contest", "2")] |}.

Definition sample_path : string :=
  "audio/1956/Switzerland_Refrain_Lys Assia.json".

(** A disk with no document at all. *)
Definition empty_fs : string -> fs_entry := fun _ => NoEntry.

(** A disk with one document, for [sample_row]. *)
Definition fs_with (document : except pyobj) : string -> fs_entry :=
  fun p => if String.eqb p sample_path then File document else NoEntry.

(** A persisted document with 19 bands of MFCC statistics instead of 20
    and no [duration]. *)
Definition short_bundle : FeatureBundle :=
  {| b_tempo := b_tempo sample_bundle;
     b_danceability := b_danceability sample_bundle;
     b_key := b_key sample_bundle;
     b_duration := b_duration sample_bundle;
     b_chroma_stft_stats := sample_stats;
     b_spectral_centroid_stats := sample_stats;
     b_zero_crossing_rate_stats := sample_stats;
     b_rms_stats := sample_stats;
     b_mfcc_stats := repeat sample_stats 19;
     b_spectral_contrast_stats := repeat sample_stats 7;
     b_tonnetz_stats := repeat sample_stats 6 |}.

Definition malformed_document : dict :=
  filter (fun kv => negb (String.eqb (fst kv) "duration"))
    (features_dict short_bundle).

(** A document whose [rms_stats] is a number and whose [mfcc_stats] holds
    a number where a dictionary of statistics should be. *)
Definition crashing_document : dict :=
  [("rms_stats", PInt 1); ("mfcc_stats", PList [PInt 1])].

(** A document whose [rms_stats] is a number, and nothing else. *)
Definition scalar_stats_document : dict := [("rms_stats", PInt 1)].

(** The row of the empty document. *)
Definition absent_row : dict :=
  match flatten_absent with
  | Ok flat => flat
  | Raise _ => []
  end.



(** A disk that holds the document of [sample_bundle] for [sample_row]
    and nothing for any other row. *)
Definition present_fs : string -> fs_entry :=
  fs_with (Ok (PDict (features_dict sample_bundle))).

(** A disk that holds [malformed_document] for [sample_row]. *)
Definition malformed_fs : string -> fs_entry :=
  fs_with (Ok (PDict malformed_document)).

(* ================================================================== *)
(** * Concrete arrays *)

(** 0.1, that is 0x1.999999999999ap-4. *)
Definition tenth : float := S754_finite false 7205759403792794 (-56).

(** The largest finite float, 0x1.fffffffffffffp+1023. *)
Definition huge : float := S754_finite false 9007199254740991 971.

(** What librosa returns for a recording in which no beat is detected:
    a tempo of 0 and no beat frame.  The arrays have two frames. *)
Definition frames (rows : nat) : list (list float) :=
  repeat [Float64.zero; Float64.zero] rows.

Definition beatless_analysis : Analysis :=
  {| a_tempo := Float64.zero;
     a_beat_frames := [];
     a_chroma := frames 12;
     a_spectral_centroid := frames 1;
     a_zero_crossing_rate := frames 1;
     a_mfcc := frames 20;
     a_spectral_contrast := frames 7;
     a_tonnetz := frames 6;
     a_rms := frames 1;
     a_chroma_cens := frames 12;
     a_duration := Float64.of_Z 3 |}.

(** [x] lies in the closed interval from 0 to 1. *)
Definition in_unit_interval (x : float) : bool :=
  Float64.leb (Float64.of_Z 0) x && Float64.leb x (Float64.of_Z 1).

(* ================================================================== *)
(** * Characters and paths *)

(** The nine characters that the resolver replaces by [#]. *)
Definition forbidden_chars : list ascii :=
  ["?"; "/"; "\"; "<"; ">"; "034"; "|"; "*"; ":"]%char.

Definition forbidden (c : ascii) : bool :=
  existsb (Ascii.eqb c) forbidden_chars.

(** [c in s] *)
Fixpoint occurs (c : ascii) (s : string) : bool :=
  match s with
  | EmptyString => false
  | String a rest => Ascii.eqb a c || occurs c rest
  end.

(** Every character of [s] satisfies [P]. *)
Fixpoint all_chars (P : ascii -> bool) (s : string) : bool :=
  match s with
  | EmptyString => true
  | String a rest => P a && all_chars P rest
  end.

(** [s.count(c)] *)
Fixpoint count_char (c : ascii) (s : string) : nat :=
  match s with
  | EmptyString => 0
  | String a rest => (if Ascii.eqb a c then 1 else 0) + count_char c rest
  end.

(** A decimal digit or the minus sign: the characters of [str(n)]. *)
Definition digit_or_minus (c : ascii) : bool :=
  existsb (Ascii.eqb c)
    ["0"; "1"; "2"; "3"; "4"; "5"; "6"; "7"; "8"; "9"; "-"]%char.

(** The row with another song title. *)
Definition with_song (row : CatalogRow) (title : string) : CatalogRow :=
  {| year := year row; to_country := to_country row;
     performer := performer row; song := title;
     other_columns := other_columns row |}.

Definition question_row : CatalogRow :=
  {| year := "1974"; to_country := "Sweden"; performer := "ABBA";
     song := "Who? Me/You"; other_columns := [] |}.

(* ================================================================== *)
(** * What a flat row holds *)

(** The values of a bundle in the order of the schema. *)
Definition bundle_values (b : FeatureBundle) : list pyobj :=
  ([PFloat (b_tempo b); PFloat (b_danceability b); PStr (b_key b);
    PFloat (b_duration b)]
   ++ flat_map (fun s => values (stats_dict s))
        ([b_chroma_stft_stats b; b_spectral_centroid_stats b;
          b_zero_crossing_rate_stats b; b_rms_stats b]
         ++ b_mfcc_stats b ++ b_spectral_contrast_stats b
         ++ b_tonnetz_stats b))%list.

(** The three arrays with the range of their fallback. *)
Definition band_shapes : list (string * nat) :=
  [("mfcc_stats", 20); ("spectral_contrast_stats", 7); ("tonnetz_stats", 6)].

Definition is_nonempty_list (v : pyobj) : bool :=
  match v with
  | PList (_ :: _) => true
  | _ => false
  end.

(** The keys of a dictionary are pairwise distinct, as in every object
    that [json.load] builds. *)
Definition unique_keys (v : pyobj) : Prop :=
  match v with
  | PDict d => NoDup (keys d)
  | _ => True
  end.

(** One of the seven field names followed by an underscore begins the
    key. *)
Definition in_family (key : string) : bool :=
  existsb (fun field => starts_with (field ++ "_") key)
    (single_stats_names ++ band_names)%list.

(** A row has no two columns of the same name, and all its columns have
    the property [allowed]. *)
Definition good_row (allowed : string -> Prop) (flat : dict) : Prop :=
  NoDup (keys flat) /\ forall k, In k (keys flat) -> allowed k.

(** The row of [malformed_document]. *)
Definition malformed_row : dict :=
  match flatten_audio_features (PDict malformed_document) with
  | Ok flat => flat
  | Raise _ => []
  end.

(** A document whose [rms_stats] has a key that [detailed_stats] never
    writes, and whose [tonnetz_stats] has one band. *)
Definition extra_key_document : dict :=
  [("rms_stats", PDict [("mean", PFloat half); ("p95", PInt 7)]);
   ("tonnetz_stats", PList [PDict [("max", PFloat half)]])].

Definition extra_key_row : dict :=
  match flatten_dict extra_key_document with
  | Ok flat => flat
  | Raise _ => []
  end.

(* ================================================================== *)
(** * Shapes of librosa's arrays *)

(** An array of [rows] rows of [frames] frames. *)
Definition has_shape (rows frames : nat) (array : list (list float)) : Prop :=
  List.length array = rows
  /\ Forall (fun row => List.length row = frames) array.

(** The shapes that librosa gives to the arrays of a recording of
    [frames] frames, with beat positions among these frames. *)
Definition librosa_shapes (frames : nat) (a : Analysis) : Prop :=
  1 <= frames
  /\ has_shape 12 frames (a_chroma a)
  /\ has_shape 1 frames (a_spectral_centroid a)
  /\ has_shape 1 frames (a_zero_crossing_rate a)
  /\ has_shape 20 frames (a_mfcc a)
  /\ has_shape 7 frames (a_spectral_contrast a)
  /\ has_shape 6 frames (a_tonnetz a)
  /\ has_shape 1 frames (a_rms a)
  /\ has_shape 12 frames (a_chroma_cens a)
  /\ Forall (fun i => i < frames) (a_beat_frames a).

(** The bundle of [beatless_analysis], with NaN for the two moments that
    scipy computes. *)
Definition beatless_bundle : FeatureBundle :=
  match extract_audio_features (fun _ => Float64.nan) (fun _ => Float64.nan)
          beatless_analysis with
  | Ok b => b
  | Raise _ => sample_bundle
  end.

(** What the loop of [main] finds for a row: no document, or the
    document of a well-formed bundle. *)
Definition absent_or_bundle (py_int : string -> except Z)
  (fs : string -> fs_entry) (row : CatalogRow) : Prop :=
  flat_data_of py_int fs row = Ok absent_row
  \/ exists b, well_formed b /\ flat_data_of py_int fs row = flatten_bundle b.

Definition has_bundle (py_int : string -> except Z)
  (fs : string -> fs_entry) (row : CatalogRow) : Prop :=
  exists b, well_formed b /\ flat_data_of py_int fs row = flatten_bundle b.

(** The run over [sample_row] and [other_row] on [present_fs]. *)
Definition present_run : Run :=
  match main int_of_decimal present_fs [sample_row; other_row] with
  | Ok run => run
  | Raise _ =>
      {| merged_df := {| audio_columns := []; table_rows := [] |};
         printed := [] |}
  end.

(* ================================================================== *)
(** * audio_features.py: the loop over the audio files *)

(** [s.rfind(c)]: the index of the last [c] in [s], or -1. *)
Fixpoint rfind_from (c : ascii) (s : string) (i last : Z) : Z :=
  match s with
  | EmptyString => last
  | String a rest =>
      rfind_from c rest (i + 1) (if Ascii.eqb a c then i else last)
  end.

Definition rfind (c : ascii) (s : string) : Z := rfind_from c s 0 (-1).

(** [os.path.splitext] with [/] as separator: the extension starts at
    the last dot of the last component, unless only dots precede it
    there. *)
Definition splitext (p : string) : string * string :=
  let sepIndex := rfind "/" p in
  let dotIndex := rfind "." p in
  if (sepIndex <? dotIndex)%Z
  then
    let before :=
      substring (Z.to_nat (sepIndex + 1))
        (Z.to_nat (dotIndex - (sepIndex + 1))) p in
    if all_chars (fun a => Ascii.eqb a ".") before
    then (p, EmptyString)
    else (substring 0 (Z.to_nat dotIndex) p,
          substring (Z.to_nat dotIndex)
            (String.length p - Z.to_nat dotIndex) p)
  else (p, EmptyString).

(** [os.path.splitext(f)[0] + '.json'] *)
Definition output_path_of (f : string) : string :=
  fst (splitext f) ++ ".json".

(** The disk after [json.dump(features, open(path, 'w'))]; the document
    reads back as the dictionary that was written. *)
Definition write_json (fs : string -> fs_entry) (path : string)
  (features : dict) : string -> fs_entry :=
  fun p => if String.eqb p path then File (Ok (PDict features)) else fs p.

(** The state in which the loop stops: the disk, the lines printed, and
    the exception that stopped it, if any. *)
Record ScriptRun : Type := {
  disk : string -> fs_entry;
  lines : list string;
  raised : option exn
}.

Section Script.

Variable scipy_skew : list float -> float.
Variable scipy_kurtosis : list float -> float.

(** What librosa computes from the file at a path, or the exception of
    [librosa.load]; the loop writes no audio file, so this does not
    depend on the state of the disk. *)
Variable analyse : string -> except Analysis.

(** [extract_audio_features(audio_path)] *)
Definition extract_file (audio_path : string) : except FeatureBundle :=
  a <- analyse audio_path ;;
  extract_audio_features scipy_skew scipy_kurtosis a.

(** The loop of lines 68-77 over the result of [glob]. *)
Fixpoint process_files (files : list string) (fs : string -> fs_entry)
  (out : list string) : ScriptRun :=
  match files with
  | [] => {| disk := fs; lines := out; raised := None |}
  | f :: rest =>
      let output_path := output_path_of f in
      let out := (out ++ [output_path])%list in
      if path_exists (fs output_path)
      then process_files rest fs out
      else
        let message := "Extracting audio features from " ++ f in
        let out := (out ++ [message])%list in
        match extract_file f with
        | Ok features =>
            process_files rest
              (write_json fs output_path (features_dict features)) out
        | Raise e => {| disk := fs; lines := out; raised := Some e |}
        end
  end.

Definition run_script (files : list string) (fs : string -> fs_entry)
  : ScriptRun :=
  process_files files fs [].

End Script.

(** A recording for every path. *)
Definition analyse_beatless : string -> except Analysis :=
  fun _ => Ok beatless_analysis.

Definition no_moment : list float -> float := fun _ => Float64.nan.

Definition sample_audio : string :=
  "audio/1956/Switzerland_Refrain_Lys Assia.mp3".
(* ================================================================== *)
(** * Properties of the flattener *)

Section ListFacts.

Context {A : Type}.

Lemma length_S_inv (l : list A) (n : nat) :
  List.length l = S n -> exists x l', l = x :: l' /\ List.length l' = n.
Proof.
  destruct l as [|x l']; simpl; intros H; [discriminate|].
  injection H as H. eauto.
Qed.

Lemma length_0_inv (l : list A) : List.length l = 0 -> l = [].
Proof. destruct l; simpl; intros H; [reflexivity | discriminate]. Qed.


End ListFacts.

Lemma existsb_eqb_In (x : string) (l : list string) :
  existsb (String.eqb x) l = true <-> In x l.
Proof.
  rewrite existsb_exists. split.
  - intros (y & Hy & E). apply String.eqb_eq in E. now subst.
  - intros H. exists x. split; [assumption | apply String.eqb_refl].
Qed.

Lemma nodupb_sound (l : list string) : nodupb l = true -> NoDup l.
Proof.
  induction l as [|x l IH]; simpl; intros H; constructor.
  - apply andb_prop in H. destruct H as [H _].
    intros Hin. apply existsb_eqb_In in Hin. rewrite Hin in H. discriminate.
  - apply IH. apply andb_prop in H. tauto.
Qed.

Lemma fmap_Ok_inv {A B : Type} (f : A -> B) (m : except A) (y : B) :
  fmap f m = Ok y -> exists x, m = Ok x /\ f x = y.
Proof.
  destruct m as [x|e]; simpl; intros H; [|discriminate].
  injection H as H. eauto.
Qed.

(** Splits a list whose length is a known numeral into its elements. *)
Ltac explode H :=
  repeat (let x := fresh "s" in
          let l := fresh "l" in
          let E := fresh "E" in
          apply length_S_inv in H; destruct H as (x & l & E & H); subst);
  apply length_0_inv in H; subst.

Lemma schema_length : List.length schema = 263.
Proof. reflexivity. Qed.

Lemma schema_names_NoDup : NoDup schema_names.
Proof. apply nodupb_sound. vm_compute. reflexivity. Qed.

Lemma sample_bundle_well_formed : well_formed sample_bundle.
Proof. repeat split. Qed.

(** The columns of a well-formed bundle are those of the schema, in the
    order of the schema, whatever the values are. *)
Lemma flatten_bundle_keys (b : FeatureBundle) :
  well_formed b -> fmap keys (flatten_bundle b) = Ok schema_names.
Proof.
  destruct b as [t d k du c1 c2 c3 c4 m sc tz].
  unfold well_formed; simpl. intros (H1 & H2 & H3).
  explode H1. explode H2. explode H3.
  vm_compute. reflexivity.
Qed.

(** The row of a well-formed bundle has the columns of the schema. *)
Lemma flatten_bundle_row (b : FeatureBundle) :
  well_formed b ->
  exists flat, flatten_bundle b = Ok flat /\ keys flat = schema_names.
Proof.
  intros Hb.
  destruct (fmap_Ok_inv _ _ _ (flatten_bundle_keys b Hb)) as (flat & E & K).
  now exists flat.
Qed.

(** C1, as amended: for every present, well-formed FeatureBundle the
    flattener returns a row of exactly 263 distinct columns, those of the
    fixed schema (4 + 4*7 + 20*7 + 7*7 + 6*7 = 263). *)
Theorem flatten_bundle_263_columns (b : FeatureBundle) :
  well_formed b ->
  exists flat,
    flatten_bundle b = Ok flat
    /\ keys flat = schema_names
    /\ List.length (keys flat) = 263
    /\ NoDup (keys flat).
Proof.
  intros Hb.
  destruct (flatten_bundle_row b Hb) as (flat & E & K).
  exists flat. rewrite K.
  split; [exact E|]. split; [reflexivity|]. split.
  - unfold schema_names. rewrite length_map. exact schema_length.
  - exact schema_names_NoDup.
Qed.

Lemma flatten_bundle_263_columns_witness :
  well_formed sample_bundle /\
  exists flat,
    flatten_bundle sample_bundle = Ok flat
    /\ keys flat = schema_names
    /\ List.length (keys flat) = 263
    /\ NoDup (keys flat).
Proof.
  split.
  - exact sample_bundle_well_formed.
  - apply (flatten_bundle_263_columns sample_bundle).
    exact sample_bundle_well_formed.
Defined.

(** C1 as stated fails: the row of a well-formed bundle does not have
    249 columns. *)
Lemma flatten_bundle_not_249_columns :
  well_formed sample_bundle /\
  ~ (exists flat,
       flatten_bundle sample_bundle = Ok flat
       /\ List.length (keys flat) = 249).
Proof.
  split; [exact sample_bundle_well_formed|].
  intros (flat & E & L).
  pose proof (flatten_bundle_keys sample_bundle sample_bundle_well_formed) as K.
  rewrite E in K. simpl in K. injection K as K.
  rewrite K in L. unfold schema_names in L. rewrite length_map in L.
  rewrite schema_length in L. discriminate.
Qed.

(** C2 at the absent bundle: [flatten_audio_features({})] returns 235
    columns, all of them null, and none of the 28 columns of the four
    single summaries, which the row of a well-formed bundle has; its
    keys are those of no well-formed bundle.  (On [None] itself the
    flattener raises; the join passes the empty document.) *)
Theorem flatten_absent_omits_single_stats :
  flatten_audio_features PNone = Raise AttributeError
  /\ fmap (fun flat => List.length (keys flat)) flatten_absent = Ok 235
  /\ fmap (fun flat => forallb is_none (values flat)) flatten_absent = Ok true
  /\ fmap (fun flat =>
             filter (fun k => negb (existsb (String.eqb k) (keys flat)))
               schema_names)
       flatten_absent
     = Ok (map column_name (flat_map single_columns single_stats_names))
  /\ fmap (fun flat => existsb (String.eqb "rms_stats_mean") (keys flat))
       (flatten_bundle sample_bundle) = Ok true
  /\ (forall b, well_formed b ->
        fmap keys flatten_absent <> fmap keys (flatten_bundle b)).
Proof.
  repeat split; try (vm_compute; reflexivity).
  intros b Hb. rewrite (flatten_bundle_keys b Hb).
  vm_compute. discriminate.
Qed.



(* ------------------------------------------------------------------ *)
(** ** Dictionaries *)

Lemma dict_lookup_set_same (d : dict) (k : string) (v : pyobj) :
  dict_lookup (dict_set d k v) k = Some v.
Proof.
  induction d as [|[k' v'] d IH]; simpl.
  - now rewrite String.eqb_refl.
  - destruct (String.eqb k' k) eqn:E; simpl; rewrite E; [reflexivity | exact IH].
Qed.

Lemma dict_lookup_set_other (d : dict) (k k0 : string) (v : pyobj) :
  k <> k0 -> dict_lookup (dict_set d k v) k0 = dict_lookup d k0.
Proof.
  intros Hne. induction d as [|[k' v'] d IH]; simpl.
  - destruct (String.eqb k k0) eqn:E; [|reflexivity].
    apply String.eqb_eq in E. contradiction.
  - destruct (String.eqb k' k) eqn:E; simpl.
    + apply String.eqb_eq in E. subst k'.
      destruct (String.eqb k k0) eqn:E0; [|reflexivity].
      apply String.eqb_eq in E0. contradiction.
    + destruct (String.eqb k' k0); [reflexivity | exact IH].
Qed.


Lemma set_items_lookup_other (column : string -> string) (items flat : dict)
  (k0 : string) :
  (forall k, column k <> k0) ->
  dict_lookup (set_items column items flat) k0 = dict_lookup flat k0.
Proof.
  intros Hne. unfold set_items. revert flat.
  induction items as [|[k v] items IH]; intros flat; simpl; [reflexivity|].
  rewrite IH. apply dict_lookup_set_other, Hne.
Qed.

(** Writing [None] under some keys keeps a key that holds [None] so. *)
Lemma set_none_fold_keeps (column : string -> string) (l : list string)
  (flat : dict) (k0 : string) :
  dict_lookup flat k0 = Some PNone ->
  dict_lookup (fold_left (fun fl k => dict_set fl (column k) PNone) l flat) k0
  = Some PNone.
Proof.
  revert flat. induction l as [|k l IH]; intros flat H; simpl; [exact H|].
  apply IH. destruct (string_dec (column k) k0) as [<- | Hne].
  - apply dict_lookup_set_same.
  - now rewrite dict_lookup_set_other.
Qed.

Lemma set_none_fold_hit (column : string -> string) (l : list string)
  (flat : dict) (k : string) :
  In k l ->
  dict_lookup (fold_left (fun fl k => dict_set fl (column k) PNone) l flat)
    (column k) = Some PNone.
Proof.
  revert flat. induction l as [|k' l IH]; intros flat Hin; simpl; [contradiction|].
  destruct Hin as [-> | Hin]; [|now apply IH].
  apply set_none_fold_keeps, dict_lookup_set_same.
Qed.

Lemma set_nones_lookup_hit (column : string -> string) (flat : dict)
  (k : string) :
  In k stat_keys ->
  dict_lookup (set_nones column flat) (column k) = Some PNone.
Proof. apply set_none_fold_hit. Qed.

Lemma set_nones_lookup_other (column : string -> string) (flat : dict)
  (k0 : string) :
  (forall k, column k <> k0) ->
  dict_lookup (set_nones column flat) k0 = dict_lookup flat k0.
Proof.
  intros Hne. unfold set_nones. revert flat.
  induction stat_keys as [|k l IH]; intros flat; simpl; [reflexivity|].
  rewrite IH. apply dict_lookup_set_other, Hne.
Qed.

(* ------------------------------------------------------------------ *)
(** ** Which loop writes which key *)

Lemma owner_single_column (field k : string) :
  In field single_stats_names ->
  owner (single_column field k) = Some field.
Proof.
  intros H. repeat (destruct H as [<- | H]; [reflexivity|]). contradiction.
Qed.

Lemma owner_band_column (name : string) (i : nat) (k : string) :
  In name band_names -> owner (band_column name i k) = Some name.
Proof.
  intros H. repeat (destruct H as [<- | H]; [reflexivity|]). contradiction.
Qed.

Lemma flatten_single_lookup_other (d flat : dict) (field k0 : string) :
  In field single_stats_names -> owner k0 <> Some field ->
  dict_lookup (flatten_single d flat field) k0 = dict_lookup flat k0.
Proof.
  intros Hin Hown.
  assert (Hne : forall k, single_column field k <> k0).
  { intros k E. apply Hown. rewrite <- E. now apply owner_single_column. }
  unfold flatten_single.
  destruct (dict_get d field (PDict []));
    first [now apply set_nones_lookup_other | now apply set_items_lookup_other].
Qed.

Lemma flatten_bands_lookup_other (name : string) (array : list pyobj)
  (k0 : string) :
  In name band_names -> owner k0 <> Some name ->
  forall i flat flat',
    flatten_bands name i array flat = Ok flat' ->
    dict_lookup flat' k0 = dict_lookup flat k0.
Proof.
  intros Hin Hown.
  induction array as [|obj array IH]; intros i flat flat' H; simpl in H.
  - now injection H as <-.
  - destruct obj; try discriminate.
    rewrite (IH _ _ _ H). apply set_items_lookup_other.
    intros k E. apply Hown. rewrite <- E. now apply owner_band_column.
Qed.

Lemma flatten_bands_none_lookup_other (name : string) (n : nat) (flat : dict)
  (k0 : string) :
  In name band_names -> owner k0 <> Some name ->
  dict_lookup (flatten_bands_none name n flat) k0 = dict_lookup flat k0.
Proof.
  intros Hin Hown. unfold flatten_bands_none. revert flat.
  induction (seq 0 n) as [|i l IH]; intros flat; simpl; [reflexivity|].
  rewrite IH. apply set_nones_lookup_other.
  intros k E. apply Hown. rewrite <- E. now apply owner_band_column.
Qed.

Lemma flatten_multi_lookup_other (d : dict) (name : string) (n : nat)
  (flat flat' : dict) (k0 : string) :
  In name band_names -> owner k0 <> Some name ->
  flatten_multi d name n flat = Ok flat' ->
  dict_lookup flat' k0 = dict_lookup flat k0.
Proof.
  intros Hin Hown. unfold flatten_multi.
  destruct (dict_get d name (PList [])) as [| | | | |[|obj rest]|];
    try (intros H; injection H as <-;
         now apply flatten_bands_none_lookup_other).
  now apply flatten_bands_lookup_other.
Qed.

(* ------------------------------------------------------------------ *)
(** ** When the flattener raises *)

Lemma flatten_bands_is_ok (name : string) (array : list pyobj) :
  forall i flat,
    is_ok (flatten_bands name i array flat) = forallb is_dict array.
Proof.
  induction array as [|obj array IH]; intros i flat; simpl; [reflexivity|].
  destruct obj; simpl; try reflexivity. apply IH.
Qed.

Lemma flatten_multi_is_ok (d : dict) (name : string) (n : nat) (flat : dict) :
  is_ok (flatten_multi d name n flat) = bands_ok d name.
Proof.
  unfold flatten_multi, bands_ok.
  destruct (dict_get d name (PList [])) as [| | | | |[|obj rest]|];
    try reflexivity.
  apply flatten_bands_is_ok.
Qed.

Lemma is_ok_bind {A B : Type} (m : except A) (f : A -> except B) :
  is_ok (bind m f) = match m with Ok a => is_ok (f a) | Raise _ => false end.
Proof. now destruct m. Qed.

(** The flattener raises exactly when an element of one of the three
    arrays is not a dictionary: no field is required and no length is
    checked. *)
Lemma flatten_dict_is_ok (d : dict) : is_ok (flatten_dict d) = arrays_ok d.
Proof.
  unfold flatten_dict, arrays_ok.
  rewrite is_ok_bind.
  match goal with
  | |- context [flatten_multi d "mfcc_stats" 20 ?f] =>
      pose proof (flatten_multi_is_ok d "mfcc_stats" 20 f) as H1;
      destruct (flatten_multi d "mfcc_stats" 20 f) as [f1|e1]
  end; simpl in H1; rewrite <- H1; [|reflexivity].
  rewrite is_ok_bind.
  pose proof (flatten_multi_is_ok d "spectral_contrast_stats" 7 f1) as H2.
  destruct (flatten_multi d "spectral_contrast_stats" 7 f1) as [f2|e2];
    simpl in H2; rewrite <- H2; [|reflexivity].
  rewrite is_ok_bind.
  pose proof (flatten_multi_is_ok d "tonnetz_stats" 6 f2) as H3.
  destruct (flatten_multi d "tonnetz_stats" 6 f2) as [f3|e3];
    simpl in H3; rewrite <- H3; reflexivity.
Qed.

Lemma is_ok_true_inv {A : Type} (m : except A) :
  is_ok m = true -> exists a, m = Ok a.
Proof. destruct m as [a|e]; simpl; [eauto | discriminate]. Qed.

(** What the three array blocks leave untouched. *)
Lemma flatten_dict_lookup (d flat : dict) (k0 : string) :
  flatten_dict d = Ok flat ->
  (forall name, In name band_names -> owner k0 <> Some name) ->
  dict_lookup flat k0 =
  dict_lookup
    (fold_left (flatten_single d) single_stats_names
       (dict_set
          (dict_set
             (dict_set (dict_set [] "tempo" (dict_get d "tempo" PNone))
                "danceability" (dict_get d "danceability" PNone))
             "key" (dict_get d "key" PNone))
          "duration" (dict_get d "duration" PNone))) k0.
Proof.
  unfold flatten_dict. intros H Hown.
  match type of H with
  | bind (flatten_multi d _ _ ?f) _ = _ =>
      destruct (flatten_multi d "mfcc_stats" 20 f) as [f1|] eqn:E1;
      [|discriminate]
  end.
  simpl in H.
  destruct (flatten_multi d "spectral_contrast_stats" 7 f1) as [f2|] eqn:E2;
    [|discriminate].
  simpl in H.
  destruct (flatten_multi d "tonnetz_stats" 6 f2) as [f3|] eqn:E3;
    [|discriminate].
  simpl in H. injection H as <-.
  rewrite (flatten_multi_lookup_other _ _ _ _ _ k0 (or_intror (or_intror (or_introl eq_refl))) (Hown _ (or_intror (or_intror (or_introl eq_refl)))) E3).
  rewrite (flatten_multi_lookup_other _ _ _ _ _ k0 (or_intror (or_introl eq_refl)) (Hown _ (or_intror (or_introl eq_refl))) E2).
  rewrite (flatten_multi_lookup_other _ _ _ _ _ k0 (or_introl eq_refl) (Hown _ (or_introl eq_refl)) E1).
  reflexivity.
Qed.

(* ------------------------------------------------------------------ *)
(** ** A single summary that is not a dictionary *)

Section NonDictSummary.

Variable d : dict.
Variable field : string.
Variable v : pyobj.
Hypothesis field_single : In field single_stats_names.
Hypothesis field_present : dict_lookup d field = Some v.
Hypothesis not_a_dict : is_dict v = false.

Lemma flatten_single_non_dict (flat : dict) :
  flatten_single d flat field = set_nones (single_column field) flat.
Proof.
  unfold flatten_single, dict_get. rewrite field_present.
  destruct v; try reflexivity. discriminate.
Qed.

Lemma flatten_single_keeps_none (flat : dict) (f k : string) :
  In f single_stats_names -> In k stat_keys ->
  dict_lookup flat (single_column field k) = Some PNone ->
  dict_lookup (flatten_single d flat f) (single_column field k) = Some PNone.
Proof.
  intros Hf Hk H. destruct (string_dec f field) as [-> | Hne].
  - rewrite flatten_single_non_dict. now apply set_nones_lookup_hit.
  - rewrite flatten_single_lookup_other; [exact H | exact Hf |].
    rewrite owner_single_column by exact field_single. congruence.
Qed.

Lemma fold_flatten_single_keeps_none (l : list string) (k : string) :
  (forall f, In f l -> In f single_stats_names) -> In k stat_keys ->
  forall flat,
    dict_lookup flat (single_column field k) = Some PNone ->
    dict_lookup (fold_left (flatten_single d) l flat) (single_column field k)
    = Some PNone.
Proof.
  intros Hl Hk. induction l as [|f l IH]; intros flat H; simpl; [exact H|].
  apply IH.
  - intros f' Hf'. apply Hl. now right.
  - apply flatten_single_keeps_none; [apply Hl; now left | exact Hk | exact H].
Qed.

Lemma fold_flatten_single_sets_none (l : list string) (k : string) :
  (forall f, In f l -> In f single_stats_names) -> In field l ->
  In k stat_keys ->
  forall flat,
    dict_lookup (fold_left (flatten_single d) l flat) (single_column field k)
    = Some PNone.
Proof.
  intros Hl Hin Hk. induction l as [|f l IH]; intros flat; simpl;
    [contradiction|].
  destruct (string_dec f field) as [-> | Hne].
  - apply fold_flatten_single_keeps_none; [|exact Hk|].
    + intros f' Hf'. apply Hl. now right.
    + rewrite flatten_single_non_dict. now apply set_nones_lookup_hit.
  - apply IH.
    + intros f' Hf'. apply Hl. now right.
    + destruct Hin as [E | Hin]; [contradiction | exact Hin].
Qed.

(** The seven columns of the field are null in every row that the
    flattener returns. *)
Lemma flatten_dict_non_dict_columns (flat : dict) (k : string) :
  flatten_dict d = Ok flat -> In k stat_keys ->
  dict_lookup flat (single_column field k) = Some PNone.
Proof.
  intros H Hk. rewrite (flatten_dict_lookup d flat _ H).
  - apply fold_flatten_single_sets_none; auto.
  - intros name Hname. rewrite owner_single_column by exact field_single.
    intros E. injection E as E. subst name.
    revert field_single Hname. clear.
    intros H1 H2.
    repeat (destruct H1 as [<- | H1];
            [repeat (destruct H2 as [E | H2]; [discriminate E|]);
             contradiction|]).
    contradiction.
Qed.

(** The value itself is never read: another value that is not a
    dictionary gives the same result. *)
Variable v' : pyobj.
Hypothesis not_a_dict' : is_dict v' = false.

Lemma dict_get_replaced (name : string) (default : pyobj) :
  name <> field ->
  dict_get (dict_set d field v') name default = dict_get d name default.
Proof.
  intros Hne. unfold dict_get.
  rewrite dict_lookup_set_other by congruence. reflexivity.
Qed.

Lemma flatten_single_replaced (flat : dict) (f : string) :
  flatten_single (dict_set d field v') flat f = flatten_single d flat f.
Proof.
  destruct (string_dec f field) as [-> | Hne].
  - rewrite flatten_single_non_dict.
    unfold flatten_single, dict_get. rewrite dict_lookup_set_same.
    destruct v'; try reflexivity. discriminate.
  - unfold flatten_single. now rewrite dict_get_replaced.
Qed.

Lemma fold_flatten_single_replaced (l : list string) :
  forall flat,
    fold_left (flatten_single (dict_set d field v')) l flat
    = fold_left (flatten_single d) l flat.
Proof.
  induction l as [|f l IH]; intros flat; simpl; [reflexivity|].
  now rewrite flatten_single_replaced, IH.
Qed.

Lemma flatten_multi_replaced (name : string) (n : nat) (flat : dict) :
  name <> field ->
  flatten_multi (dict_set d field v') name n flat
  = flatten_multi d name n flat.
Proof.
  intros Hne. unfold flatten_multi. now rewrite dict_get_replaced.
Qed.

Lemma flatten_dict_replaced :
  flatten_dict (dict_set d field v') = flatten_dict d.
Proof.
  assert (Hne : forall name,
             In name (scalar_names ++ band_names)%list -> name <> field).
  { intros name Hname ->. revert field_single Hname. clear.
    intros H1 H2. simpl in H2.
    repeat (destruct H1 as [<- | H1];
            [repeat (destruct H2 as [E | H2]; [discriminate E|]);
             contradiction|]).
    contradiction. }
  unfold flatten_dict.
  rewrite !dict_get_replaced by (apply Hne; simpl; tauto).
  rewrite fold_flatten_single_replaced.
  match goal with
  | |- bind (flatten_multi _ _ _ ?f) _ = _ =>
      rewrite (flatten_multi_replaced "mfcc_stats" 20 f)
        by (apply Hne; simpl; tauto);
      destruct (flatten_multi d "mfcc_stats" 20 f) as [f1|]; [|reflexivity]
  end.
  simpl.
  rewrite (flatten_multi_replaced "spectral_contrast_stats" 7 f1)
    by (apply Hne; simpl; tauto).
  destruct (flatten_multi d "spectral_contrast_stats" 7 f1) as [f2|];
    [|reflexivity].
  simpl.
  rewrite (flatten_multi_replaced "tonnetz_stats" 6 f2)
    by (apply Hne; simpl; tauto).
  reflexivity.
Qed.

End NonDictSummary.

(** C10, as amended: when one of the four single summaries is present
    and is not a dictionary, the flattener returns normally unless an
    element of one of the three arrays is not a dictionary; the row that
    it returns has the seven columns of that field, all of them null;
    and the value is never read, so that any other value that is not a
    dictionary gives the same result. *)
Theorem flatten_non_dict_single_stats (d : dict) (field : string)
  (v v' : pyobj) :
  In field single_stats_names ->
  dict_lookup d field = Some v ->
  is_dict v = false ->
  is_dict v' = false ->
  match flatten_audio_features (PDict d) with
  | Ok flat =>
      arrays_ok d = true
      /\ Forall (fun k => dict_lookup flat (single_column field k) = Some PNone)
           stat_keys
  | Raise e => arrays_ok d = false
  end
  /\ flatten_audio_features (PDict (dict_set d field v'))
     = flatten_audio_features (PDict d).
Proof.
  intros Hf Hv Hd Hd'. split.
  - simpl.
    pose proof (flatten_dict_is_ok d) as Hok.
    destruct (flatten_dict d) as [flat|e] eqn:E; simpl in Hok;
      [|now symmetry].
    split; [now symmetry|].
    apply Forall_forall. intros k Hk.
    now apply (flatten_dict_non_dict_columns d field v Hf Hv Hd).
  - simpl. now apply (flatten_dict_replaced d field v Hf Hv Hd).
Qed.

Lemma flatten_non_dict_single_stats_witness :
  In "rms_stats" single_stats_names
  /\ dict_lookup scalar_stats_document "rms_stats" = Some (PInt 1)
  /\ is_dict (PInt 1) = false
  /\ is_dict (PStr "n/a") = false
  /\ match flatten_audio_features (PDict scalar_stats_document) with
     | Ok flat =>
         arrays_ok scalar_stats_document = true
         /\ Forall
              (fun k =>
                 dict_lookup flat (single_column "rms_stats" k) = Some PNone)
              stat_keys
     | Raise e => arrays_ok scalar_stats_document = false
     end
  /\ flatten_audio_features
       (PDict (dict_set scalar_stats_document "rms_stats" (PStr "n/a")))
     = flatten_audio_features (PDict scalar_stats_document).
Proof.
  assert (H1 : In "rms_stats" single_stats_names)
    by (right; right; right; left; reflexivity).
  split; [exact H1|]. split; [reflexivity|]. split; [reflexivity|].
  split; [reflexivity|].
  exact (flatten_non_dict_single_stats scalar_stats_document "rms_stats"
           (PInt 1) (PStr "n/a") H1 eq_refl eq_refl eq_refl).
Defined.

(** C10 as stated fails: a document whose [rms_stats] is a number makes
    the flattener raise when its [mfcc_stats] holds a number too. *)
Lemma flatten_non_dict_single_stats_may_raise :
  In "rms_stats" single_stats_names
  /\ dict_lookup crashing_document "rms_stats" = Some (PInt 1)
  /\ is_dict (PInt 1) = false
  /\ flatten_audio_features (PDict crashing_document) = Raise AttributeError.
Proof.
  split; [right; right; right; left; reflexivity|].
  repeat split.
Qed.

(* ================================================================== *)
(** * Properties of the join *)

Lemma flatten_absent_row : flatten_absent = Ok absent_row.
Proof. vm_compute. reflexivity. Qed.




Section JoinFacts.

Variable py_int : string -> except Z.
Variable fs : string -> fs_entry.

(** A row with no resolvable artifact takes the row of the empty
    document: nothing is raised. *)
Lemma flat_data_of_missing (row : CatalogRow) :
  artifact_missing py_int fs row = true ->
  flat_data_of py_int fs row = Ok absent_row.
Proof.
  unfold artifact_missing, flat_data_of, find_json_path.
  destruct (json_path_of py_int row) as [p|e]; [|discriminate].
  simpl. intros H.
  destruct (fs p) as [| |document] eqn:Ef; simpl in *;
    rewrite ?Ef; try discriminate; apply flatten_absent_row.
Qed.

(** A row whose document is found is flattened from that document. *)
Lemma flat_data_of_file (row : CatalogRow) (p : string)
  (document : except pyobj) :
  json_path_of py_int row = Ok p -> fs p = File document ->
  flat_data_of py_int fs row
  = (audio_data <- document ;; flatten_audio_features audio_data).
Proof.
  intros Hp Hf. unfold flat_data_of, find_json_path.
  rewrite Hp. simpl. rewrite Hf. simpl. rewrite Hf. reflexivity.
Qed.

Lemma iterrows_Ok (df : list CatalogRow) :
  forall acc l,
    iterrows py_int fs df acc = Ok l ->
    exists l',
      l = (acc ++ l')%list
      /\ Forall2 (fun row flat => flat_data_of py_int fs row = Ok flat) df l'.
Proof.
  induction df as [|row df IH]; intros acc l H; simpl in H.
  - injection H as <-. exists []. split; [now rewrite app_nil_r | constructor].
  - destruct (flat_data_of py_int fs row) as [flat|e] eqn:E; [|discriminate].
    simpl in H. destruct (IH _ _ H) as (l' & -> & F).
    exists (flat :: l'). split; [now rewrite <- app_assoc|].
    now constructor.
Qed.

Lemma iterrows_Raise (df : list CatalogRow) :
  forall acc e,
    iterrows py_int fs df acc = Raise e ->
    exists row, In row df /\ flat_data_of py_int fs row = Raise e.
Proof.
  induction df as [|row df IH]; intros acc e H; simpl in H; [discriminate|].
  destruct (flat_data_of py_int fs row) as [flat|e'] eqn:E; simpl in H.
  - destruct (IH _ _ H) as (row' & Hin & Hr). exists row'. split; [now right | exact Hr].
  - injection H as <-. exists row. split; [now left | exact E].
Qed.

Lemma iterrows_total (df : list CatalogRow) :
  (forall row, In row df -> is_ok (flat_data_of py_int fs row) = true) ->
  forall acc, exists l, iterrows py_int fs df acc = Ok l.
Proof.
  induction df as [|row df IH]; intros Hall acc; simpl; [eauto|].
  destruct (is_ok_true_inv _ (Hall row (or_introl eq_refl))) as (flat & ->).
  simpl. apply IH. intros row' Hin. apply Hall. now right.
Qed.

(** The table of a run that completes. *)
Lemma main_Ok (df : list CatalogRow) (run : Run) :
  main py_int fs df = Ok run ->
  printed run = [success_message]
  /\ exists l,
       Forall2 (fun row flat => flat_data_of py_int fs row = Ok flat) df l
       /\ table_rows (merged_df run)
          = combine df (map (frame_row (audio_columns (merged_df run))) l).
Proof.
  unfold main. intros H.
  destruct (iterrows py_int fs df []) as [l|e] eqn:E; [|discriminate].
  simpl in H. injection H as <-. simpl. split; [reflexivity|].
  destruct (iterrows_Ok _ _ _ E) as (l' & -> & F).
  exists l'. split; [exact F | reflexivity].
Qed.

End JoinFacts.

Lemma Forall2_combine_map {A B C : Type} (R : A -> B -> Prop) (f : B -> C)
  (l1 : list A) (l2 : list B) :
  Forall2 R l1 l2 ->
  Forall2 (fun a out => fst out = a /\ exists b, R a b /\ snd out = f b)
    l1 (combine l1 (map f l2)).
Proof.
  induction 1 as [|a b l1 l2 Hab _ IH]; simpl; constructor; [|exact IH].
  simpl. split; [reflexivity|]. exists b. now split.
Qed.

Lemma Forall2_fst_eq {A B : Type} (P : A -> A * B -> Prop) (l1 : list A)
  (l2 : list (A * B)) :
  Forall2 (fun a out => fst out = a /\ P a out) l1 l2 ->
  map fst l2 = l1.
Proof.
  induction 1 as [|a out l1 l2 [E _] _ IH]; simpl; [reflexivity|].
  now rewrite E, IH.
Qed.

(** C4: a run that completes writes one row per catalog row, in the
    order of the catalog, each made of the catalog row and of the cells
    of its own flat row; and a run is only ever stopped by a row whose
    artifact is not missing. *)
Theorem main_preserves_rows (py_int : string -> except Z)
  (fs : string -> fs_entry) (df : list CatalogRow) :
  match main py_int fs df with
  | Ok run =>
      List.length (table_rows (merged_df run)) = List.length df
      /\ map fst (table_rows (merged_df run)) = df
      /\ Forall2
           (fun row out =>
              fst out = row
              /\ exists flat,
                   flat_data_of py_int fs row = Ok flat
                   /\ snd out = frame_row (audio_columns (merged_df run)) flat)
           df (table_rows (merged_df run))
  | Raise e =>
      exists row,
        In row df
        /\ artifact_missing py_int fs row = false
        /\ flat_data_of py_int fs row = Raise e
  end.
Proof.
  destruct (main py_int fs df) as [run|e] eqn:E.
  - destruct (main_Ok _ _ _ _ E) as (_ & l & F & ->).
    pose proof (Forall2_combine_map _
                  (frame_row (audio_columns (merged_df run))) _ _ F) as F2.
    split; [|split].
    + symmetry. exact (Forall2_length F2).
    + eapply Forall2_fst_eq. exact F2.
    + exact F2.
  - unfold main in E.
    destruct (iterrows py_int fs df []) as [l|e'] eqn:Ei; [discriminate|].
    simpl in E. injection E as ->.
    destruct (iterrows_Raise _ _ _ _ _ Ei) as (row & Hin & Hr).
    exists row. split; [exact Hin|]. split; [|exact Hr].
    destruct (artifact_missing py_int fs row) eqn:Em; [|reflexivity].
    rewrite (flat_data_of_missing _ _ _ Em) in Hr. discriminate.
Qed.






(* ------------------------------------------------------------------ *)
(** ** Documents of the wrong shape *)

Lemma fold_flatten_single_lookup_other (d : dict) (k0 : string)
  (l : list string) :
  (forall f, In f l -> In f single_stats_names) ->
  (forall f, In f l -> owner k0 <> Some f) ->
  forall flat,
    dict_lookup (fold_left (flatten_single d) l flat) k0 = dict_lookup flat k0.
Proof.
  induction l as [|f l IH]; intros Hl Hown flat; simpl; [reflexivity|].
  rewrite IH.
  - apply flatten_single_lookup_other; [apply Hl | apply Hown]; now left.
  - intros f' Hf'. apply Hl. now right.
  - intros f' Hf'. apply Hown. now right.
Qed.

(** The four scalar columns take what the document holds, and null
    where it holds nothing. *)
Lemma flatten_dict_scalars (d flat : dict) (name : string) :
  flatten_dict d = Ok flat -> In name scalar_names ->
  dict_lookup flat name = Some (dict_get d name PNone).
Proof.
  intros H Hin.
  assert (Hown : owner name = None).
  { repeat (destruct Hin as [<- | Hin]; [reflexivity|]). contradiction. }
  rewrite (flatten_dict_lookup d flat name H) by (intros; congruence).
  rewrite fold_flatten_single_lookup_other by (intros; (assumption || congruence)).
  repeat (destruct Hin as [<- | Hin]; [reflexivity|]). contradiction.
Qed.

(** *** Keys that are written stay *)

Lemma dict_set_has_key (d : dict) (k k0 : string) (v : pyobj) :
  dict_lookup d k0 <> None -> dict_lookup (dict_set d k v) k0 <> None.
Proof.
  intros H. destruct (string_dec k k0) as [-> | Hne].
  - rewrite dict_lookup_set_same. discriminate.
  - now rewrite dict_lookup_set_other.
Qed.

Lemma set_items_has_key (column : string -> string) (items flat : dict)
  (k0 : string) :
  dict_lookup flat k0 <> None ->
  dict_lookup (set_items column items flat) k0 <> None.
Proof.
  unfold set_items. revert flat.
  induction items as [|[k v] items IH]; intros flat H; simpl; [exact H|].
  apply IH. now apply dict_set_has_key.
Qed.

Lemma set_items_adds_key (column : string -> string) (items flat : dict)
  (k : string) :
  In k (keys items) ->
  dict_lookup (set_items column items flat) (column k) <> None.
Proof.
  unfold set_items. revert flat.
  induction items as [|[k' v] items IH]; intros flat Hin; simpl in *;
    [contradiction|].
  destruct Hin as [-> | Hin]; [|now apply IH].
  apply (set_items_has_key column items).
  rewrite dict_lookup_set_same. discriminate.
Qed.

Lemma set_nones_has_key (column : string -> string) (flat : dict)
  (k0 : string) :
  dict_lookup flat k0 <> None ->
  dict_lookup (set_nones column flat) k0 <> None.
Proof.
  unfold set_nones. revert flat.
  induction stat_keys as [|k l IH]; intros flat H; simpl; [exact H|].
  apply IH. now apply dict_set_has_key.
Qed.

Lemma flatten_bands_has_key (name : string) (array : list pyobj)
  (k0 : string) :
  forall i flat flat',
    flatten_bands name i array flat = Ok flat' ->
    dict_lookup flat k0 <> None -> dict_lookup flat' k0 <> None.
Proof.
  induction array as [|obj array IH]; intros i flat flat' H Hk; simpl in H.
  - now injection H as <-.
  - destruct obj; try discriminate.
    apply (IH _ _ _ H). now apply set_items_has_key.
Qed.

(** Band [j] of the array, numbered from [i], writes its keys under the
    index [i + j]. *)
Lemma flatten_bands_adds_key (name : string) (array : list pyobj) :
  forall i flat flat' j obj k,
    flatten_bands name i array flat = Ok flat' ->
    nth_error array j = Some (PDict obj) ->
    In k (keys obj) ->
    dict_lookup flat' (band_column name (i + j) k) <> None.
Proof.
  induction array as [|b array IH]; intros i flat flat' j obj k H Hj Hk.
  - destruct j; discriminate.
  - simpl in H. destruct b; try discriminate.
    destruct j as [|j]; simpl in Hj.
    + injection Hj as ->. rewrite Nat.add_0_r.
      apply (flatten_bands_has_key _ _ _ _ _ _ H).
      now apply set_items_adds_key.
    + replace (i + S j) with (S i + j) by lia.
      exact (IH _ _ _ _ _ _ H Hj Hk).
Qed.

Lemma flatten_multi_has_key (d : dict) (name : string) (n : nat)
  (flat flat' : dict) (k0 : string) :
  flatten_multi d name n flat = Ok flat' ->
  dict_lookup flat k0 <> None -> dict_lookup flat' k0 <> None.
Proof.
  unfold flatten_multi.
  destruct (dict_get d name (PList [])) as [| | | | |[|obj rest]|];
    try (intros H; injection H as <-; unfold flatten_bands_none;
         generalize (seq 0 n); intros l; revert flat;
         induction l as [|i l IH]; intros flat Hk; simpl;
         [exact Hk | apply IH; now apply set_nones_has_key]).
  apply flatten_bands_has_key.
Qed.

Lemma flatten_multi_adds_key (d : dict) (name : string) (n : nat)
  (flat flat' : dict) (array : list pyobj) (j : nat) (obj : dict)
  (k : string) :
  flatten_multi d name n flat = Ok flat' ->
  dict_get d name (PList []) = PList array ->
  nth_error array j = Some (PDict obj) ->
  In k (keys obj) ->
  dict_lookup flat' (band_column name j k) <> None.
Proof.
  unfold flatten_multi. intros H Hget Hj Hk. rewrite Hget in H.
  destruct array as [|b rest]; [destruct j; discriminate|].
  exact (flatten_bands_adds_key _ _ 0 _ _ j _ _ H Hj Hk).
Qed.

(** Every band that an array of the document holds has its columns in
    the row, whatever the length of the array. *)
Lemma flatten_dict_bands (d flat : dict) (name : string)
  (array : list pyobj) (j : nat) (obj : dict) (k : string) :
  flatten_dict d = Ok flat ->
  In name band_names ->
  dict_get d name (PList []) = PList array ->
  nth_error array j = Some (PDict obj) ->
  In k (keys obj) ->
  dict_lookup flat (band_column name j k) <> None.
Proof.
  unfold flatten_dict. intros H Hname Hget Hj Hk.
  match type of H with
  | bind (flatten_multi d _ _ ?f) _ = _ =>
      destruct (flatten_multi d "mfcc_stats" 20 f) as [f1|] eqn:E1;
      [|discriminate]
  end.
  simpl in H.
  destruct (flatten_multi d "spectral_contrast_stats" 7 f1) as [f2|] eqn:E2;
    [|discriminate].
  simpl in H.
  destruct (flatten_multi d "tonnetz_stats" 6 f2) as [f3|] eqn:E3;
    [|discriminate].
  simpl in H. injection H as <-.
  destruct Hname as [<- | [<- | [<- | []]]].
  - apply (flatten_multi_has_key _ _ _ _ _ _ E3).
    apply (flatten_multi_has_key _ _ _ _ _ _ E2).
    exact (flatten_multi_adds_key _ _ _ _ _ _ _ _ _ E1 Hget Hj Hk).
  - apply (flatten_multi_has_key _ _ _ _ _ _ E3).
    exact (flatten_multi_adds_key _ _ _ _ _ _ _ _ _ E2 Hget Hj Hk).
  - exact (flatten_multi_adds_key _ _ _ _ _ _ _ _ _ E3 Hget Hj Hk).
Qed.

(** C8, as amended: a persisted document that is a dictionary is never
    rejected for its shape.  Whatever fields it lacks and whatever the
    lengths of its arrays, provided their elements are dictionaries, the
    flattener returns a row, in which a scalar that the document lacks
    is null and every band that an array holds has its columns, and the
    join takes that row as it is. *)
Theorem malformed_document_is_flattened (py_int : string -> except Z)
  (fs : string -> fs_entry) (row : CatalogRow) (p : string) (d : dict) :
  json_path_of py_int row = Ok p ->
  fs p = File (Ok (PDict d)) ->
  arrays_ok d = true ->
  exists flat,
    flatten_audio_features (PDict d) = Ok flat
    /\ flat_data_of py_int fs row = Ok flat
    /\ Forall (fun name => dict_lookup flat name = Some (dict_get d name PNone))
         scalar_names
    /\ forall name array j obj k,
         In name band_names ->
         dict_get d name (PList []) = PList array ->
         nth_error array j = Some (PDict obj) ->
         In k (keys obj) ->
         dict_lookup flat (band_column name j k) <> None.
Proof.
  intros Hp Hf Hok.
  rewrite <- flatten_dict_is_ok in Hok.
  destruct (is_ok_true_inv _ Hok) as (flat & E).
  exists flat. split; [exact E|]. split; [|split].
  - rewrite (flat_data_of_file _ _ _ _ _ Hp Hf). exact E.
  - apply Forall_forall. intros name Hin. now apply flatten_dict_scalars.
  - intros name array j obj k. now apply flatten_dict_bands.
Qed.

Lemma malformed_document_is_flattened_witness :
  json_path_of int_of_decimal sample_row = Ok sample_path
  /\ malformed_fs sample_path = File (Ok (PDict malformed_document))
  /\ arrays_ok malformed_document = true
  /\ exists flat,
       flatten_audio_features (PDict malformed_document) = Ok flat
       /\ flat_data_of int_of_decimal malformed_fs sample_row = Ok flat
       /\ Forall
            (fun name =>
               dict_lookup flat name
               = Some (dict_get malformed_document name PNone))
            scalar_names
       /\ forall name array j obj k,
            In name band_names ->
            dict_get malformed_document name (PList []) = PList array ->
            nth_error array j = Some (PDict obj) ->
            In k (keys obj) ->
            dict_lookup flat (band_column name j k) <> None.
Proof.
  split; [reflexivity|]. split; [reflexivity|]. split; [reflexivity|].
  exact (malformed_document_is_flattened int_of_decimal malformed_fs
           sample_row sample_path malformed_document
           eq_refl eq_refl eq_refl).
Defined.

(** C8 as stated fails: a document with 19 bands of MFCC statistics and
    no duration is flattened without error into a row that keeps its
    values, has a null duration and has no column for band 19; the join
    takes this row and not the row of the empty document. *)
Lemma malformed_document_not_rejected :
  List.length (b_mfcc_stats short_bundle) <> 20
  /\ dict_lookup malformed_document "duration" = None
  /\ exists flat,
       flatten_audio_features (PDict malformed_document) = Ok flat
       /\ flat_data_of int_of_decimal malformed_fs sample_row = Ok flat
       /\ flat <> absent_row
       /\ dict_lookup flat "tempo" = Some (PFloat (Float64.of_Z 120))
       /\ dict_lookup flat "duration" = Some PNone
       /\ dict_lookup flat "mfcc_stats_18_mean" = Some (PFloat half)
       /\ dict_lookup flat "mfcc_stats_19_mean" = None.
Proof.
  split; [vm_compute; discriminate|]. split; [reflexivity|].
  destruct (flatten_audio_features (PDict malformed_document))
    as [flat|] eqn:E; [|vm_compute in E; discriminate].
  exists flat. split; [reflexivity|].
  assert (Hj : flat_data_of int_of_decimal malformed_fs sample_row = Ok flat).
  { rewrite (flat_data_of_file int_of_decimal malformed_fs sample_row
               sample_path (Ok (PDict malformed_document)) eq_refl eq_refl).
    exact E. }
  split; [exact Hj|].
  vm_compute in E. injection E as <-.
  repeat split; try (vm_compute; reflexivity).
  vm_compute. discriminate.
Qed.

(* ================================================================== *)
(** * Properties of the summariser and of the extractor *)

(* ------------------------------------------------------------------ *)
(** ** The order of binary64 *)

Ltac cmp_cases :=
  repeat match goal with
    | H : context [Z.compare ?a ?b] |- _ => destruct (Z.compare_spec a b)
    | |- context [Z.compare ?a ?b] => destruct (Z.compare_spec a b)
    | H : context [Pos.compare_cont Eq ?a ?b] |- _ =>
        change (Pos.compare_cont Eq a b) with (Pos.compare a b) in *;
        destruct (Pos.compare_spec a b)
    | |- context [Pos.compare_cont Eq ?a ?b] =>
        change (Pos.compare_cont Eq a b) with (Pos.compare a b) in *;
        destruct (Pos.compare_spec a b)
    end.

Lemma leb_refl (x : float) :
  Float64.isnan x = false -> Float64.leb x x = true.
Proof.
  destruct x as [s|s| |s m e]; try destruct s; simpl; intros H;
    try reflexivity; try discriminate;
    unfold Float64.leb, SFleb, SFcompare; rewrite Z.compare_refl;
    change (Pos.compare_cont Eq m m) with (Pos.compare m m);
    rewrite Pos.compare_refl; reflexivity.
Qed.

Lemma leb_trans (x y z : float) :
  Float64.leb x y = true -> Float64.leb y z = true -> Float64.leb x z = true.
Proof.
  unfold Float64.leb, SFleb, SFcompare.
  destruct x as [sx|sx| |sx mx ex]; destruct y as [sy|sy| |sy my ey];
    destruct z as [sz|sz| |sz mz ez];
    try destruct sx; try destruct sy; try destruct sz; simpl;
    intros H1 H2; try reflexivity; try discriminate.
  all: cmp_cases; simpl in *; try reflexivity; try discriminate; try lia.
Qed.

Lemma leb_total (x y : float) :
  Float64.isnan x = false -> Float64.isnan y = false ->
  Float64.leb x y = true \/ Float64.leb y x = true.
Proof.
  unfold Float64.leb, SFleb, SFcompare.
  destruct x as [sx|sx| |sx mx ex]; destruct y as [sy|sy| |sy my ey];
    try destruct sx; try destruct sy; simpl; intros H1 H2;
    try discriminate; auto.
  all: cmp_cases; simpl in *; auto; try lia.
Qed.

Lemma leb_not_nan (x y : float) :
  Float64.leb x y = true ->
  Float64.isnan x = false /\ Float64.isnan y = false.
Proof. destruct x, y; simpl; intros H; (discriminate || now split). Qed.

Lemma existsb_isnan_false (a : list float) :
  existsb Float64.isnan a = false <->
  forall x, In x a -> Float64.isnan x = false.
Proof.
  split.
  - intros H x Hin. destruct (Float64.isnan x) eqn:E; [|reflexivity].
    rewrite <- H. symmetry. apply existsb_exists. eauto.
  - intros H. destruct (existsb Float64.isnan a) eqn:E; [|reflexivity].
    apply existsb_exists in E. destruct E as (x & Hin & Hx).
    now rewrite (H x Hin) in Hx.
Qed.

(* ------------------------------------------------------------------ *)
(** ** Minimum, maximum and median *)


Lemma maximum_spec (x y : float) :
  Float64.isnan x = false -> Float64.isnan y = false ->
  (Numpy.maximum x y = x \/ Numpy.maximum x y = y)
  /\ Float64.leb x (Numpy.maximum x y) = true
  /\ Float64.leb y (Numpy.maximum x y) = true.
Proof.
  intros Hx Hy. unfold Numpy.maximum. rewrite Hx, orb_false_r.
  destruct (Float64.leb y x) eqn:E.
  - split; [now left|]. split; [now apply leb_refl | exact E].
  - split; [now right|]. split; [|now apply leb_refl].
    destruct (leb_total x y Hx Hy) as [H | H]; [exact H | congruence].
Qed.








(** The mean of the slice loses the sign of a negative zero: the
    median of an array that holds only [-0.0] is [+0.0]. *)
Lemma median_negative_zero :
  Numpy.median [S754_zero true] = S754_zero false.
Proof. reflexivity. Qed.


(* ------------------------------------------------------------------ *)
(** ** detailed_stats *)

(** C6: on an array with no element [detailed_stats] raises (the
    [ValueError] of the reduction to a minimum of a zero-size array); it
    returns no summary at all, zero-filled or other.  The same holds for
    a two-dimensional array of any number of rows and no column. *)
Theorem detailed_stats_empty_raises (skew kurt : list float -> float) :
  detailed_stats skew kurt [] = Raise ValueError
  /\ (forall s, detailed_stats skew kurt [] <> Ok s)
  /\ (forall rows,
        detailed_stats_2d skew kurt (repeat [] rows) = Raise ValueError).
Proof.
  split; [reflexivity|]. split; [discriminate|].
  intros rows. unfold detailed_stats_2d.
  assert (E : List.concat (repeat (@nil float) rows) = []).
  { induction rows as [|rows IH]; simpl; [reflexivity | exact IH]. }
  rewrite E. reflexivity.
Qed.

(* ------------------------------------------------------------------ *)
(** ** Rounding in binary64 *)

Section Binary64.

Local Open Scope Z_scope.




















































End Binary64.





(* ------------------------------------------------------------------ *)
(** ** Danceability *)

(** Clipping puts every number in the interval and leaves NaN. *)
Lemma clip_unit_interval (x : float) :
  Float64.isnan x = false ->
  in_unit_interval (Numpy.clip x (Float64.of_Z 0) (Float64.of_Z 1)) = true.
Proof.
  intros Hx.
  assert (H0 : Float64.isnan (Float64.of_Z 0) = false) by reflexivity.
  destruct (maximum_spec x (Float64.of_Z 0) Hx H0) as (Hsel & _ & Hlo).
  set (y := Numpy.maximum x (Float64.of_Z 0)) in *.
  assert (Hy : Float64.isnan y = false)
    by (destruct Hsel as [-> | ->]; assumption).
  unfold Numpy.clip. fold y. unfold in_unit_interval, Numpy.minimum.
  rewrite Hy, orb_false_r.
  destruct (Float64.leb y (Float64.of_Z 1)) eqn:E.
  - now rewrite Hlo, E.
  - reflexivity.
Qed.

Lemma clip_nan (lo hi : float) : Numpy.clip Float64.nan lo hi = Float64.nan.
Proof.
  unfold Numpy.clip, Numpy.minimum, Numpy.maximum. simpl.
  now rewrite !orb_true_r.
Qed.

Lemma mul_nan_r (x : float) : Float64.mul x Float64.nan = Float64.nan.
Proof. now destruct x. Qed.

(** Every danceability that the extractor computes is the clipped
    product, and lies in the interval unless it is NaN. *)
Lemma danceability_of_clipped (tempo : float) (rms : list (list float))
  (beat_frames : list nat) (dn : float) :
  danceability_of tempo rms beat_frames = Ok dn ->
  exists strength,
    beat_strength rms beat_frames = Ok strength
    /\ dn = Numpy.clip (danceability_raw tempo strength)
              (Float64.of_Z 0) (Float64.of_Z 1)
    /\ (Float64.isnan (danceability_raw tempo strength) = false ->
        in_unit_interval dn = true).
Proof.
  unfold danceability_of.
  destruct (beat_strength rms beat_frames) as [strength|e]; [|discriminate].
  simpl. intros H. injection H as <-.
  exists strength. split; [reflexivity|]. split; [reflexivity|].
  apply clip_unit_interval.
Qed.

(** With no beat frame the strength is the mean of an empty array, and
    the danceability is NaN whatever the tempo. *)
Lemma danceability_of_no_beats (tempo : float) (row : list float)
  (rest : list (list float)) :
  danceability_of tempo (row :: rest) [] = Ok Float64.nan.
Proof.
  unfold danceability_of, beat_strength, danceability_raw. simpl.
  change (Numpy.mean []) with Float64.nan.
  rewrite mul_nan_r. reflexivity.
Qed.

(** C9 at a recording without beats: the extraction succeeds, the bundle
    has the right shape, and its danceability is NaN, which is not in
    the interval from 0 to 1. *)
Theorem danceability_nan_without_beats (skew kurt : list float -> float) :
  exists b,
    extract_audio_features skew kurt beatless_analysis = Ok b
    /\ well_formed b
    /\ b_danceability b = Float64.nan
    /\ in_unit_interval (b_danceability b) = false.
Proof.
  destruct (extract_audio_features skew kurt beatless_analysis) as [b|e] eqn:E;
    vm_compute in E; [|discriminate].
  injection E as <-. eexists. split; [reflexivity|].
  repeat split.
Qed.

(* ================================================================== *)
(** * The resolver: names and paths *)

Lemma sanitize_cons (a : ascii) (r : string) :
  sanitize (String a r)
  = String (if forbidden a then "#"%char else a) (sanitize r).
Proof.
  unfold sanitize, forbidden, forbidden_chars. cbn [replace existsb].
  f_equal.
  repeat match goal with
         | |- context [Ascii.eqb a ?c] =>
             destruct (Ascii.eqb_spec a c) as [-> | ?]; cbn; try reflexivity
         end.
Qed.

Lemma sanitize_nil : sanitize EmptyString = EmptyString.
Proof. reflexivity. Qed.

(** The nine replacements act character by character: the result has
    the length of the name, a [#] wherever the name has one of the nine
    characters, and the character of the name everywhere else. *)
Theorem sanitize_pointwise (s : string) :
  String.length (sanitize s) = String.length s
  /\ forall i,
       String.get i (sanitize s)
       = option_map (fun c => if forbidden c then "#"%char else c)
           (String.get i s).
Proof.
  induction s as [|a r [IHl IHg]].
  - split; [reflexivity | intros i; reflexivity].
  - rewrite sanitize_cons. split.
    + simpl. now rewrite IHl.
    + intros [|i]; simpl; [reflexivity | apply IHg].
Qed.

Lemma sanitize_all_allowed (s : string) :
  all_chars (fun c => negb (forbidden c)) (sanitize s) = true.
Proof.
  induction s as [|a r IH]; [reflexivity|].
  rewrite sanitize_cons. simpl. rewrite IH, andb_true_r.
  destruct (forbidden a) eqn:E; [reflexivity | now rewrite E].
Qed.

Lemma all_chars_occurs (P : ascii -> bool) (s : string) (c : ascii) :
  all_chars P s = true -> P c = false -> occurs c s = false.
Proof.
  induction s as [|a r IH]; simpl; intros H Hc; [reflexivity|].
  apply andb_prop in H. destruct H as [Ha Hr].
  rewrite (IH Hr Hc), orb_false_r.
  destruct (Ascii.eqb_spec a c) as [-> | _]; [congruence | reflexivity].
Qed.

Lemma all_chars_app (P : ascii -> bool) (s1 s2 : string) :
  all_chars P (s1 ++ s2) = all_chars P s1 && all_chars P s2.
Proof.
  induction s1 as [|a r IH]; simpl; [reflexivity|].
  now rewrite IH, andb_assoc.
Qed.

Lemma all_chars_impl (P Q : ascii -> bool) (s : string) :
  (forall c, P c = true -> Q c = true) ->
  all_chars P s = true -> all_chars Q s = true.
Proof.
  intros HPQ. induction s as [|a r IH]; simpl; [reflexivity|].
  intros H. apply andb_prop in H. destruct H as [Ha Hr].
  now rewrite (HPQ a Ha), IH.
Qed.

Lemma all_chars_count (P : ascii -> bool) (s : string) (c : ascii) :
  all_chars P s = true -> P c = false -> count_char c s = 0.
Proof.
  induction s as [|a r IH]; simpl; intros H Hc; [reflexivity|].
  apply andb_prop in H. destruct H as [Ha Hr].
  rewrite (IH Hr Hc).
  destruct (Ascii.eqb_spec a c) as [-> | _]; [congruence | reflexivity].
Qed.

Lemma count_char_app (c : ascii) (s1 s2 : string) :
  count_char c (s1 ++ s2) = count_char c s1 + count_char c s2.
Proof.
  induction s1 as [|a r IH]; simpl; [reflexivity|].
  rewrite IH. lia.
Qed.

Lemma sanitize_fixes_allowed (s : string) :
  all_chars (fun c => negb (forbidden c)) s = true -> sanitize s = s.
Proof.
  induction s as [|a r IH]; simpl; intros H; [reflexivity|].
  apply andb_prop in H. destruct H as [Ha Hr].
  rewrite sanitize_cons, (IH Hr).
  now destruct (forbidden a).
Qed.

Lemma sanitize_idempotent (s : string) : sanitize (sanitize s) = sanitize s.
Proof. apply sanitize_fixes_allowed, sanitize_all_allowed. Qed.

Lemma In_forbidden (c : ascii) : In c forbidden_chars -> forbidden c = true.
Proof.
  intros Hc. unfold forbidden. apply existsb_exists.
  exists c. split; [exact Hc | apply Ascii.eqb_refl].
Qed.

(** After the replacements none of the nine characters is left, and
    replacing again changes nothing. *)
Theorem sanitize_clean_idempotent (s : string) :
  forallb (fun c => negb (occurs c (sanitize s))) forbidden_chars = true
  /\ sanitize (sanitize s) = sanitize s.
Proof.
  split; [|apply sanitize_idempotent].
  apply forallb_forall. intros c Hc.
  rewrite (all_chars_occurs _ _ c (sanitize_all_allowed s)); [reflexivity|].
  apply negb_false_iff. now apply In_forbidden.
Qed.

Lemma occurs_forbidden_changes (s : string) (c : ascii) :
  forbidden c = true -> occurs c s = true -> sanitize s <> s.
Proof.
  intros Hf Ho E.
  pose proof (sanitize_all_allowed s) as H. rewrite E in H.
  rewrite (all_chars_occurs _ s c H) in Ho; [discriminate|].
  now rewrite Hf.
Qed.

(** The resolver cannot tell a title from its sanitized form: a row
    whose title has one of the nine characters and the different row
    whose title has [#] in their place resolve to the same path. *)
Theorem sanitized_title_collides (py_int : string -> except Z)
  (row : CatalogRow) (c : ascii) :
  forbidden c = true ->
  occurs c (song row) = true ->
  with_song row (sanitize (song row)) <> row
  /\ json_path_of py_int (with_song row (sanitize (song row)))
     = json_path_of py_int row.
Proof.
  intros Hf Ho. split.
  - intros E. apply (occurs_forbidden_changes _ _ Hf Ho).
    change (sanitize (song row))
      with (song (with_song row (sanitize (song row)))).
    now rewrite E.
  - unfold json_path_of, with_song. simpl.
    now rewrite sanitize_idempotent.
Qed.

Lemma sanitized_title_collides_witness :
  forbidden "?" = true
  /\ occurs "?" (song question_row) = true
  /\ with_song question_row (sanitize (song question_row)) <> question_row
  /\ json_path_of int_of_decimal
       (with_song question_row (sanitize (song question_row)))
     = json_path_of int_of_decimal question_row.
Proof.
  split; [reflexivity|]. split; [reflexivity|].
  exact (sanitized_title_collides int_of_decimal question_row "?"
           eq_refl eq_refl).
Defined.

(** The characters of [str(n)] are digits and the minus sign. *)
Lemma string_of_uint_digits (d : Decimal.uint) :
  all_chars digit_or_minus (NilEmpty.string_of_uint d) = true.
Proof. induction d; simpl; auto. Qed.

Lemma str_of_Z_digits (n : Z) : all_chars digit_or_minus (str_of_Z n) = true.
Proof.
  unfold str_of_Z, NilZero.string_of_int, NilZero.string_of_uint.
  destruct (Z.to_int n) as [d | d].
  - destruct d; try reflexivity; apply (string_of_uint_digits (_ d)).
  - change (all_chars digit_or_minus
              (match d with
               | Decimal.Nil => "0"
               | _ => NilEmpty.string_of_uint d
               end) = true).
    destruct d; try reflexivity; apply (string_of_uint_digits (_ d)).
Qed.

Lemma digit_not_forbidden (c : ascii) :
  digit_or_minus c = true -> negb (forbidden c) = true.
Proof.
  unfold digit_or_minus. intros H. apply existsb_exists in H.
  destruct H as (x & Hx & E). apply Ascii.eqb_eq in E. subst x.
  repeat (destruct Hx as [<- | Hx]; [reflexivity|]). contradiction.
Qed.

Lemma string_app_assoc (s1 s2 s3 : string) :
  (s1 ++ s2) ++ s3 = s1 ++ (s2 ++ s3).
Proof. induction s1 as [|a r IH]; simpl; [reflexivity | now rewrite IH]. Qed.

(** The file name that the resolver builds from a row. *)
Lemma json_path_of_Ok (py_int : string -> except Z) (row : CatalogRow)
  (p : string) :
  json_path_of py_int row = Ok p ->
  exists y,
    py_int (year row) = Ok y
    /\ p = "audio/" ++ str_of_Z y ++ "/"
           ++ (sanitize (to_country row) ++ "_" ++ sanitize (song row)
               ++ "_" ++ sanitize (performer row)) ++ ".json".
Proof.
  unfold json_path_of, os_path_join, base_audio_folder.
  destruct (py_int (year row)) as [y|e]; simpl; [|discriminate].
  intros H. injection H as <-. exists y. split; [reflexivity|].
  repeat (progress (rewrite ?string_app_assoc; cbn [append])).
  reflexivity.
Qed.

Lemma file_name_allowed (c s p : string) :
  all_chars (fun a => negb (forbidden a))
    (sanitize c ++ "_" ++ sanitize s ++ "_" ++ sanitize p) = true.
Proof.
  rewrite !all_chars_app, !sanitize_all_allowed. reflexivity.
Qed.

(** Every path that the resolver builds is [audio/<year>/<name>.json]
    with exactly two separators: the year is written with digits (and a
    sign), and no character of the row can add a directory level, in
    either notation of the separator. *)
Theorem json_path_confined (py_int : string -> except Z) (row : CatalogRow)
  (p : string) :
  json_path_of py_int row = Ok p ->
  exists y name,
    py_int (year row) = Ok y
    /\ p = "audio/" ++ str_of_Z y ++ "/" ++ name ++ ".json"
    /\ forallb (fun c => negb (occurs c name)) forbidden_chars = true
    /\ count_char "/" p = 2
    /\ count_char "\" p = 0.
Proof.
  intros H. destruct (json_path_of_Ok _ _ _ H) as (y & Hy & ->).
  exists y. eexists. split; [exact Hy|]. split; [reflexivity|].
  pose proof (file_name_allowed (to_country row) (song row) (performer row))
    as Hname.
  pose proof (all_chars_impl _ _ _ digit_not_forbidden (str_of_Z_digits y))
    as Hyear.
  revert Hname Hyear.
  generalize (sanitize (to_country row) ++ "_" ++ sanitize (song row)
              ++ "_" ++ sanitize (performer row)).
  generalize (str_of_Z y). intros ys name Hname Hyear.
  split; [|split].
  - apply forallb_forall. intros c Hc.
    rewrite (all_chars_occurs _ _ c Hname); [reflexivity|].
    apply negb_false_iff. now apply In_forbidden.
  - rewrite !count_char_app.
    rewrite (all_chars_count _ _ "/"%char Hyear) by reflexivity.
    rewrite (all_chars_count _ _ "/"%char Hname) by reflexivity.
    reflexivity.
  - rewrite !count_char_app.
    rewrite (all_chars_count _ _ "\"%char Hyear) by reflexivity.
    rewrite (all_chars_count _ _ "\"%char Hname) by reflexivity.
    reflexivity.
Qed.

Lemma json_path_confined_witness :
  json_path_of int_of_decimal question_row
  = Ok "audio/1974/Sweden_Who# Me#You_ABBA.json"
  /\ exists y name,
       int_of_decimal (year question_row) = Ok y
       /\ "audio/1974/Sweden_Who# Me#You_ABBA.json"
          = "audio/" ++ str_of_Z y ++ "/" ++ name ++ ".json"
       /\ forallb (fun c => negb (occurs c name)) forbidden_chars = true
       /\ count_char "/" "audio/1974/Sweden_Who# Me#You_ABBA.json" = 2
       /\ count_char "\" "audio/1974/Sweden_Who# Me#You_ABBA.json" = 0.
Proof.
  split; [reflexivity|].
  exact (json_path_confined int_of_decimal question_row
           "audio/1974/Sweden_Who# Me#You_ABBA.json" eq_refl).
Defined.

(* ================================================================== *)
(** * The flat row of an arbitrary document *)

Lemma app_same_length {A : Type} (l1 l1' l2 l2' : list A) :
  List.length l1 = List.length l1' ->
  (l1 ++ l2 = l1' ++ l2')%list -> l1 = l1' /\ l2 = l2'.
Proof.
  revert l1'. induction l1 as [|a l1 IH]; intros [|a' l1'] Hlen H;
    simpl in *; try discriminate.
  - now split.
  - injection H as -> H. injection Hlen as Hlen.
    destruct (IH _ Hlen H) as [-> ->]. now split.
Qed.

Lemma stats_values_injective (s s' : StatSummary) :
  values (stats_dict s) = values (stats_dict s') -> s = s'.
Proof.
  destruct s, s'. simpl. intros H. injection H as -> -> -> -> -> -> ->.
  reflexivity.
Qed.

Lemma flat_map_stats_values_injective (l l' : list StatSummary) :
  List.length l = List.length l' ->
  flat_map (fun s => values (stats_dict s)) l
  = flat_map (fun s => values (stats_dict s)) l' ->
  l = l'.
Proof.
  revert l'. induction l as [|s l IH]; intros [|s' l'] Hlen H;
    simpl in Hlen; try discriminate; [reflexivity|].
  injection Hlen as Hlen.
  change (flat_map (fun s => values (stats_dict s)) (s :: l))
    with (values (stats_dict s)
          ++ flat_map (fun s => values (stats_dict s)) l)%list in H.
  change (flat_map (fun s => values (stats_dict s)) (s' :: l'))
    with (values (stats_dict s')
          ++ flat_map (fun s => values (stats_dict s)) l')%list in H.
  apply app_same_length in H; [|reflexivity].
  destruct H as [Hs Hl].
  now rewrite (stats_values_injective _ _ Hs), (IH _ Hlen Hl).
Qed.

Lemma bundle_values_injective (b1 b2 : FeatureBundle) :
  well_formed b1 -> well_formed b2 ->
  bundle_values b1 = bundle_values b2 -> b1 = b2.
Proof.
  destruct b1 as [t d k du c1 c2 c3 c4 m sc tz].
  destruct b2 as [t' d' k' du' c1' c2' c3' c4' m' sc' tz'].
  unfold well_formed, bundle_values.
  cbn [b_tempo b_danceability b_key b_duration b_chroma_stft_stats
       b_spectral_centroid_stats b_zero_crossing_rate_stats b_rms_stats
       b_mfcc_stats b_spectral_contrast_stats b_tonnetz_stats].
  intros (H1 & H2 & H3) (H1' & H2' & H3') H.
  apply app_same_length in H; [|reflexivity]. destruct H as [H4 H].
  injection H4 as -> -> -> ->.
  apply flat_map_stats_values_injective in H.
  - apply app_same_length in H; [|reflexivity]. destruct H as [H4 H].
    injection H4 as -> -> -> ->.
    apply app_same_length in H; [|congruence]. destruct H as [-> H].
    apply app_same_length in H; [|congruence]. destruct H as [-> ->].
    reflexivity.
  - rewrite !length_app. simpl. congruence.
Qed.

Lemma flatten_bundle_values (b : FeatureBundle) :
  well_formed b -> fmap values (flatten_bundle b) = Ok (bundle_values b).
Proof.
  destruct b as [t d k du c1 c2 c3 c4 m sc tz].
  unfold well_formed; simpl. intros (H1 & H2 & H3).
  explode H1. explode H2. explode H3.
  vm_compute. reflexivity.
Qed.

Lemma combine_keys_values (d : dict) : combine (keys d) (values d) = d.
Proof.
  induction d as [|[k v] d IH]; simpl; [reflexivity | now rewrite IH].
Qed.

(** The row of a well-formed bundle pairs the names of the schema, in
    order, with the values of the bundle: nothing is dropped, reordered
    or converted. *)
Theorem flatten_bundle_is_schema_with_values (b : FeatureBundle) :
  well_formed b ->
  flatten_bundle b = Ok (combine schema_names (bundle_values b)).
Proof.
  intros Hb.
  destruct (fmap_Ok_inv _ _ _ (flatten_bundle_keys b Hb)) as (flat & E & K).
  pose proof (flatten_bundle_values b Hb) as V.
  rewrite E in V. simpl in V. injection V as V.
  rewrite E, <- K, <- V. now rewrite combine_keys_values.
Qed.

Lemma flatten_bundle_is_schema_with_values_witness :
  well_formed sample_bundle
  /\ flatten_bundle sample_bundle
     = Ok (combine schema_names (bundle_values sample_bundle)).
Proof.
  split; [exact sample_bundle_well_formed|].
  exact (flatten_bundle_is_schema_with_values sample_bundle
           sample_bundle_well_formed).
Defined.

(** Flattening loses nothing: two well-formed bundles with the same
    flat row are the same bundle. *)
Theorem flatten_bundle_injective (b1 b2 : FeatureBundle) :
  well_formed b1 -> well_formed b2 ->
  flatten_bundle b1 = flatten_bundle b2 -> b1 = b2.
Proof.
  intros H1 H2 E.
  apply bundle_values_injective; [assumption | assumption |].
  pose proof (flatten_bundle_values b1 H1) as V1.
  pose proof (flatten_bundle_values b2 H2) as V2.
  rewrite E, V2 in V1. congruence.
Qed.

Lemma flatten_bundle_injective_witness :
  well_formed sample_bundle /\ well_formed sample_bundle
  /\ flatten_bundle sample_bundle = flatten_bundle sample_bundle
  /\ sample_bundle = sample_bundle.
Proof.
  split; [exact sample_bundle_well_formed|].
  split; [exact sample_bundle_well_formed|]. split; [reflexivity|].
  exact (flatten_bundle_injective sample_bundle sample_bundle
           sample_bundle_well_formed sample_bundle_well_formed eq_refl).
Defined.

(* ------------------------------------------------------------------ *)
(** ** The columns of any row *)

Lemma keys_dict_set_In (d : dict) (k k0 : string) (v : pyobj) :
  In k0 (keys (dict_set d k v)) <-> k0 = k \/ In k0 (keys d).
Proof.
  induction d as [|[k' v'] d IH]; simpl.
  - intuition.
  - destruct (String.eqb_spec k' k) as [-> | Hne]; simpl.
    + intuition.
    + rewrite IH. intuition.
Qed.

Lemma NoDup_dict_set (d : dict) (k : string) (v : pyobj) :
  NoDup (keys d) -> NoDup (keys (dict_set d k v)).
Proof.
  induction d as [|[k' v'] d IH]; simpl; intros H.
  - constructor; [intros [] | constructor].
  - inversion H as [|? ? Hnotin Hnd]; subst.
    destruct (String.eqb_spec k' k) as [-> | Hne]; simpl.
    + now constructor.
    + constructor; [|now apply IH].
      rewrite keys_dict_set_In. intros [E | Hin]; [congruence | contradiction].
Qed.

Section RowInvariant.

(** A property of column names that every written key has. *)
Variable allowed : string -> Prop.

Lemma good_row_set (flat : dict) (k : string) (v : pyobj) :
  good_row allowed flat -> allowed k -> good_row allowed (dict_set flat k v).
Proof.
  intros [Hnd Hall] Hk. split; [now apply NoDup_dict_set|].
  intros k0 Hin. apply keys_dict_set_In in Hin.
  destruct Hin as [-> | Hin]; [exact Hk | now apply Hall].
Qed.

Lemma good_row_set_items (column : string -> string) (items flat : dict) :
  (forall k, allowed (column k)) ->
  good_row allowed flat -> good_row allowed (set_items column items flat).
Proof.
  intros Hc. unfold set_items. revert flat.
  induction items as [|[k v] items IH]; intros flat H; simpl; [exact H|].
  apply IH. now apply good_row_set.
Qed.

Lemma good_row_set_nones (column : string -> string) (flat : dict) :
  (forall k, allowed (column k)) ->
  good_row allowed flat -> good_row allowed (set_nones column flat).
Proof.
  intros Hc. unfold set_nones. revert flat.
  induction stat_keys as [|k l IH]; intros flat H; simpl; [exact H|].
  apply IH. now apply good_row_set.
Qed.

Hypothesis allowed_scalar : forall k, In k scalar_names -> allowed k.
Hypothesis allowed_single :
  forall field k, In field single_stats_names ->
                  allowed (single_column field k).
Hypothesis allowed_band :
  forall name i k, In name band_names -> allowed (band_column name i k).

Lemma good_row_flatten_single (d flat : dict) (field : string) :
  In field single_stats_names ->
  good_row allowed flat -> good_row allowed (flatten_single d flat field).
Proof.
  intros Hf H. unfold flatten_single.
  destruct (dict_get d field (PDict []));
    first [apply good_row_set_nones | apply good_row_set_items];
    auto.
Qed.

Lemma good_row_flatten_bands (name : string) (array : list pyobj) :
  In name band_names ->
  forall i flat flat',
    flatten_bands name i array flat = Ok flat' ->
    good_row allowed flat -> good_row allowed flat'.
Proof.
  intros Hn. induction array as [|obj array IH]; intros i flat flat' H Hg;
    simpl in H.
  - now injection H as <-.
  - destruct obj; try discriminate.
    apply (IH _ _ _ H). apply good_row_set_items; auto.
Qed.

Lemma good_row_flatten_multi (d : dict) (name : string) (n : nat)
  (flat flat' : dict) :
  In name band_names ->
  flatten_multi d name n flat = Ok flat' ->
  good_row allowed flat -> good_row allowed flat'.
Proof.
  intros Hn. unfold flatten_multi.
  destruct (dict_get d name (PList [])) as [| | | | |[|obj rest]|];
    try (intros H Hg; injection H as <-; unfold flatten_bands_none;
         revert flat Hg; generalize (seq 0 n); intros l;
         induction l as [|i l IH]; intros flat Hg; simpl;
         [exact Hg | apply IH; apply good_row_set_nones; auto]).
  now apply good_row_flatten_bands.
Qed.

Lemma good_row_fold_single (d : dict) (l : list string) :
  (forall f, In f l -> In f single_stats_names) ->
  forall flat,
    good_row allowed flat -> good_row allowed (fold_left (flatten_single d) l flat).
Proof.
  induction l as [|f l IH]; intros Hl flat H; simpl; [exact H|].
  apply IH; [intros f' Hf'; apply Hl; now right|].
  apply good_row_flatten_single; [apply Hl; now left | exact H].
Qed.

Lemma good_row_flatten_dict (d flat : dict) :
  flatten_dict d = Ok flat -> good_row allowed flat.
Proof.
  unfold flatten_dict. intros H.
  match type of H with
  | bind (flatten_multi d _ _ ?f) _ = _ =>
      assert (H0 : good_row allowed f);
      [|destruct (flatten_multi d "mfcc_stats" 20 f) as [f1|] eqn:E1;
        [|discriminate]]
  end.
  { apply good_row_fold_single; [auto|].
    repeat apply good_row_set;
      try (apply allowed_scalar; simpl; tauto).
    split; [constructor | intros k []]. }
  simpl in H.
  destruct (flatten_multi d "spectral_contrast_stats" 7 f1) as [f2|] eqn:E2;
    [|discriminate].
  simpl in H.
  destruct (flatten_multi d "tonnetz_stats" 6 f2) as [f3|] eqn:E3;
    [|discriminate].
  simpl in H. injection H as <-.
  apply (good_row_flatten_multi _ _ _ _ _
           (or_intror (or_intror (or_introl eq_refl))) E3).
  apply (good_row_flatten_multi _ _ _ _ _ (or_intror (or_introl eq_refl)) E2).
  apply (good_row_flatten_multi _ _ _ _ _ (or_introl eq_refl) E1).
  exact H0.
Qed.

End RowInvariant.

Lemma in_family_single_column (field k : string) :
  In field single_stats_names -> in_family (single_column field k) = true.
Proof.
  intros H. repeat (destruct H as [<- | H]; [reflexivity|]). contradiction.
Qed.

Lemma in_family_band_column (name : string) (i : nat) (k : string) :
  In name band_names -> in_family (band_column name i k) = true.
Proof.
  intros H. repeat (destruct H as [<- | H]; [reflexivity|]). contradiction.
Qed.

(** Whatever the document, the row that the flattener returns has no
    two columns of the same name, and each of its columns is one of the
    four scalars or begins with the name of one of the seven fields and
    an underscore. *)
Theorem flat_row_columns (audio_data : pyobj) (flat : dict) :
  flatten_audio_features audio_data = Ok flat ->
  NoDup (keys flat)
  /\ Forall (fun k => In k scalar_names \/ in_family k = true) (keys flat).
Proof.
  destruct audio_data; try discriminate. simpl. intros H.
  destruct (good_row_flatten_dict
              (fun k => In k scalar_names \/ in_family k = true)
              (fun k Hk => or_introl Hk)
              (fun f k Hf => or_intror (in_family_single_column f k Hf))
              (fun n i k Hn => or_intror (in_family_band_column n i k Hn))
              _ _ H) as [Hnd Hall].
  split; [exact Hnd | now apply Forall_forall].
Qed.

Lemma flat_row_columns_witness :
  flatten_audio_features (PDict malformed_document) = Ok malformed_row
  /\ NoDup (keys malformed_row)
  /\ Forall (fun k => In k scalar_names \/ in_family k = true)
       (keys malformed_row).
Proof.
  assert (E : flatten_audio_features (PDict malformed_document)
              = Ok malformed_row) by (vm_compute; reflexivity).
  split; [exact E|].
  exact (flat_row_columns (PDict malformed_document) malformed_row E).
Defined.

(* ------------------------------------------------------------------ *)
(** ** The names of columns can be read back *)

Lemma string_app_inv_head (s a b : string) : s ++ a = s ++ b -> a = b.
Proof.
  induction s as [|c s IH]; simpl; intros H; [exact H|].
  injection H as H. now apply IH.
Qed.

Lemma single_column_injective (field k k' : string) :
  single_column field k = single_column field k' -> k = k'.
Proof.
  unfold single_column. intros H.
  apply string_app_inv_head in H. now injection H.
Qed.

(** Two strings without the separator, each followed by the separator
    and a rest: equal wholes have equal parts. *)
Lemma split_at_separator (P : ascii -> bool) (sep : ascii)
  (s1 s2 k1 k2 : string) :
  P sep = false ->
  all_chars P s1 = true -> all_chars P s2 = true ->
  s1 ++ String sep k1 = s2 ++ String sep k2 -> s1 = s2 /\ k1 = k2.
Proof.
  intros Hsep. revert s2.
  induction s1 as [|a r1 IH]; intros [|b r2] H1 H2 H; simpl in *.
  - injection H as ->. now split.
  - injection H as <- _. apply andb_prop in H2. destruct H2. congruence.
  - injection H as -> _. apply andb_prop in H1. destruct H1. congruence.
  - injection H as -> H.
    apply andb_prop in H1. apply andb_prop in H2.
    destruct (IH r2 (proj2 H1) (proj2 H2) H) as [-> ->]. now split.
Qed.

Lemma str_of_nat_digits (i : nat) : all_chars digit_or_minus (str_of_nat i) = true.
Proof. apply string_of_uint_digits. Qed.

Lemma str_of_nat_injective (i j : nat) : str_of_nat i = str_of_nat j -> i = j.
Proof.
  unfold str_of_nat. intros H.
  apply DecimalNat.Unsigned.to_uint_inj.
  pose proof (NilEmpty.usu (Nat.to_uint i)) as Hi.
  rewrite H, NilEmpty.usu in Hi. now injection Hi.
Qed.

Lemma band_column_injective (name : string) (i j : nat) (k k' : string) :
  band_column name i k = band_column name j k' -> i = j /\ k = k'.
Proof.
  unfold band_column. intros H.
  apply string_app_inv_head in H. injection H as H.
  destruct (split_at_separator digit_or_minus "_" _ _ _ _ eq_refl
              (str_of_nat_digits i) (str_of_nat_digits j) H) as [Hi Hk].
  split; [now apply str_of_nat_injective | exact Hk].
Qed.

(* ------------------------------------------------------------------ *)
(** ** What a loop over the items of a dictionary leaves in the row *)

Lemma dict_lookup_not_In (d : dict) (k : string) :
  ~ In k (keys d) -> dict_lookup d k = None.
Proof.
  induction d as [|[k' v] d IH]; simpl; intros H; [reflexivity|].
  destruct (String.eqb_spec k' k) as [-> | Hne]; [tauto|].
  apply IH. tauto.
Qed.

Lemma set_items_lookup (column : string -> string) (items : dict) :
  (forall k k', column k = column k' -> k = k') ->
  NoDup (keys items) ->
  forall flat k,
    dict_lookup (set_items column items flat) (column k)
    = match dict_lookup items k with
      | Some v => Some v
      | None => dict_lookup flat (column k)
      end.
Proof.
  intros Hinj. unfold set_items.
  induction items as [|[k1 v1] items IH]; intros Hnd flat k; simpl;
    [reflexivity|].
  inversion Hnd as [|? ? Hnotin Hnd']; subst.
  rewrite (IH Hnd').
  destruct (String.eqb_spec k1 k) as [-> | Hne].
  - rewrite (dict_lookup_not_In _ _ Hnotin). apply dict_lookup_set_same.
  - rewrite dict_lookup_set_other; [reflexivity|].
    intros E. apply Hne. now apply Hinj.
Qed.

Lemma set_nones_as_items (column : string -> string) (flat : dict) :
  set_nones column flat
  = set_items column (map (fun k => (k, PNone)) stat_keys) flat.
Proof. reflexivity. Qed.

Lemma set_nones_lookup (column : string -> string) (flat : dict)
  (k : string) :
  (forall k k', column k = column k' -> k = k') ->
  dict_lookup (set_nones column flat) (column k)
  = if existsb (String.eqb k) stat_keys then Some PNone
    else dict_lookup flat (column k).
Proof.
  intros Hinj. rewrite set_nones_as_items.
  rewrite set_items_lookup;
    [|exact Hinj | apply nodupb_sound; reflexivity].
  unfold stat_keys. cbn [map dict_lookup existsb].
  repeat match goal with
         | |- context [String.eqb ?a k] =>
             rewrite (String.eqb_sym a k);
             destruct (String.eqb k a); [reflexivity|]
         end.
  reflexivity.
Qed.

(* ------------------------------------------------------------------ *)
(** ** The columns of a single summary *)

Lemma scalars_lookup_None (d : dict) (k0 : string) :
  owner k0 <> None ->
  dict_lookup
    (dict_set
       (dict_set
          (dict_set (dict_set [] "tempo" (dict_get d "tempo" PNone))
             "danceability" (dict_get d "danceability" PNone))
          "key" (dict_get d "key" PNone))
       "duration" (dict_get d "duration" PNone)) k0 = None.
Proof.
  intros Hown.
  rewrite !dict_lookup_set_other; [reflexivity | | | |];
    intros <-; now apply Hown.
Qed.

Lemma flatten_single_lookup (d flat stats : dict) (field k : string) :
  dict_get d field (PDict []) = PDict stats ->
  NoDup (keys stats) ->
  dict_lookup (flatten_single d flat field) (single_column field k)
  = match dict_lookup stats k with
    | Some v => Some v
    | None => dict_lookup flat (single_column field k)
    end.
Proof.
  intros Hget Hnd. unfold flatten_single. rewrite Hget.
  apply set_items_lookup; [apply single_column_injective | exact Hnd].
Qed.

Lemma fold_flatten_single_lookup (d stats : dict) (field k : string)
  (l : list string) :
  In field single_stats_names ->
  dict_get d field (PDict []) = PDict stats ->
  NoDup (keys stats) ->
  NoDup l -> (forall f, In f l -> In f single_stats_names) -> In field l ->
  forall flat,
    dict_lookup (fold_left (flatten_single d) l flat) (single_column field k)
    = match dict_lookup stats k with
      | Some v => Some v
      | None => dict_lookup flat (single_column field k)
      end.
Proof.
  intros Hf Hget Hnd.
  induction l as [|f l IH]; intros Hl Hsub Hin flat; [contradiction|].
  inversion Hl as [|? ? Hnotin Hl']; subst. simpl.
  destruct (string_dec f field) as [-> | Hne].
  - rewrite fold_flatten_single_lookup_other.
    + now apply flatten_single_lookup.
    + intros f' Hf'. apply Hsub. now right.
    + intros f' Hf'. rewrite owner_single_column by exact Hf.
      intros E. injection E as <-. contradiction.
  - rewrite IH.
    + rewrite flatten_single_lookup_other; [reflexivity | |].
      * apply Hsub. now left.
      * rewrite owner_single_column by exact Hf. congruence.
    + exact Hl'.
    + intros f' Hf'. apply Hsub. now right.
    + destruct Hin as [E | Hin]; [contradiction | exact Hin].
Qed.

Lemma single_not_band (field name : string) :
  In field single_stats_names -> In name band_names -> field <> name.
Proof.
  intros H1 H2 <-.
  repeat (destruct H1 as [<- | H1];
          [repeat (destruct H2 as [E | H2]; [discriminate E|]);
           contradiction|]).
  contradiction.
Qed.

(** The columns of a single summary are its items, whatever their
    keys: the column [field_k] holds what the summary holds under [k],
    and there is no such column when the summary has no key [k]; in
    particular a field that the document lacks has no column at all. *)
Theorem single_summary_columns (d flat stats : dict) (field k : string) :
  In field single_stats_names ->
  dict_get d field (PDict []) = PDict stats ->
  NoDup (keys stats) ->
  flatten_dict d = Ok flat ->
  dict_lookup flat (single_column field k) = dict_lookup stats k.
Proof.
  intros Hf Hget Hnd H.
  rewrite (flatten_dict_lookup d flat _ H).
  - rewrite (fold_flatten_single_lookup d stats field k _ Hf Hget Hnd);
      [| apply nodupb_sound; reflexivity | auto | exact Hf].
    rewrite scalars_lookup_None; [now destruct (dict_lookup stats k)|].
    rewrite owner_single_column by exact Hf. discriminate.
  - intros name Hname. rewrite owner_single_column by exact Hf.
    intros E. injection E as E. now apply (single_not_band field name).
Qed.

Lemma single_summary_columns_witness :
  In "rms_stats" single_stats_names
  /\ dict_get extra_key_document "rms_stats" (PDict [])
     = PDict [("mean", PFloat half); ("p95", PInt 7)]
  /\ NoDup (keys [("mean", PFloat half); ("p95", PInt 7)])
  /\ flatten_dict extra_key_document = Ok extra_key_row
  /\ dict_lookup extra_key_row (single_column "rms_stats" "p95")
     = dict_lookup [("mean", PFloat half); ("p95", PInt 7)] "p95".
Proof.
  assert (H1 : In "rms_stats" single_stats_names)
    by (right; right; right; left; reflexivity).
  assert (H2 : NoDup (keys [("mean", PFloat half); ("p95", PInt 7)]))
    by (apply nodupb_sound; reflexivity).
  assert (H3 : flatten_dict extra_key_document = Ok extra_key_row)
    by (vm_compute; reflexivity).
  split; [exact H1|]. split; [reflexivity|]. split; [exact H2|].
  split; [exact H3|].
  exact (single_summary_columns extra_key_document extra_key_row
           [("mean", PFloat half); ("p95", PInt 7)] "rms_stats" "p95"
           H1 eq_refl H2 H3).
Defined.

(* ------------------------------------------------------------------ *)
(** ** The columns of an array of summaries *)

Lemma band_column_other (name : string) (i j : nat) (k0 : string) :
  i <> j -> forall k, band_column name j k <> band_column name i k0.
Proof.
  intros Hne k E. apply band_column_injective in E. destruct E as [E _].
  congruence.
Qed.

Lemma band_column_injective_k (name : string) (i : nat) (k k' : string) :
  band_column name i k = band_column name i k' -> k = k'.
Proof. intros E. now apply band_column_injective in E. Qed.

Lemma flatten_bands_lookup (name : string) (array : list pyobj) (i : nat)
  (k : string) :
  Forall unique_keys array ->
  forall i0 flat flat',
    flatten_bands name i0 array flat = Ok flat' ->
    dict_lookup flat' (band_column name i k)
    = if (i0 <=? i)%nat
      then match nth_error array (i - i0) with
           | Some (PDict obj) =>
               match dict_lookup obj k with
               | Some v => Some v
               | None => dict_lookup flat (band_column name i k)
               end
           | _ => dict_lookup flat (band_column name i k)
           end
      else dict_lookup flat (band_column name i k).
Proof.
  induction array as [|b array IH]; intros Hu i0 flat flat' H; simpl in H.
  - injection H as <-.
    destruct (i0 <=? i)%nat; [|reflexivity]. now destruct (i - i0).
  - destruct b as [| | | | | |obj]; try discriminate.
    inversion Hu as [|? ? Hobj Hu']; subst. simpl in Hobj.
    rewrite (IH Hu' _ _ _ H).
    destruct (Nat.eq_dec i0 i) as [-> | Hne].
    + replace (S i <=? i)%nat with false by (symmetry; apply Nat.leb_gt; lia).
      rewrite Nat.leb_refl, Nat.sub_diag. simpl.
      apply set_items_lookup;
        [intros ? ?; apply band_column_injective_k | exact Hobj].
    + assert (Hflat : dict_lookup
                        (set_items (band_column name i0) obj flat)
                        (band_column name i k)
                      = dict_lookup flat (band_column name i k)).
      { apply set_items_lookup_other. now apply band_column_other. }
      rewrite Hflat.
      destruct (i0 <=? i)%nat eqn:Hle.
      * apply Nat.leb_le in Hle.
        replace (S i0 <=? i)%nat with true by (symmetry; apply Nat.leb_le; lia).
        replace (i - i0) with (S (i - S i0)) by lia. reflexivity.
      * apply Nat.leb_gt in Hle.
        replace (S i0 <=? i)%nat with false by (symmetry; apply Nat.leb_gt; lia).
        reflexivity.
Qed.

Lemma flatten_bands_none_lookup (name : string) (i : nat) (k : string)
  (n : nat) :
  forall s flat,
    dict_lookup
      (fold_left (fun fl j => set_nones (band_column name j) fl) (seq s n)
         flat) (band_column name i k)
    = if (s <=? i)%nat && (i <? s + n)%nat && existsb (String.eqb k) stat_keys
      then Some PNone
      else dict_lookup flat (band_column name i k).
Proof.
  induction n as [|n IH]; intros s flat; simpl.
  - destruct (Nat.leb_spec s i), (Nat.ltb_spec i (s + 0)); simpl;
      try reflexivity; lia.
  - rewrite IH.
    destruct (Nat.eq_dec s i) as [-> | Hne].
    + replace (S i <=? i)%nat with false by (symmetry; apply Nat.leb_gt; lia).
      rewrite Nat.leb_refl.
      replace (i <? i + S n)%nat with true by (symmetry; apply Nat.ltb_lt; lia).
      simpl.
      apply set_nones_lookup. intros ? ?. apply band_column_injective_k.
    + rewrite set_nones_lookup_other by now apply band_column_other.
      destruct (s <=? i)%nat eqn:Hle.
      * apply Nat.leb_le in Hle.
        replace (S s <=? i)%nat with true by (symmetry; apply Nat.leb_le; lia).
        replace (S s + n) with (s + S n) by lia. reflexivity.
      * apply Nat.leb_gt in Hle.
        replace (S s <=? i)%nat with false by (symmetry; apply Nat.leb_gt; lia).
        reflexivity.
Qed.

(** The state of the row when the block of an array starts, and what
    the later blocks leave of its columns. *)
Lemma flatten_dict_band_block (d flat : dict) (name : string) (n i : nat)
  (k : string) :
  In (name, n) band_shapes ->
  flatten_dict d = Ok flat ->
  exists f0 f1,
    flatten_multi d name n f0 = Ok f1
    /\ dict_lookup f0 (band_column name i k) = None
    /\ dict_lookup flat (band_column name i k)
       = dict_lookup f1 (band_column name i k).
Proof.
  unfold flatten_dict. intros Hin H.
  match type of H with
  | bind (flatten_multi d _ _ ?f) _ = _ =>
      set (f0 := f) in *;
      destruct (flatten_multi d "mfcc_stats" 20 f0) as [f1|] eqn:E1;
      [|discriminate]
  end.
  simpl in H.
  destruct (flatten_multi d "spectral_contrast_stats" 7 f1) as [f2|] eqn:E2;
    [|discriminate].
  simpl in H.
  destruct (flatten_multi d "tonnetz_stats" 6 f2) as [f3|] eqn:E3;
    [|discriminate].
  simpl in H. injection H as <-.
  assert (H0 : forall name', In name' band_names ->
                 dict_lookup f0 (band_column name' i k) = None).
  { intros name' Hn. unfold f0.
    rewrite fold_flatten_single_lookup_other.
    - apply scalars_lookup_None.
      rewrite owner_band_column by exact Hn. discriminate.
    - auto.
    - intros f Hf. rewrite owner_band_column by exact Hn.
      intros E. injection E as E.
      now apply (single_not_band f name').
  }
  assert (Hm : In "mfcc_stats" band_names) by (simpl; tauto).
  assert (Hc : In "spectral_contrast_stats" band_names) by (simpl; tauto).
  assert (Ht : In "tonnetz_stats" band_names) by (simpl; tauto).
  destruct Hin as [E | [E | [E | []]]]; injection E as <- <-.
  - exists f0, f1. split; [exact E1|]. split; [now apply H0|].
    rewrite (flatten_multi_lookup_other _ _ _ _ _ _ Ht
               ltac:(rewrite owner_band_column by exact Hm; discriminate) E3).
    now rewrite (flatten_multi_lookup_other _ _ _ _ _ _ Hc
                   ltac:(rewrite owner_band_column by exact Hm; discriminate)
                   E2).
  - exists f1, f2. split; [exact E2|]. split.
    + rewrite (flatten_multi_lookup_other _ _ _ _ _ _ Hm
                 ltac:(rewrite owner_band_column by exact Hc; discriminate)
                 E1).
      now apply H0.
    + now rewrite (flatten_multi_lookup_other _ _ _ _ _ _ Ht
                     ltac:(rewrite owner_band_column by exact Hc;
                           discriminate) E3).
  - exists f2, f3. split; [exact E3|]. split; [|reflexivity].
    rewrite (flatten_multi_lookup_other _ _ _ _ _ _ Hc
               ltac:(rewrite owner_band_column by exact Ht; discriminate) E2).
    rewrite (flatten_multi_lookup_other _ _ _ _ _ _ Hm
               ltac:(rewrite owner_band_column by exact Ht; discriminate) E1).
    now apply H0.
Qed.

(** The columns of an array that is present are those of its bands,
    whatever its length: the column [name_i_k] holds what band [i] holds
    under [k], and there is no such column when the array has no band
    [i] or the band no key [k]. *)
Theorem band_columns_of_array (d flat : dict) (name : string) (n : nat)
  (array : list pyobj) (i : nat) (k : string) :
  In (name, n) band_shapes ->
  dict_get d name (PList []) = PList array ->
  array <> [] ->
  Forall unique_keys array ->
  flatten_dict d = Ok flat ->
  dict_lookup flat (band_column name i k)
  = match nth_error array i with
    | Some (PDict obj) => dict_lookup obj k
    | _ => None
    end.
Proof.
  intros Hin Hget Hne Hu H.
  destruct (flatten_dict_band_block d flat name n i k Hin H)
    as (f0 & f1 & Hm & H0 & ->).
  unfold flatten_multi in Hm. rewrite Hget in Hm.
  destruct array as [|b rest]; [contradiction|].
  rewrite (flatten_bands_lookup name _ i k Hu _ _ _ Hm).
  simpl Nat.leb. cbv iota. rewrite Nat.sub_0_r, H0.
  destruct (nth_error (b :: rest) i) as [[| | | | | |obj]|]; try reflexivity.
  now destruct (dict_lookup obj k).
Qed.

(** When an array is missing, empty or not a list, its columns are the
    seven statistics of each index of the fixed range, all null, and no
    other. *)
Theorem band_fallback_columns (d flat : dict) (name : string) (n i : nat)
  (k : string) :
  In (name, n) band_shapes ->
  is_nonempty_list (dict_get d name (PList [])) = false ->
  flatten_dict d = Ok flat ->
  dict_lookup flat (band_column name i k)
  = if (i <? n)%nat && existsb (String.eqb k) stat_keys
    then Some PNone else None.
Proof.
  intros Hin Hget H.
  destruct (flatten_dict_band_block d flat name n i k Hin H)
    as (f0 & f1 & Hm & H0 & ->).
  assert (E : f1 = flatten_bands_none name n f0).
  { unfold flatten_multi in Hm.
    destruct (dict_get d name (PList [])) as [| | | | |[|b rest]|];
      try discriminate; now injection Hm. }
  rewrite E. unfold flatten_bands_none.
  rewrite flatten_bands_none_lookup, H0. reflexivity.
Qed.

Lemma band_columns_of_array_witness :
  In ("tonnetz_stats", 6) band_shapes
  /\ dict_get extra_key_document "tonnetz_stats" (PList [])
     = PList [PDict [("max", PFloat half)]]
  /\ [PDict [("max", PFloat half)]] <> []
  /\ Forall unique_keys [PDict [("max", PFloat half)]]
  /\ flatten_dict extra_key_document = Ok extra_key_row
  /\ dict_lookup extra_key_row (band_column "tonnetz_stats" 1 "max")
     = match nth_error [PDict [("max", PFloat half)]] 1 with
       | Some (PDict obj) => dict_lookup obj "max"
       | _ => None
       end.
Proof.
  assert (H1 : In ("tonnetz_stats", 6) band_shapes)
    by (right; right; left; reflexivity).
  assert (H2 : [PDict [("max", PFloat half)]] <> []) by discriminate.
  assert (H3 : Forall unique_keys [PDict [("max", PFloat half)]]).
  { constructor; [|constructor]. simpl. apply nodupb_sound. reflexivity. }
  assert (H4 : flatten_dict extra_key_document = Ok extra_key_row)
    by (vm_compute; reflexivity).
  split; [exact H1|]. split; [reflexivity|]. split; [exact H2|].
  split; [exact H3|]. split; [exact H4|].
  exact (band_columns_of_array extra_key_document extra_key_row
           "tonnetz_stats" 6 [PDict [("max", PFloat half)]] 1 "max"
           H1 eq_refl H2 H3 H4).
Defined.

Lemma band_fallback_columns_witness :
  In ("mfcc_stats", 20) band_shapes
  /\ is_nonempty_list (dict_get extra_key_document "mfcc_stats" (PList []))
     = false
  /\ flatten_dict extra_key_document = Ok extra_key_row
  /\ dict_lookup extra_key_row (band_column "mfcc_stats" 19 "mean")
     = if (19 <? 20)%nat && existsb (String.eqb "mean") stat_keys
       then Some PNone else None.
Proof.
  assert (H1 : In ("mfcc_stats", 20) band_shapes) by (left; reflexivity).
  assert (H3 : flatten_dict extra_key_document = Ok extra_key_row)
    by (vm_compute; reflexivity).
  split; [exact H1|]. split; [reflexivity|]. split; [exact H3|].
  exact (band_fallback_columns extra_key_document extra_key_row
           "mfcc_stats" 20 19 "mean" H1 eq_refl H3).
Defined.

(* ================================================================== *)
(** * More on the summariser *)

Lemma add_nan_l (x : float) : Float64.add Float64.nan x = Float64.nan.
Proof. reflexivity. Qed.

Lemma add_nan_r (x : float) : Float64.add x Float64.nan = Float64.nan.
Proof. now destruct x. Qed.

Lemma isnan_true (x : float) : Float64.isnan x = true -> x = Float64.nan.
Proof. destruct x; simpl; intros H; (discriminate || reflexivity). Qed.

Lemma fold_add_nan_acc (l : list float) :
  fold_left Float64.add l Float64.nan = Float64.nan.
Proof. induction l as [|x l IH]; simpl; [reflexivity | exact IH]. Qed.

Lemma sum_nan (a : list float) :
  existsb Float64.isnan a = true -> Numpy.sum a = Float64.nan.
Proof.
  unfold Numpy.sum. generalize Float64.zero.
  induction a as [|x a IH]; simpl; intros acc H; [discriminate|].
  destruct (Float64.isnan x) eqn:Ex; simpl in H.
  - rewrite (isnan_true _ Ex), add_nan_r. apply fold_add_nan_acc.
  - now apply IH.
Qed.

Lemma mean_nan (a : list float) :
  existsb Float64.isnan a = true -> Numpy.mean a = Float64.nan.
Proof. intros H. unfold Numpy.mean. now rewrite (sum_nan a H). Qed.

Lemma leb_nan_r (x : float) : Float64.leb x Float64.nan = false.
Proof. now destruct x. Qed.

Lemma leb_nan_l (x : float) : Float64.leb Float64.nan x = false.
Proof. reflexivity. Qed.

Lemma fold_minimum_nan (l : list float) :
  forall x,
    existsb Float64.isnan (x :: l) = true ->
    fold_left Numpy.minimum l x = Float64.nan.
Proof.
  induction l as [|y l IH]; intros x H; simpl in H.
  - rewrite orb_false_r in H. simpl. now apply isnan_true.
  - simpl. apply IH. simpl.
    unfold Numpy.minimum.
    destruct (Float64.isnan x) eqn:Ex; simpl in H.
    + now rewrite orb_true_r, Ex.
    + rewrite orb_false_r.
      destruct (Float64.isnan y) eqn:Ey; simpl in H.
      * rewrite (isnan_true _ Ey), leb_nan_r. reflexivity.
      * destruct (Float64.leb x y); rewrite ?Ex, ?Ey; exact H.
Qed.

Lemma fold_maximum_nan (l : list float) :
  forall x,
    existsb Float64.isnan (x :: l) = true ->
    fold_left Numpy.maximum l x = Float64.nan.
Proof.
  induction l as [|y l IH]; intros x H; simpl in H.
  - rewrite orb_false_r in H. simpl. now apply isnan_true.
  - simpl. apply IH. simpl.
    unfold Numpy.maximum.
    destruct (Float64.isnan x) eqn:Ex; simpl in H.
    + now rewrite orb_true_r, Ex.
    + rewrite orb_false_r.
      destruct (Float64.isnan y) eqn:Ey; simpl in H.
      * rewrite (isnan_true _ Ey), leb_nan_l. reflexivity.
      * destruct (Float64.leb y x); rewrite ?Ex, ?Ey; exact H.
Qed.

Lemma sub_nan_r (x : float) : Float64.sub x Float64.nan = Float64.nan.
Proof. now destruct x. Qed.

(** One NaN spoils the summary: when an element of a non-empty array is
    NaN, the mean, the variance, the median, the minimum and the maximum
    are all NaN; nothing is raised. *)
Theorem detailed_stats_nan (skew kurt : list float -> float)
  (a : list float) :
  existsb Float64.isnan a = true ->
  exists s,
    detailed_stats skew kurt a = Ok s
    /\ s_mean s = Float64.nan
    /\ s_variance s = Float64.nan
    /\ s_median s = Float64.nan
    /\ s_min s = Float64.nan
    /\ s_max s = Float64.nan.
Proof.
  intros H. destruct a as [|x l]; [discriminate|].
  eexists. split; [reflexivity|]. cbn [s_mean s_variance s_median s_min s_max].
  split; [now apply mean_nan|]. split; [|split; [|split]].
  - unfold Numpy.var. rewrite (mean_nan _ H).
    apply mean_nan. simpl. now rewrite sub_nan_r.
  - unfold Numpy.median. now rewrite H.
  - now apply fold_minimum_nan.
  - now apply fold_maximum_nan.
Qed.

Lemma detailed_stats_nan_witness :
  existsb Float64.isnan [tenth; Float64.nan; huge] = true
  /\ exists s,
       detailed_stats (fun _ => Float64.nan) (fun _ => Float64.nan)
         [tenth; Float64.nan; huge] = Ok s
       /\ s_mean s = Float64.nan
       /\ s_variance s = Float64.nan
       /\ s_median s = Float64.nan
       /\ s_min s = Float64.nan
       /\ s_max s = Float64.nan.
Proof.
  split; [reflexivity|].
  exact (detailed_stats_nan (fun _ => Float64.nan) (fun _ => Float64.nan)
           [tenth; Float64.nan; huge] eq_refl).
Defined.

(* ================================================================== *)
(** * More on the extractor *)

(* ------------------------------------------------------------------ *)
(** ** The key *)

Lemma leb_false_lt (x y : float) :
  Float64.isnan x = false -> Float64.isnan y = false ->
  Float64.leb x y = false -> Float64.leb y x = true.
Proof.
  intros Hx Hy H. destruct (leb_total x y Hx Hy) as [E | E];
    [congruence | exact E].
Qed.

Lemma argmax_from_spec (rest : list float) :
  forall mp ind i,
    Float64.isnan mp = false ->
    (forall y, In y rest -> Float64.isnan y = false) ->
    (Numpy.argmax_from mp ind i rest = ind
     /\ forall y, In y rest -> Float64.leb y mp = true)
    \/ exists j x,
         Numpy.argmax_from mp ind i rest = i + j
         /\ nth_error rest j = Some x
         /\ Float64.leb x mp = false
         /\ (forall y, In y rest -> Float64.leb y x = true)
         /\ (forall j' y, j' < j -> nth_error rest j' = Some y ->
                          Float64.leb x y = false).
Proof.
  induction rest as [|y rest IH]; intros mp ind i Hmp Hall; simpl.
  - left. split; [reflexivity | intros y []].
  - assert (Hy : Float64.isnan y = false) by (apply Hall; now left).
    assert (Hrest : forall z, In z rest -> Float64.isnan z = false)
      by (intros z Hz; apply Hall; now right).
    destruct (Float64.leb y mp) eqn:Eymp.
    + destruct (IH mp ind (S i) Hmp Hrest)
        as [[Hr Hle] | (j & x & Hr & Hnth & Hgt & Hle & Hfirst)].
      * left. split; [exact Hr|]. intros z [<- | Hz]; auto.
      * right. exists (S j), x.
        assert (Hx : Float64.isnan x = false)
          by (apply Hrest; eapply nth_error_In; eassumption).
        split; [rewrite Hr; lia|]. split; [exact Hnth|].
        split; [exact Hgt|]. split.
        -- intros z [<- | Hz]; [|now apply Hle].
           eapply leb_trans; [exact Eymp | now apply leb_false_lt].
        -- intros [|j'] z Hj Hz; simpl in Hz.
           ++ injection Hz as <-.
              destruct (Float64.leb x y) eqn:Exy; [|reflexivity].
              rewrite (leb_trans _ _ _ Exy Eymp) in Hgt. discriminate.
           ++ apply (Hfirst j' z); [lia | exact Hz].
    + rewrite Hy.
      destruct (IH y i (S i) Hy Hrest)
        as [[Hr Hle] | (j & x & Hr & Hnth & Hgt & Hle & Hfirst)].
      * right. exists 0, y.
        split; [rewrite Hr; lia|]. split; [reflexivity|].
        split; [exact Eymp|]. split.
        -- intros z [<- | Hz]; [now apply leb_refl | now apply Hle].
        -- intros j' z Hj. lia.
      * right. exists (S j), x.
        assert (Hx : Float64.isnan x = false)
          by (apply Hrest; eapply nth_error_In; eassumption).
        split; [rewrite Hr; lia|]. split; [exact Hnth|]. split; [|split].
        -- destruct (Float64.leb x mp) eqn:Exmp; [|reflexivity].
           rewrite (leb_trans _ _ _ (leb_false_lt _ _ Hx Hy Hgt) Exmp)
             in Eymp.
           discriminate.
        -- intros z [<- | Hz]; [now apply leb_false_lt | now apply Hle].
        -- intros [|j'] z Hj Hz; simpl in Hz.
           ++ now injection Hz as <-.
           ++ apply (Hfirst j' z); [lia | exact Hz].
Qed.

(** [argmax] returns the first index of a largest element. *)
Lemma argmax_spec (a : list float) (r : nat) :
  existsb Float64.isnan a = false ->
  Numpy.argmax a = Ok r ->
  exists m,
    nth_error a r = Some m
    /\ (forall y, In y a -> Float64.leb y m = true)
    /\ (forall j y, j < r -> nth_error a j = Some y ->
                    Float64.leb m y = false).
Proof.
  intros Hnan H. destruct a as [|x rest]; [discriminate|].
  pose proof (proj1 (existsb_isnan_false _) Hnan) as Hall.
  assert (Hx : Float64.isnan x = false) by (apply Hall; now left).
  assert (Hrest : forall z, In z rest -> Float64.isnan z = false)
    by (intros z Hz; apply Hall; now right).
  simpl in H. rewrite Hx in H. injection H as <-.
  destruct (argmax_from_spec rest x 0 1 Hx Hrest)
    as [[Hr Hle] | (j & m & Hr & Hnth & Hgt & Hle & Hfirst)].
  - rewrite Hr. exists x. split; [reflexivity|]. split.
    + intros z [<- | Hz]; [now apply leb_refl | now apply Hle].
    + intros j y Hj. lia.
  - rewrite Hr. exists m. split; [exact Hnth|].
    assert (Hm : Float64.isnan m = false)
      by (apply Hrest; eapply nth_error_In; eassumption).
    split.
    + intros z [<- | Hz]; [now apply leb_false_lt | now apply Hle].
    + intros [|j'] y Hj Hy; simpl in Hy.
      * now injection Hy as <-.
      * apply (Hfirst j' y); [lia | exact Hy].
Qed.

(** The key is the label of the first pitch class whose mean energy is
    the largest: no class has a larger mean, and every class before it
    has a smaller one. *)
Theorem estimate_key_first_maximum (chroma_cens : list (list float))
  (key : string) :
  existsb Float64.isnan (map Numpy.mean chroma_cens) = false ->
  estimate_key chroma_cens = Ok key ->
  exists i m,
    nth_error key_labels i = Some key
    /\ nth_error (map Numpy.mean chroma_cens) i = Some m
    /\ (forall y, In y (map Numpy.mean chroma_cens) ->
                  Float64.leb y m = true)
    /\ (forall j y, j < i ->
                    nth_error (map Numpy.mean chroma_cens) j = Some y ->
                    Float64.leb m y = false).
Proof.
  intros Hnan H. unfold estimate_key in H.
  destruct (Numpy.argmax (map Numpy.mean chroma_cens)) as [i|e] eqn:E;
    [|discriminate].
  simpl in H.
  destruct (nth_error key_labels i) as [label|] eqn:El; [|discriminate].
  injection H as <-.
  destruct (argmax_spec _ _ Hnan E) as (m & Hm & Hle & Hfirst).
  now exists i, m.
Qed.

Lemma estimate_key_first_maximum_witness :
  existsb Float64.isnan (map Numpy.mean [[tenth]; [huge]; [huge]]) = false
  /\ estimate_key [[tenth]; [huge]; [huge]] = Ok "C#"
  /\ exists i m,
       nth_error key_labels i = Some "C#"
       /\ nth_error (map Numpy.mean [[tenth]; [huge]; [huge]]) i = Some m
       /\ (forall y, In y (map Numpy.mean [[tenth]; [huge]; [huge]]) ->
                     Float64.leb y m = true)
       /\ (forall j y, j < i ->
             nth_error (map Numpy.mean [[tenth]; [huge]; [huge]]) j = Some y ->
             Float64.leb m y = false).
Proof.
  assert (H1 : existsb Float64.isnan
                 (map Numpy.mean [[tenth]; [huge]; [huge]]) = false)
    by (vm_compute; reflexivity).
  assert (H2 : estimate_key [[tenth]; [huge]; [huge]] = Ok "C#")
    by (vm_compute; reflexivity).
  split; [exact H1|]. split; [exact H2|].
  exact (estimate_key_first_maximum [[tenth]; [huge]; [huge]] "C#" H1 H2).
Defined.

Lemma argmax_from_bound (rest : list float) :
  forall mp ind i,
    Numpy.argmax_from mp ind i rest = ind
    \/ i <= Numpy.argmax_from mp ind i rest < i + List.length rest.
Proof.
  induction rest as [|y rest IH]; intros mp ind i; simpl; [now left|].
  destruct (Float64.leb y mp).
  - destruct (IH mp ind (S i)) as [H | H]; [now left | right; lia].
  - destruct (Float64.isnan y); [right; lia|].
    destruct (IH y i (S i)) as [H | H]; right; lia.
Qed.

Lemma argmax_bound (a : list float) (r : nat) :
  Numpy.argmax a = Ok r -> r < List.length a.
Proof.
  destruct a as [|x rest]; [discriminate|]. simpl. intros H.
  injection H as <-. destruct (Float64.isnan x); [lia|].
  destruct (argmax_from_bound rest x 0 1) as [-> | H]; lia.
Qed.

(* ------------------------------------------------------------------ *)
(** ** Danceability *)

Lemma take_is_ok (row : list float) (indices : list nat) :
  is_ok (Numpy.take row indices)
  = forallb (fun i => (i <? List.length row)%nat) indices.
Proof.
  induction indices as [|i rest IH]; simpl; [reflexivity|].
  destruct (nth_error row i) as [x|] eqn:E.
  - assert (Hi : i < List.length row)
      by (apply nth_error_Some; congruence).
    apply Nat.ltb_lt in Hi. rewrite Hi. simpl.
    rewrite <- IH. now destruct (Numpy.take row rest).
  - apply nth_error_None in E.
    replace (i <? List.length row)%nat with false
      by (symmetry; apply Nat.ltb_ge; lia).
    reflexivity.
Qed.

(** Danceability is computed exactly when [rms] has a first row and
    every beat frame is a position of that row; otherwise the indexing
    raises. *)
Theorem danceability_of_is_ok (tempo : float) (rms : list (list float))
  (beat_frames : list nat) :
  is_ok (danceability_of tempo rms beat_frames)
  = match rms with
    | [] => false
    | row0 :: _ =>
        forallb (fun i => (i <? List.length row0)%nat) beat_frames
    end.
Proof.
  unfold danceability_of, beat_strength.
  destruct rms as [|row0 rest]; [reflexivity|].
  rewrite <- take_is_ok. now destruct (Numpy.take row0 beat_frames).
Qed.

Lemma danceability_of_clipped_witness :
  danceability_of (Float64.of_Z 120) [[tenth; half]] [1; 0; 1]
  = Ok (Float64.of_Z 1)
  /\ exists strength,
       beat_strength [[tenth; half]] [1; 0; 1] = Ok strength
       /\ Float64.of_Z 1
          = Numpy.clip (danceability_raw (Float64.of_Z 120) strength)
              (Float64.of_Z 0) (Float64.of_Z 1)
       /\ (Float64.isnan (danceability_raw (Float64.of_Z 120) strength)
           = false ->
           in_unit_interval (Float64.of_Z 1) = true).
Proof.
  assert (H : danceability_of (Float64.of_Z 120) [[tenth; half]] [1; 0; 1]
              = Ok (Float64.of_Z 1)) by (vm_compute; reflexivity).
  split; [exact H|].
  exact (danceability_of_clipped (Float64.of_Z 120) [[tenth; half]]
           [1; 0; 1] (Float64.of_Z 1) H).
Defined.

(* ------------------------------------------------------------------ *)
(** ** The shape of the bundle *)

Section ExtractFacts.

Variable skew kurt : list float -> float.

Lemma detailed_stats_is_ok (a : list float) :
  a <> [] -> exists s, detailed_stats skew kurt a = Ok s.
Proof. destruct a; [contradiction | intros _; eexists; reflexivity]. Qed.

Lemma detailed_stats_rows_length (array : list (list float)) :
  forall l,
    detailed_stats_rows skew kurt array = Ok l ->
    List.length l = List.length array.
Proof.
  induction array as [|band rest IH]; intros l H; simpl in H.
  - now injection H as <-.
  - destruct (detailed_stats skew kurt band) as [s|]; [|discriminate].
    simpl in H.
    destruct (detailed_stats_rows skew kurt rest) as [ss|]; [|discriminate].
    simpl in H. injection H as <-. simpl. now rewrite (IH ss).
Qed.

Lemma detailed_stats_rows_is_ok (array : list (list float)) :
  Forall (fun row => row <> []) array ->
  exists l, detailed_stats_rows skew kurt array = Ok l.
Proof.
  induction 1 as [|band rest Hb _ [l IH]]; simpl; [eauto|].
  destruct (detailed_stats_is_ok band Hb) as [s ->]. simpl.
  rewrite IH. simpl. eauto.
Qed.

Lemma extract_audio_features_Ok (a : Analysis) (b : FeatureBundle) :
  extract_audio_features skew kurt a = Ok b ->
  estimate_key (a_chroma_cens a) = Ok (b_key b)
  /\ danceability_of (a_tempo a) (a_rms a) (a_beat_frames a)
     = Ok (b_danceability b)
  /\ b_tempo b = a_tempo a
  /\ b_duration b = a_duration a
  /\ detailed_stats_rows skew kurt (a_mfcc a) = Ok (b_mfcc_stats b)
  /\ detailed_stats_rows skew kurt (a_spectral_contrast a)
     = Ok (b_spectral_contrast_stats b)
  /\ detailed_stats_rows skew kurt (a_tonnetz a) = Ok (b_tonnetz_stats b).
Proof.
  unfold extract_audio_features. intros H.
  repeat match type of H with
         | bind ?m _ = _ =>
             let E := fresh "E" in
             destruct m eqn:E; [|discriminate]; simpl in H
         end.
  injection H as <-. simpl. repeat split.
Qed.

End ExtractFacts.

Lemma estimate_key_label (chroma_cens : list (list float)) (key : string) :
  estimate_key chroma_cens = Ok key -> In key key_labels.
Proof.
  unfold estimate_key.
  destruct (Numpy.argmax (map Numpy.mean chroma_cens)) as [i|];
    [|discriminate].
  cbn [bind]. destruct (nth_error key_labels i) as [label|] eqn:E;
    [|discriminate].
  intros H. injection H as <-. exact (nth_error_In key_labels i E).
Qed.

(** A bundle that the extractor returns has one summary per row of each
    of the three arrays, the tempo and the duration that librosa gave,
    and one of the twelve labels as its key. *)
Theorem extract_audio_features_shape (skew kurt : list float -> float)
  (a : Analysis) (b : FeatureBundle) :
  extract_audio_features skew kurt a = Ok b ->
  List.length (b_mfcc_stats b) = List.length (a_mfcc a)
  /\ List.length (b_spectral_contrast_stats b)
     = List.length (a_spectral_contrast a)
  /\ List.length (b_tonnetz_stats b) = List.length (a_tonnetz a)
  /\ b_tempo b = a_tempo a
  /\ b_duration b = a_duration a
  /\ In (b_key b) key_labels.
Proof.
  intros H.
  destruct (extract_audio_features_Ok _ _ _ _ H)
    as (Hk & _ & Ht & Hd & Hm & Hc & Hz).
  repeat split;
    try (eapply detailed_stats_rows_length; eassumption); try assumption.
  eapply estimate_key_label. exact Hk.
Qed.

(* ------------------------------------------------------------------ *)
(** ** Arrays of librosa's shapes *)

Lemma has_shape_rows_nonempty (rows frames : nat)
  (array : list (list float)) :
  1 <= frames -> has_shape rows frames array ->
  Forall (fun row => row <> []) array.
Proof.
  intros Hf [_ Hall]. eapply Forall_impl; [|exact Hall].
  intros row Hrow E. rewrite E in Hrow. simpl in Hrow. lia.
Qed.

Lemma has_shape_concat_nonempty (rows frames : nat)
  (array : list (list float)) :
  1 <= frames -> has_shape (S rows) frames array -> List.concat array <> [].
Proof.
  intros Hf [Hlen Hall]. destruct array as [|row rest]; [discriminate|].
  inversion Hall as [|? ? Hrow _].
  destruct row; [simpl in Hrow; lia | discriminate].
Qed.

Lemma estimate_key_is_ok (frames : nat) (chroma_cens : list (list float)) :
  has_shape 12 frames chroma_cens ->
  exists key, estimate_key chroma_cens = Ok key.
Proof.
  intros [Hlen _]. unfold estimate_key.
  destruct (Numpy.argmax (map Numpy.mean chroma_cens)) as [i|e] eqn:E.
  - pose proof (argmax_bound _ _ E) as Hi.
    rewrite length_map, Hlen in Hi. cbn [bind].
    destruct (nth_error key_labels i) as [label|] eqn:El; [eauto|].
    apply nth_error_None in El. simpl in El. lia.
  - destruct chroma_cens; [discriminate Hlen | discriminate E].
Qed.

Lemma danceability_of_is_ok_shape (frames : nat) (tempo : float)
  (rms : list (list float)) (beat_frames : list nat) :
  has_shape 1 frames rms -> Forall (fun i => i < frames) beat_frames ->
  exists dn, danceability_of tempo rms beat_frames = Ok dn.
Proof.
  intros [Hlen Hall] Hb. unfold danceability_of, beat_strength.
  destruct rms as [|row0 rest]; [discriminate|].
  inversion Hall as [|? ? Hrow _]; subst.
  assert (Hok : is_ok (Numpy.take row0 beat_frames) = true).
  { rewrite take_is_ok. apply forallb_forall. intros i Hi.
    apply Nat.ltb_lt. rewrite Forall_forall in Hb. now apply Hb. }
  destruct (Numpy.take row0 beat_frames); [|discriminate].
  simpl. eauto.
Qed.

(** On arrays of the shapes that librosa gives to a recording of at
    least one frame, with beat positions among its frames, the extractor
    raises nothing, and the document that it returns is flattened into
    the columns of the schema. *)
Theorem extract_then_flatten (skew kurt : list float -> float)
  (frames : nat) (a : Analysis) :
  librosa_shapes frames a ->
  exists b,
    extract_audio_features skew kurt a = Ok b
    /\ well_formed b
    /\ fmap keys (flatten_bundle b) = Ok schema_names.
Proof.
  intros (Hf & Hchroma & Hcent & Hzcr & Hmfcc & Hcon & Hton & Hrms & Hcens
          & Hbeats).
  destruct (estimate_key_is_ok _ _ Hcens) as [key Hkey].
  destruct (danceability_of_is_ok_shape _ (a_tempo a) _ _ Hrms Hbeats)
    as [dn Hdn].
  destruct (detailed_stats_is_ok skew kurt _
              (has_shape_concat_nonempty _ _ _ Hf Hchroma)) as [s1 H1].
  destruct (detailed_stats_is_ok skew kurt _
              (has_shape_concat_nonempty _ _ _ Hf Hcent)) as [s2 H2].
  destruct (detailed_stats_is_ok skew kurt _
              (has_shape_concat_nonempty _ _ _ Hf Hzcr)) as [s3 H3].
  destruct (detailed_stats_is_ok skew kurt _
              (has_shape_concat_nonempty _ _ _ Hf Hrms)) as [s4 H4].
  destruct (detailed_stats_rows_is_ok skew kurt _
              (has_shape_rows_nonempty _ _ _ Hf Hmfcc)) as [l1 L1].
  destruct (detailed_stats_rows_is_ok skew kurt _
              (has_shape_rows_nonempty _ _ _ Hf Hcon)) as [l2 L2].
  destruct (detailed_stats_rows_is_ok skew kurt _
              (has_shape_rows_nonempty _ _ _ Hf Hton)) as [l3 L3].
  assert (Hb : well_formed
                 {| b_tempo := a_tempo a; b_danceability := dn;
                    b_key := key; b_duration := a_duration a;
                    b_chroma_stft_stats := s1;
                    b_spectral_centroid_stats := s2;
                    b_zero_crossing_rate_stats := s3; b_rms_stats := s4;
                    b_mfcc_stats := l1; b_spectral_contrast_stats := l2;
                    b_tonnetz_stats := l3 |}).
  { unfold well_formed. simpl.
    rewrite (detailed_stats_rows_length _ _ _ _ L1),
      (detailed_stats_rows_length _ _ _ _ L2),
      (detailed_stats_rows_length _ _ _ _ L3).
    now rewrite (proj1 Hmfcc), (proj1 Hcon), (proj1 Hton). }
  eexists. split; [|split; [exact Hb | now apply flatten_bundle_keys]].
  unfold extract_audio_features, detailed_stats_2d.
  rewrite Hkey, Hdn, H1, H2, H3, H4, L1, L2, L3. reflexivity.
Qed.

Lemma extract_then_flatten_witness :
  librosa_shapes 2 beatless_analysis
  /\ exists b,
       extract_audio_features (fun _ => Float64.nan) (fun _ => Float64.nan)
         beatless_analysis = Ok b
       /\ well_formed b
       /\ fmap keys (flatten_bundle b) = Ok schema_names.
Proof.
  assert (H : librosa_shapes 2 beatless_analysis).
  { unfold librosa_shapes, has_shape. simpl.
    repeat split; try lia; repeat constructor. }
  split; [exact H|].
  exact (extract_then_flatten (fun _ => Float64.nan) (fun _ => Float64.nan)
           2 beatless_analysis H).
Defined.

Lemma extract_audio_features_shape_witness :
  extract_audio_features (fun _ => Float64.nan) (fun _ => Float64.nan)
    beatless_analysis = Ok beatless_bundle
  /\ List.length (b_mfcc_stats beatless_bundle)
     = List.length (a_mfcc beatless_analysis)
  /\ List.length (b_spectral_contrast_stats beatless_bundle)
     = List.length (a_spectral_contrast beatless_analysis)
  /\ List.length (b_tonnetz_stats beatless_bundle)
     = List.length (a_tonnetz beatless_analysis)
  /\ b_tempo beatless_bundle = a_tempo beatless_analysis
  /\ b_duration beatless_bundle = a_duration beatless_analysis
  /\ In (b_key beatless_bundle) key_labels.
Proof.
  assert (H : extract_audio_features (fun _ => Float64.nan)
                (fun _ => Float64.nan) beatless_analysis
              = Ok beatless_bundle) by (vm_compute; reflexivity).
  split; [exact H|].
  exact (extract_audio_features_shape (fun _ => Float64.nan)
           (fun _ => Float64.nan) beatless_analysis beatless_bundle H).
Defined.

(* ================================================================== *)
(** * The header of the table *)

Lemma add_columns_fold_In (ks : list string) :
  forall cols k,
    In k (fold_left
            (fun cols k =>
               if existsb (String.eqb k) cols then cols
               else (cols ++ [k])%list) ks cols)
    <-> In k cols \/ In k ks.
Proof.
  induction ks as [|k0 ks IH]; intros cols k; simpl; [tauto|].
  rewrite IH.
  destruct (existsb (String.eqb k0) cols) eqn:E.
  - apply existsb_eqb_In in E. split; [tauto|].
    intros [H | [<- | H]]; tauto.
  - rewrite in_app_iff. simpl. tauto.
Qed.

Lemma add_columns_fold_NoDup (ks : list string) :
  forall cols,
    NoDup cols ->
    NoDup (fold_left
             (fun cols k =>
                if existsb (String.eqb k) cols then cols
                else (cols ++ [k])%list) ks cols).
Proof.
  induction ks as [|k0 ks IH]; intros cols H; simpl; [exact H|].
  apply IH.
  destruct (existsb (String.eqb k0) cols) eqn:E; [exact H|].
  apply NoDup_app; [exact H | constructor; [intros [] | constructor] |].
  intros k Hk [<- | []].
  apply existsb_eqb_In in Hk. congruence.
Qed.

Lemma add_columns_In (cols : list string) (d : dict) (k : string) :
  In k (add_columns cols d) <-> In k cols \/ In k (keys d).
Proof. apply add_columns_fold_In. Qed.

Lemma add_columns_NoDup (cols : list string) (d : dict) :
  NoDup cols -> NoDup (add_columns cols d).
Proof. apply add_columns_fold_NoDup. Qed.

Lemma frame_columns_fold_In (l : list dict) :
  forall cols k,
    In k (fold_left add_columns l cols)
    <-> In k cols \/ exists d, In d l /\ In k (keys d).
Proof.
  induction l as [|d l IH]; intros cols k; simpl.
  - split; [tauto | intros [H | (d & [] & _)]; exact H].
  - rewrite IH, add_columns_In. split.
    + intros [[H | H] | (d' & Hd' & H)]; eauto 6.
    + intros [H | (d' & [<- | Hd'] & H)]; eauto 6.
Qed.

Lemma frame_columns_fold_NoDup (l : list dict) :
  forall cols, NoDup cols -> NoDup (fold_left add_columns l cols).
Proof.
  induction l as [|d l IH]; intros cols H; simpl; [exact H|].
  apply IH. now apply add_columns_NoDup.
Qed.

Lemma frame_columns_In (l : list dict) (k : string) :
  In k (frame_columns l) <-> exists d, In d l /\ In k (keys d).
Proof.
  unfold frame_columns. rewrite frame_columns_fold_In. simpl. tauto.
Qed.

Lemma frame_columns_NoDup (l : list dict) : NoDup (frame_columns l).
Proof. apply frame_columns_fold_NoDup. constructor. Qed.

Lemma Forall2_In_l {A B : Type} (R : A -> B -> Prop) (l1 : list A)
  (l2 : list B) (a : A) :
  Forall2 R l1 l2 -> In a l1 -> exists b, In b l2 /\ R a b.
Proof.
  induction 1 as [|x y l1 l2 Hxy _ IH]; intros Hin; [contradiction|].
  destruct Hin as [<- | Hin].
  - exists y. split; [now left | exact Hxy].
  - destruct (IH Hin) as (b & Hb & Hab). exists b. split; [now right | exact Hab].
Qed.

Lemma Forall2_In_r {A B : Type} (R : A -> B -> Prop) (l1 : list A)
  (l2 : list B) (b : B) :
  Forall2 R l1 l2 -> In b l2 -> exists a, In a l1 /\ R a b.
Proof.
  induction 1 as [|x y l1 l2 Hxy _ IH]; intros Hin; [contradiction|].
  destruct Hin as [<- | Hin].
  - exists x. split; [now left | exact Hxy].
  - destruct (IH Hin) as (a & Ha & Hab). exists a. split; [now right | exact Hab].
Qed.

Lemma main_header (py_int : string -> except Z) (fs : string -> fs_entry)
  (df : list CatalogRow) (run : Run) :
  main py_int fs df = Ok run ->
  exists l,
    Forall2 (fun row flat => flat_data_of py_int fs row = Ok flat) df l
    /\ audio_columns (merged_df run) = frame_columns l.
Proof.
  unfold main. intros H.
  destruct (iterrows py_int fs df []) as [l|e] eqn:E; [|discriminate].
  simpl in H. injection H as <-. simpl.
  destruct (iterrows_Ok _ _ _ _ _ E) as (l' & -> & F).
  now exists l'.
Qed.

(** The header of the table that a run writes has each column once, and
    its columns are those that the flat row of some catalog row has. *)
Theorem main_header_columns (py_int : string -> except Z)
  (fs : string -> fs_entry) (df : list CatalogRow) (run : Run) :
  main py_int fs df = Ok run ->
  NoDup (audio_columns (merged_df run))
  /\ forall k,
       In k (audio_columns (merged_df run))
       <-> exists row flat,
             In row df
             /\ flat_data_of py_int fs row = Ok flat
             /\ In k (keys flat).
Proof.
  intros H. destruct (main_header _ _ _ _ H) as (l & F & ->).
  split; [apply frame_columns_NoDup|].
  intros k. rewrite frame_columns_In. split.
  - intros (flat & Hflat & Hk).
    destruct (Forall2_In_r _ _ _ _ F Hflat) as (row & Hrow & Hr).
    now exists row, flat.
  - intros (row & flat & Hrow & Hr & Hk).
    destruct (Forall2_In_l _ _ _ _ F Hrow) as (flat' & Hflat' & Hr').
    exists flat'. split; [exact Hflat'|]. congruence.
Qed.

Lemma main_header_columns_witness :
  main int_of_decimal present_fs [sample_row; other_row] = Ok present_run
  /\ NoDup (audio_columns (merged_df present_run))
  /\ forall k,
       In k (audio_columns (merged_df present_run))
       <-> exists row flat,
             In row [sample_row; other_row]
             /\ flat_data_of int_of_decimal present_fs row = Ok flat
             /\ In k (keys flat).
Proof.
  assert (H : main int_of_decimal present_fs [sample_row; other_row]
              = Ok present_run) by (vm_compute; reflexivity).
  split; [exact H|].
  exact (main_header_columns int_of_decimal present_fs
           [sample_row; other_row] present_run H).
Defined.

Lemma add_columns_fold_absorb (ks : list string) :
  forall cols,
    (forall k, In k ks -> In k cols) ->
    fold_left
      (fun cols k =>
         if existsb (String.eqb k) cols then cols else (cols ++ [k])%list)
      ks cols = cols.
Proof.
  induction ks as [|k0 ks IH]; intros cols H; simpl; [reflexivity|].
  assert (E : existsb (String.eqb k0) cols = true)
    by (apply existsb_eqb_In, H; now left).
  rewrite E. apply IH. intros k Hk. apply H. now right.
Qed.

Lemma add_columns_fold_fresh (ks : list string) :
  forall cols,
    NoDup (cols ++ ks) ->
    fold_left
      (fun cols k =>
         if existsb (String.eqb k) cols then cols else (cols ++ [k])%list)
      ks cols = (cols ++ ks)%list.
Proof.
  induction ks as [|k0 ks IH]; intros cols H; simpl;
    [now rewrite app_nil_r|].
  assert (E : existsb (String.eqb k0) cols = false).
  { destruct (existsb (String.eqb k0) cols) eqn:E; [|reflexivity].
    apply existsb_eqb_In in E. apply NoDup_remove_2 in H.
    exfalso. apply H. apply in_or_app. now left. }
  rewrite E, IH.
  - now rewrite <- app_assoc.
  - now rewrite <- app_assoc.
Qed.

Lemma add_columns_absorb (cols : list string) (d : dict) :
  (forall k, In k (keys d) -> In k cols) -> add_columns cols d = cols.
Proof. apply add_columns_fold_absorb. Qed.

Lemma add_columns_first (d : dict) :
  NoDup (keys d) -> add_columns [] d = keys d.
Proof. intros H. unfold add_columns. now rewrite add_columns_fold_fresh. Qed.

Lemma frame_columns_absorb (l : list dict) :
  forall cols,
    (forall d k, In d l -> In k (keys d) -> In k cols) ->
    fold_left add_columns l cols = cols.
Proof.
  induction l as [|d l IH]; intros cols H; simpl; [reflexivity|].
  rewrite add_columns_absorb by (intros k Hk; apply (H d); [now left | exact Hk]).
  apply IH. intros d' k Hd'. apply H. now right.
Qed.

(** The header takes the columns of the first row, in their order, when
    no later row has a column that the first has not. *)
Lemma frame_columns_first (d : dict) (l : list dict) :
  NoDup (keys d) ->
  (forall d' k, In d' l -> In k (keys d') -> In k (keys d)) ->
  frame_columns (d :: l) = keys d.
Proof.
  intros Hnd H. unfold frame_columns. simpl.
  rewrite add_columns_first by exact Hnd. now apply frame_columns_absorb.
Qed.

Lemma absent_row_keys_NoDup : NoDup (keys absent_row).
Proof. apply nodupb_sound. vm_compute. reflexivity. Qed.

Lemma absent_row_keys_length : List.length (keys absent_row) = 235.
Proof. vm_compute. reflexivity. Qed.

Lemma absent_row_keys_schema (k : string) :
  In k (keys absent_row) -> In k schema_names.
Proof.
  assert (H : forallb (fun k => existsb (String.eqb k) schema_names)
                (keys absent_row) = true) by (vm_compute; reflexivity).
  rewrite forallb_forall in H. intros Hk. now apply existsb_eqb_In, H.
Qed.

Lemma Forall2_all_same {A B : Type} (R : A -> B -> Prop) (b0 : B)
  (l1 : list A) (l2 : list B) :
  Forall2 R l1 l2 ->
  (forall a b, In a l1 -> R a b -> b = b0) ->
  l2 = repeat b0 (List.length l1).
Proof.
  induction 1 as [|a b l1 l2 Hab _ IH]; intros H; simpl; [reflexivity|].
  rewrite (H a b (or_introl eq_refl) Hab). f_equal.
  apply IH. intros a' b' Ha'. apply H. now right.
Qed.

(** When no row of a catalog that is not empty has an artifact, the run
    completes and the header of its table is that of the row of the
    empty document: 235 columns, without those of the four single
    summaries. *)
Theorem main_without_artifacts (py_int : string -> except Z)
  (fs : string -> fs_entry) (df : list CatalogRow) :
  df <> [] ->
  (forall row, In row df -> artifact_missing py_int fs row = true) ->
  exists run,
    main py_int fs df = Ok run
    /\ audio_columns (merged_df run) = keys absent_row
    /\ List.length (audio_columns (merged_df run)) = 235
    /\ Forall (fun k => ~ In k (audio_columns (merged_df run)))
         (map column_name (flat_map single_columns single_stats_names)).
Proof.
  intros Hne Hall.
  assert (Hok : forall row, In row df ->
                  is_ok (flat_data_of py_int fs row) = true).
  { intros row Hin. now rewrite (flat_data_of_missing _ _ _ (Hall row Hin)). }
  destruct (iterrows_total py_int fs df Hok []) as (l & El).
  assert (E : main py_int fs df
              = Ok {| merged_df :=
                        {| audio_columns := frame_columns l;
                           table_rows :=
                             combine df (map (frame_row (frame_columns l)) l) |};
                      printed := [success_message] |}).
  { unfold main. rewrite El. reflexivity. }
  eexists. split; [exact E|]. simpl.
  destruct (iterrows_Ok _ _ _ _ _ El) as (l' & -> & F). simpl.
  assert (Hl : l' = repeat absent_row (List.length df)).
  { apply (Forall2_all_same _ _ _ _ F). intros row flat Hin Hflat.
    rewrite (flat_data_of_missing _ _ _ (Hall row Hin)) in Hflat.
    now injection Hflat. }
  assert (Hcols : frame_columns l' = keys absent_row).
  { rewrite Hl. destruct df as [|row0 rest]; [contradiction|]. simpl.
    apply frame_columns_first; [exact absent_row_keys_NoDup|].
    intros d' k Hd'. apply repeat_spec in Hd'. now subst d'. }
  rewrite Hcols. split; [reflexivity|].
  split; [exact absent_row_keys_length|].
  apply Forall_forall. intros k Hk Hin.
  assert (Hb : forallb
                 (fun k => negb (existsb (String.eqb k) (keys absent_row)))
                 (map column_name (flat_map single_columns single_stats_names))
               = true) by (vm_compute; reflexivity).
  rewrite forallb_forall in Hb. specialize (Hb k Hk).
  apply existsb_eqb_In in Hin. rewrite Hin in Hb. discriminate.
Qed.

Lemma main_without_artifacts_witness :
  [sample_row; other_row] <> []
  /\ (forall row, In row [sample_row; other_row] ->
        artifact_missing int_of_decimal empty_fs row = true)
  /\ exists run,
       main int_of_decimal empty_fs [sample_row; other_row] = Ok run
       /\ audio_columns (merged_df run) = keys absent_row
       /\ List.length (audio_columns (merged_df run)) = 235
       /\ Forall (fun k => ~ In k (audio_columns (merged_df run)))
            (map column_name (flat_map single_columns single_stats_names)).
Proof.
  assert (H1 : [sample_row; other_row] <> []) by discriminate.
  assert (H2 : forall row, In row [sample_row; other_row] ->
                 artifact_missing int_of_decimal empty_fs row = true)
    by (intros row [<- | [<- | []]]; reflexivity).
  split; [exact H1|]. split; [exact H2|].
  exact (main_without_artifacts int_of_decimal empty_fs
           [sample_row; other_row] H1 H2).
Defined.

Lemma absent_or_bundle_keys (py_int : string -> except Z)
  (fs : string -> fs_entry) (row : CatalogRow) (flat : dict) :
  absent_or_bundle py_int fs row ->
  flat_data_of py_int fs row = Ok flat ->
  forall k, In k (keys flat) -> In k schema_names.
Proof.
  intros [Ha | (b & Hb & Hf)] Hflat k Hk.
  - rewrite Ha in Hflat. injection Hflat as <-.
    now apply absent_row_keys_schema.
  - destruct (flatten_bundle_row b Hb) as (flat' & E & K).
    rewrite Hf, E in Hflat. injection Hflat as <-. now rewrite <- K.
Qed.

Lemma absent_or_bundle_is_ok (py_int : string -> except Z)
  (fs : string -> fs_entry) (row : CatalogRow) :
  absent_or_bundle py_int fs row ->
  is_ok (flat_data_of py_int fs row) = true.
Proof.
  intros [-> | (b & Hb & ->)]; [reflexivity|].
  destruct (flatten_bundle_row b Hb) as (flat & -> & _). reflexivity.
Qed.

(** When every row has either no document or the document of a
    well-formed bundle, and at least one row has the latter, the run
    completes and the header of its table is the schema up to the order
    of the columns; it is the schema in its order when the first row has
    a document. *)
Theorem main_header_is_schema (py_int : string -> except Z)
  (fs : string -> fs_entry) (df : list CatalogRow) (row1 : CatalogRow) :
  (forall row, In row df -> absent_or_bundle py_int fs row) ->
  In row1 df ->
  has_bundle py_int fs row1 ->
  exists run,
    main py_int fs df = Ok run
    /\ Permutation (audio_columns (merged_df run)) schema_names
    /\ (has_bundle py_int fs (hd row1 df) ->
        audio_columns (merged_df run) = schema_names).
Proof.
  intros Hall Hin1 (b1 & Hb1 & Hf1).
  assert (Hok : forall row, In row df ->
                  is_ok (flat_data_of py_int fs row) = true)
    by (intros row Hin; now apply absent_or_bundle_is_ok, Hall).
  destruct (iterrows_total py_int fs df Hok []) as (l & El).
  assert (E : main py_int fs df
              = Ok {| merged_df :=
                        {| audio_columns := frame_columns l;
                           table_rows :=
                             combine df (map (frame_row (frame_columns l)) l) |};
                      printed := [success_message] |}).
  { unfold main. rewrite El. reflexivity. }
  eexists. split; [exact E|]. simpl.
  destruct (iterrows_Ok _ _ _ _ _ El) as (l' & -> & F). simpl.
  assert (Hsub : forall d k, In d l' -> In k (keys d) -> In k schema_names).
  { intros d k Hd Hk.
    destruct (Forall2_In_r _ _ _ _ F Hd) as (row & Hrow & Hr).
    exact (absent_or_bundle_keys _ _ _ _ (Hall row Hrow) Hr k Hk). }
  split.
  - apply NoDup_Permutation;
      [apply frame_columns_NoDup | exact schema_names_NoDup |].
    intros k. rewrite frame_columns_In. split.
    + intros (d & Hd & Hk). now apply (Hsub d).
    + intros Hk.
      destruct (Forall2_In_l _ _ _ _ F Hin1) as (flat1 & Hflat1 & Hr1).
      destruct (flatten_bundle_row b1 Hb1) as (flat & Eb & K).
      rewrite Hf1, Eb in Hr1. injection Hr1 as <-.
      exists flat. split; [exact Hflat1 | now rewrite K].
  - intros (b0 & Hb0 & Hf0).
    destruct df as [|row0 rest]; [contradiction|]. simpl in Hf0.
    inversion F as [|? flat0 ? l0 Hr0 F0]; subst.
    destruct (flatten_bundle_row b0 Hb0) as (flat & Eb & K).
    rewrite Hf0, Eb in Hr0. injection Hr0 as <-.
    rewrite frame_columns_first.
    + exact K.
    + rewrite K. exact schema_names_NoDup.
    + intros d' k Hd' Hk. rewrite K. apply (Hsub d'); [now right | exact Hk].
Qed.

Lemma main_header_is_schema_witness :
  (forall row, In row [other_row; sample_row] ->
     absent_or_bundle int_of_decimal present_fs row)
  /\ In sample_row [other_row; sample_row]
  /\ has_bundle int_of_decimal present_fs sample_row
  /\ exists run,
       main int_of_decimal present_fs [other_row; sample_row] = Ok run
       /\ Permutation (audio_columns (merged_df run)) schema_names
       /\ (has_bundle int_of_decimal present_fs
             (hd sample_row [other_row; sample_row]) ->
           audio_columns (merged_df run) = schema_names).
Proof.
  assert (Hs : has_bundle int_of_decimal present_fs sample_row).
  { exists sample_bundle. split; [exact sample_bundle_well_formed|].
    reflexivity. }
  assert (H1 : forall row, In row [other_row; sample_row] ->
                 absent_or_bundle int_of_decimal present_fs row).
  { intros row [<- | [<- | []]].
    - left. apply flat_data_of_missing. reflexivity.
    - right. exact Hs. }
  assert (H2 : In sample_row [other_row; sample_row])
    by (right; left; reflexivity).
  split; [exact H1|]. split; [exact H2|]. split; [exact Hs|].
  exact (main_header_is_schema int_of_decimal present_fs
           [other_row; sample_row] sample_row H1 H2 Hs).
Defined.

(* ================================================================== *)
(** * The loop over the audio files *)

Section ScriptFacts.

Variable skew kurt : list float -> float.
Variable analyse : string -> except Analysis.

Lemma write_json_same (fs : string -> fs_entry) (path : string)
  (features : dict) :
  write_json fs path features path = File (Ok (PDict features)).
Proof. unfold write_json. now rewrite String.eqb_refl. Qed.

Lemma write_json_other (fs : string -> fs_entry) (path p : string)
  (features : dict) :
  p <> path -> write_json fs path features p = fs p.
Proof.
  intros Hne. unfold write_json.
  destruct (String.eqb_spec p path); [contradiction | reflexivity].
Qed.

(** What the loop does to a path: nothing, or the path had no entry and
    is the output path of a file, whose document it now holds. *)
Lemma process_files_disk (files : list string) :
  forall fs out p,
    disk (process_files skew kurt analyse files fs out) p = fs p
    \/ (path_exists (fs p) = false
        /\ exists f b,
             In f files
             /\ p = output_path_of f
             /\ extract_file skew kurt analyse f = Ok b
             /\ disk (process_files skew kurt analyse files fs out) p
                = File (Ok (PDict (features_dict b)))).
Proof.
  induction files as [|f rest IH]; intros fs out p; simpl; [now left|].
  destruct (path_exists (fs (output_path_of f))) eqn:Eex.
  - destruct (IH fs (out ++ [output_path_of f])%list p)
      as [H | (Hp & f' & b & Hin & Hout & Hb & Hd)]; [now left|].
    right. split; [exact Hp|]. exists f', b. auto.
  - destruct (extract_file skew kurt analyse f) as [b|e] eqn:Eb;
      [|now left].
    match goal with
    | |- context [process_files _ _ _ rest ?fs' ?out'] =>
        destruct (IH fs' out' p)
          as [H | (Hp & f' & b' & Hin & Hout & Hb' & Hd)]
    end.
    + destruct (string_dec p (output_path_of f)) as [-> | Hne].
      * right. split; [exact Eex|]. exists f, b.
        rewrite H, write_json_same. auto.
      * left. now rewrite H, write_json_other.
    + destruct (string_dec p (output_path_of f)) as [-> | Hne].
      * rewrite write_json_same in Hp. discriminate.
      * rewrite write_json_other in Hp by exact Hne.
        right. split; [exact Hp|]. exists f', b'. auto.
Qed.

Lemma process_files_keeps (files : list string)
  (fs : string -> fs_entry) (out : list string) (p : string) :
  path_exists (fs p) = true -> disk (process_files skew kurt analyse files fs out) p = fs p.
Proof.
  intros H. destruct (process_files_disk files fs out p)
    as [E | (Hp & _)]; [exact E | congruence].
Qed.

Lemma process_files_complete (files : list string) :
  forall fs out,
    raised (process_files skew kurt analyse files fs out) = None ->
    forall f, In f files ->
      path_exists (disk (process_files skew kurt analyse files fs out) (output_path_of f)) = true.
Proof.
  induction files as [|f0 rest IH]; intros fs out H f Hin; [contradiction|].
  simpl in *.
  destruct (path_exists (fs (output_path_of f0))) eqn:Eex.
  - destruct Hin as [<- | Hin]; [|now apply IH].
    now rewrite (process_files_keeps rest fs _ _ Eex).
  - destruct (extract_file skew kurt analyse f0) as [b|e]; [|discriminate].
    destruct Hin as [<- | Hin]; [|now apply IH].
    rewrite (process_files_keeps rest); now rewrite write_json_same.
Qed.

Lemma process_files_cached (files : list string) :
  forall fs out,
    (forall f, In f files -> path_exists (fs (output_path_of f)) = true) ->
    process_files skew kurt analyse files fs out
    = {| disk := fs;
         lines := (out ++ map output_path_of files)%list;
         raised := None |}.
Proof.
  induction files as [|f rest IH]; intros fs out H; simpl.
  - now rewrite app_nil_r.
  - rewrite (H f (or_introl eq_refl)).
    rewrite IH by (intros f' Hf'; apply H; now right).
    now rewrite <- app_assoc.
Qed.

Lemma process_files_raised (files : list string) :
  forall fs out e,
    raised (process_files skew kurt analyse files fs out) = Some e ->
    exists f,
      In f files
      /\ extract_file skew kurt analyse f = Raise e
      /\ path_exists (disk (process_files skew kurt analyse files fs out) (output_path_of f))
         = false.
Proof.
  induction files as [|f0 rest IH]; intros fs out e H; simpl in *;
    [discriminate|].
  destruct (path_exists (fs (output_path_of f0))) eqn:Eex.
  - destruct (IH _ _ _ H) as (f & Hin & Hf & Hd). exists f. auto.
  - destruct (extract_file skew kurt analyse f0) as [b|e0] eqn:Eb.
    + destruct (IH _ _ _ H) as (f & Hin & Hf & Hd). exists f. auto.
    + simpl in H. injection H as <-. exists f0. simpl. auto.
Qed.

End ScriptFacts.

(** The loop never touches a path that has an entry, and writes nothing
    but the documents of the files whose output path had none: every
    path is as before, or had no entry, is the output path of a file and
    holds the document of that file's features. *)
Theorem run_script_writes (skew kurt : list float -> float)
  (analyse : string -> except Analysis) (files : list string)
  (fs : string -> fs_entry) (p : string) :
  disk (run_script skew kurt analyse files fs) p = fs p
  \/ (path_exists (fs p) = false
      /\ exists f b,
           In f files
           /\ p = output_path_of f
           /\ extract_file skew kurt analyse f = Ok b
           /\ disk (run_script skew kurt analyse files fs) p
              = File (Ok (PDict (features_dict b)))).
Proof. apply process_files_disk. Qed.

(** After a run that raised nothing every file has its document, and a
    second run finds them all: it extracts nothing, leaves the disk as
    it is and prints the output paths only. *)
Theorem run_script_idempotent (skew kurt : list float -> float)
  (analyse : string -> except Analysis) (files : list string)
  (fs : string -> fs_entry) :
  raised (run_script skew kurt analyse files fs) = None ->
  Forall
    (fun f =>
       path_exists
         (disk (run_script skew kurt analyse files fs) (output_path_of f))
       = true) files
  /\ run_script skew kurt analyse files
       (disk (run_script skew kurt analyse files fs))
     = {| disk := disk (run_script skew kurt analyse files fs);
          lines := map output_path_of files;
          raised := None |}.
Proof.
  unfold run_script. intros H.
  pose proof (process_files_complete skew kurt analyse files fs [] H) as Hc.
  split; [now apply Forall_forall|].
  now rewrite (process_files_cached skew kurt analyse files _ [] Hc).
Qed.

(** A run stops at the first file whose extraction raises: that file is
    left without a document. *)
Theorem run_script_raised (skew kurt : list float -> float)
  (analyse : string -> except Analysis) (files : list string)
  (fs : string -> fs_entry) (e : exn) :
  raised (run_script skew kurt analyse files fs) = Some e ->
  exists f,
    In f files
    /\ extract_file skew kurt analyse f = Raise e
    /\ path_exists
         (disk (run_script skew kurt analyse files fs) (output_path_of f))
       = false.
Proof. apply process_files_raised. Qed.

(* ================================================================== *)
(** * Output paths, and the two scripts together *)

Lemma string_length_app (s1 s2 : string) :
  String.length (s1 ++ s2) = String.length s1 + String.length s2.
Proof. induction s1 as [|a r IH]; simpl; [reflexivity | now rewrite IH]. Qed.

Lemma rfind_from_absent (c : ascii) (s : string) :
  forall i last, occurs c s = false -> rfind_from c s i last = last.
Proof.
  induction s as [|a r IH]; simpl; intros i last H; [reflexivity|].
  apply orb_false_elim in H. destruct H as [Ha Hr].
  rewrite Ha. now apply IH.
Qed.

Lemma rfind_from_app (c : ascii) (s1 s2 : string) :
  forall i last,
    rfind_from c (s1 ++ s2) i last
    = rfind_from c s2 (i + Z.of_nat (String.length s1))
        (rfind_from c s1 i last).
Proof.
  induction s1 as [|a r IH]; intros i last.
  - simpl. now rewrite Z.add_0_r.
  - cbn [append rfind_from String.length]. rewrite IH. f_equal. lia.
Qed.

Lemma rfind_last (c : ascii) (s1 s2 : string) :
  occurs c s2 = false ->
  rfind c (s1 ++ String c s2) = Z.of_nat (String.length s1).
Proof.
  intros H. unfold rfind. rewrite rfind_from_app.
  cbn [rfind_from]. rewrite Ascii.eqb_refl.
  rewrite rfind_from_absent by exact H. lia.
Qed.

Lemma substring_app_head (s1 s2 : string) :
  substring 0 (String.length s1) (s1 ++ s2) = s1.
Proof.
  induction s1 as [|a r IH]; simpl.
  - now destruct s2.
  - now rewrite IH.
Qed.

Lemma substring_app_skip (s1 s2 : string) (n m : nat) :
  substring (String.length s1 + n) m (s1 ++ s2) = substring n m s2.
Proof. induction s1 as [|a r IH]; simpl; [reflexivity | exact IH]. Qed.

Lemma substring_whole (s : string) : substring 0 (String.length s) s = s.
Proof. induction s as [|a r IH]; simpl; [reflexivity | now rewrite IH]. Qed.

Lemma occurs_app (c : ascii) (s1 s2 : string) :
  occurs c (s1 ++ s2) = occurs c s1 || occurs c s2.
Proof.
  induction s1 as [|a r IH]; simpl; [reflexivity|].
  now rewrite IH, orb_assoc.
Qed.

Lemma splitext_ok (dir name ext : string) :
  occurs "/" name = false ->
  all_chars (fun a => Ascii.eqb a ".") name = false ->
  occurs "/" ext = false ->
  occurs "." ext = false ->
  splitext (dir ++ "/" ++ name ++ "." ++ ext)
  = (dir ++ "/" ++ name, "." ++ ext).
Proof.
  intros Hn Hd He1 He2. unfold splitext.
  assert (Hsep : rfind "/" (dir ++ "/" ++ name ++ "." ++ ext)
                 = Z.of_nat (String.length dir)).
  { apply (rfind_last "/" dir (name ++ "." ++ ext)).
    rewrite occurs_app, Hn. simpl. exact He1. }
  assert (Hdot : rfind "." (dir ++ "/" ++ name ++ "." ++ ext)
                 = Z.of_nat (String.length (dir ++ "/" ++ name))).
  { replace (dir ++ "/" ++ name ++ "." ++ ext)
      with ((dir ++ "/" ++ name) ++ String "." ext)
      by (now rewrite !string_app_assoc).
    now apply rfind_last. }
  rewrite Hsep, Hdot.
  rewrite !string_length_app. cbn [String.length].
  destruct (Z.ltb_spec (Z.of_nat (String.length dir))
              (Z.of_nat (String.length dir + (1 + String.length name))))
    as [_ | Hge]; [|lia].
  replace (Z.to_nat (Z.of_nat (String.length dir) + 1))
    with (String.length dir + 1) by lia.
  replace (Z.to_nat (Z.of_nat (String.length dir + (1 + String.length name))
                     - (Z.of_nat (String.length dir) + 1)))
    with (String.length name) by lia.
  rewrite Nat2Z.id.
  rewrite substring_app_skip.
  change ("/" ++ name ++ "." ++ ext) with (String "/" (name ++ "." ++ ext)).
  cbn [substring]. rewrite substring_app_head, Hd.
  f_equal.
  - replace (dir ++ String "/" (name ++ "." ++ ext))
      with ((dir ++ "/" ++ name) ++ "." ++ ext)
      by (now rewrite !string_app_assoc).
    replace (String.length dir + (1 + String.length name))
      with (String.length (dir ++ "/" ++ name))
      by (rewrite !string_length_app; reflexivity).
    apply substring_app_head.
  - replace (dir ++ String "/" (name ++ "." ++ ext))
      with ((dir ++ "/" ++ name) ++ "." ++ ext)
      by (now rewrite !string_app_assoc).
    replace (String.length dir + (1 + String.length name))
      with (String.length (dir ++ "/" ++ name) + 0)
      by (rewrite !string_length_app; simpl; lia).
    rewrite substring_app_skip.
    match goal with
    | |- substring 0 ?n _ = _ =>
        replace n with (String.length ("." ++ ext))
          by (rewrite !string_length_app; simpl; lia)
    end.
    apply substring_whole.
Qed.

Lemma splitext_component (dir name ext : string) :
  occurs "/" name = false ->
  occurs "/" ext = false ->
  occurs "." ext = false ->
  splitext (dir ++ "/" ++ name ++ "." ++ ext)
  = if all_chars (fun a => Ascii.eqb a ".") name
    then (dir ++ "/" ++ name ++ "." ++ ext, EmptyString)
    else (dir ++ "/" ++ name, "." ++ ext).
Proof.
  intros Hn He1 He2.
  destruct (all_chars (fun a => Ascii.eqb a ".") name) eqn:Hd;
    [|now apply splitext_ok].
  unfold splitext.
  assert (Hsep : rfind "/" (dir ++ "/" ++ name ++ "." ++ ext)
                 = Z.of_nat (String.length dir)).
  { apply (rfind_last "/" dir (name ++ "." ++ ext)).
    rewrite occurs_app, Hn. simpl. exact He1. }
  assert (Hdot : rfind "." (dir ++ "/" ++ name ++ "." ++ ext)
                 = Z.of_nat (String.length (dir ++ "/" ++ name))).
  { replace (dir ++ "/" ++ name ++ "." ++ ext)
      with ((dir ++ "/" ++ name) ++ String "." ext)
      by (now rewrite !string_app_assoc).
    now apply rfind_last. }
  rewrite Hsep, Hdot.
  rewrite !string_length_app. cbn [String.length].
  destruct (Z.ltb_spec (Z.of_nat (String.length dir))
              (Z.of_nat (String.length dir + (1 + String.length name))))
    as [_ | Hge]; [|lia].
  replace (Z.to_nat (Z.of_nat (String.length dir) + 1))
    with (String.length dir + 1) by lia.
  replace (Z.to_nat (Z.of_nat (String.length dir + (1 + String.length name))
                     - (Z.of_nat (String.length dir) + 1)))
    with (String.length name) by lia.
  rewrite substring_app_skip.
  change ("/" ++ name ++ "." ++ ext) with (String "/" (name ++ "." ++ ext)).
  cbn [substring]. now rewrite substring_app_head, Hd.
Qed.

(** The output path of an audio file [dir/name.ext]: the extension is
    replaced by [.json], unless the name consists of dots only (or is
    empty), in which case [.json] is added to the whole path.  The
    directory is kept as it is, dots included. *)
Theorem output_path_of_component (dir name ext : string) :
  occurs "/" name = false ->
  occurs "/" ext = false ->
  occurs "." ext = false ->
  output_path_of (dir ++ "/" ++ name ++ "." ++ ext)
  = if all_chars (fun a => Ascii.eqb a ".") name
    then dir ++ "/" ++ name ++ "." ++ ext ++ ".json"
    else dir ++ "/" ++ name ++ ".json".
Proof.
  intros Hn He1 He2. unfold output_path_of.
  rewrite (splitext_component dir name ext Hn He1 He2).
  destruct (all_chars (fun a => Ascii.eqb a ".") name); cbn [fst];
    now rewrite !string_app_assoc.
Qed.

Lemma output_path_of_component_witness :
  occurs "/" "Sweden_Waterloo_ABBA feat. X" = false
  /\ occurs "/" "mp3" = false
  /\ occurs "." "mp3" = false
  /\ output_path_of
       ("audio/v1.0/1974" ++ "/" ++ "Sweden_Waterloo_ABBA feat. X" ++ "." ++ "mp3")
     = "audio/v1.0/1974/Sweden_Waterloo_ABBA feat. X.json".
Proof.
  split; [reflexivity|]. split; [reflexivity|]. split; [reflexivity|].
  exact (output_path_of_component "audio/v1.0/1974"
           "Sweden_Waterloo_ABBA feat. X" "mp3" eq_refl eq_refl eq_refl).
Defined.

Lemma all_chars_false_app_r (P : ascii -> bool) (s1 s2 : string) :
  all_chars P s2 = false -> all_chars P (s1 ++ s2) = false.
Proof. intros H. now rewrite all_chars_app, H, andb_false_r. Qed.

(** The resolver looks for the document of a row exactly where the
    extraction script writes the document of the audio file with the
    same stem: for every row whose year is an integer the path is
    [stem.json], and [stem.mp3] (or the stem with any other extension)
    has that output path, whatever dots the names of the row hold. *)
Theorem resolver_path_is_output_path (py_int : string -> except Z)
  (row : CatalogRow) (p : string) :
  json_path_of py_int row = Ok p ->
  exists stem,
    p = stem ++ ".json"
    /\ output_path_of (stem ++ ".mp3") = p
    /\ forall ext,
         occurs "/" ext = false -> occurs "." ext = false ->
         output_path_of (stem ++ "." ++ ext) = p.
Proof.
  intros H. destruct (json_path_of_Ok _ _ _ H) as (y & Hy & ->).
  pose proof (file_name_allowed (to_country row) (song row) (performer row))
    as Hname.
  assert (Hdots : all_chars (fun a => Ascii.eqb a ".")
                    (sanitize (to_country row) ++ "_" ++ sanitize (song row)
                     ++ "_" ++ sanitize (performer row)) = false).
  { rewrite all_chars_app. cbn [append all_chars].
    change (Ascii.eqb "_" ".") with false. cbn [andb].
    apply andb_false_r. }
  revert Hname Hdots.
  generalize (sanitize (to_country row) ++ "_" ++ sanitize (song row)
              ++ "_" ++ sanitize (performer row)).
  intros name Hname Hdots.
  assert (Hslash : occurs "/" name = false)
    by (apply (all_chars_occurs _ _ _ Hname); reflexivity).
  assert (Hext : forall ext,
             occurs "/" ext = false -> occurs "." ext = false ->
             output_path_of (("audio/" ++ str_of_Z y ++ "/" ++ name) ++ "." ++ ext)
             = "audio/" ++ str_of_Z y ++ "/" ++ name ++ ".json").
  { intros ext He1 He2.
    replace (("audio/" ++ str_of_Z y ++ "/" ++ name) ++ "." ++ ext)
      with (("audio/" ++ str_of_Z y) ++ "/" ++ name ++ "." ++ ext)
      by (now rewrite !string_app_assoc).
    unfold output_path_of.
    rewrite (splitext_component _ name ext Hslash He1 He2), Hdots.
    cbn [fst]. now rewrite !string_app_assoc. }
  exists ("audio/" ++ str_of_Z y ++ "/" ++ name).
  split; [now rewrite !string_app_assoc|].
  split; [|exact Hext].
  exact (Hext "mp3" eq_refl eq_refl).
Qed.

Lemma resolver_path_is_output_path_witness :
  json_path_of int_of_decimal sample_row = Ok sample_path
  /\ exists stem,
       sample_path = stem ++ ".json"
       /\ output_path_of (stem ++ ".mp3") = sample_path
       /\ forall ext,
            occurs "/" ext = false -> occurs "." ext = false ->
            output_path_of (stem ++ "." ++ ext) = sample_path.
Proof.
  split; [reflexivity|].
  exact (resolver_path_is_output_path int_of_decimal sample_row sample_path
           eq_refl).
Defined.

(** What the extraction script writes is what the join reads: when the
    document of a row is not on the disk, an audio file with the row's
    output path is among the files, and the run of the script raises
    nothing, then on the disk that the run leaves the join flattens, for
    that row, the features extracted from an audio file with that output
    path. *)
Theorem join_reads_extracted_features (skew kurt : list float -> float)
  (analyse : string -> except Analysis) (py_int : string -> except Z)
  (files : list string) (fs : string -> fs_entry) (row : CatalogRow)
  (p f : string) :
  json_path_of py_int row = Ok p ->
  In f files ->
  output_path_of f = p ->
  path_exists (fs p) = false ->
  raised (run_script skew kurt analyse files fs) = None ->
  exists f' b,
    In f' files
    /\ output_path_of f' = p
    /\ extract_file skew kurt analyse f' = Ok b
    /\ flat_data_of py_int (disk (run_script skew kurt analyse files fs)) row
       = flatten_bundle b.
Proof.
  unfold run_script. intros Hp Hin Hout Hmiss Hrun.
  pose proof (process_files_complete skew kurt analyse files fs [] Hrun f Hin)
    as Hdone.
  rewrite Hout in Hdone.
  destruct (process_files_disk skew kurt analyse files fs [] p)
    as [Hsame | (_ & f' & b & Hin' & Hout' & Hb & Hd)].
  - rewrite Hsame in Hdone. congruence.
  - exists f', b. split; [exact Hin'|]. split; [now symmetry|].
    split; [exact Hb|].
    now rewrite (flat_data_of_file py_int _ row p _ Hp Hd).
Qed.

Lemma join_reads_extracted_features_witness :
  json_path_of int_of_decimal sample_row = Ok sample_path
  /\ In sample_audio [sample_audio]
  /\ output_path_of sample_audio = sample_path
  /\ path_exists (empty_fs sample_path) = false
  /\ raised (run_script no_moment no_moment analyse_beatless [sample_audio]
               empty_fs) = None
  /\ exists f' b,
       In f' [sample_audio]
       /\ output_path_of f' = sample_path
       /\ extract_file no_moment no_moment analyse_beatless f' = Ok b
       /\ flat_data_of int_of_decimal
            (disk (run_script no_moment no_moment analyse_beatless
                     [sample_audio] empty_fs)) sample_row
          = flatten_bundle b.
Proof.
  assert (H1 : In sample_audio [sample_audio]) by (left; reflexivity).
  assert (H2 : output_path_of sample_audio = sample_path)
    by (vm_compute; reflexivity).
  assert (H3 : raised (run_script no_moment no_moment analyse_beatless
                         [sample_audio] empty_fs) = None)
    by (vm_compute; reflexivity).
  split; [reflexivity|]. split; [exact H1|]. split; [exact H2|].
  split; [reflexivity|]. split; [exact H3|].
  exact (join_reads_extracted_features no_moment no_moment analyse_beatless
           int_of_decimal [sample_audio] empty_fs sample_row sample_path
           sample_audio eq_refl H1 H2 eq_refl H3).
Defined.

Lemma run_script_idempotent_witness :
  raised (run_script no_moment no_moment analyse_beatless [sample_audio]
            empty_fs) = None
  /\ Forall
       (fun f =>
          path_exists
            (disk (run_script no_moment no_moment analyse_beatless
                     [sample_audio] empty_fs) (output_path_of f))
          = true) [sample_audio]
  /\ run_script no_moment no_moment analyse_beatless [sample_audio]
       (disk (run_script no_moment no_moment analyse_beatless
                [sample_audio] empty_fs))
     = {| disk := disk (run_script no_moment no_moment analyse_beatless
                          [sample_audio] empty_fs);
          lines := map output_path_of [sample_audio];
          raised := None |}.
Proof.
  assert (H : raised (run_script no_moment no_moment analyse_beatless
                        [sample_audio] empty_fs) = None)
    by (vm_compute; reflexivity).
  split; [exact H|].
  exact (run_script_idempotent no_moment no_moment analyse_beatless
           [sample_audio] empty_fs H).
Defined.

Lemma run_script_raised_witness :
  raised (run_script no_moment no_moment (fun _ => Raise ValueError)
            [sample_audio] empty_fs) = Some ValueError
  /\ exists f,
       In f [sample_audio]
       /\ extract_file no_moment no_moment (fun _ => Raise ValueError) f
          = Raise ValueError
       /\ path_exists
            (disk (run_script no_moment no_moment (fun _ => Raise ValueError)
                     [sample_audio] empty_fs) (output_path_of f))
          = false.
Proof.
  assert (H : raised (run_script no_moment no_moment
                        (fun _ => Raise ValueError)
                        [sample_audio] empty_fs) = Some ValueError)
    by (vm_compute; reflexivity).
  split; [exact H|].
  exact (run_script_raised no_moment no_moment (fun _ => Raise ValueError)
           [sample_audio] empty_fs ValueError H).
Defined.
